(** * buzz: an interactive terminal HTTP client

    A shallow embedding of the editor chain, the layout arithmetic, the
    request pipeline and the history store of [buzz.go] and of the
    user-interface file that accompanies it, with the properties of the
    specification stated over that embedding. *)

From Stdlib Require Import ZArith Lia Bool Ascii.
From Stdlib Require String.
From Stdlib Require Import Floats.SpecFloat.
From stdpp Require Import base decidable option list sorting gmap strings pretty.

Local Open Scope Z_scope.

(** * Go strings

    A Go string is a sequence of bytes; [string] over [ascii] is exactly
    that.  Only the functions of package [strings] that the program calls
    are modelled, each at the arguments it is called with. *)
Module GoStrings.

Definition NL : ascii := "010"%char.
Definition TAB : ascii := "009"%char.
Definition CR : ascii := "013"%char.
Definition SP : ascii := " "%char.

(** [strings.HasPrefix(s, prefix)]. *)
Fixpoint HasPrefix (s prefix : string) : bool :=
  match prefix, s with
  | EmptyString, _ => true
  | String _ _, EmptyString => false
  | String p prefix', String c s' => Ascii.eqb c p && HasPrefix s' prefix'
  end.

(** Membership of a byte in an (ASCII) cutset. *)
Fixpoint inCutset (c : ascii) (cutset : string) : bool :=
  match cutset with
  | EmptyString => false
  | String d cutset' => Ascii.eqb c d || inCutset c cutset'
  end.

(** [strings.TrimRight(s, cutset)] for an ASCII cutset: the longest
    suffix made of cutset bytes is removed. *)
Fixpoint TrimRight (s cutset : string) : string :=
  match s with
  | EmptyString => EmptyString
  | String c s' =>
      match TrimRight s' cutset with
      | EmptyString => if inCutset c cutset then EmptyString
                       else String c EmptyString
      | t => String c t
      end
  end.

(** The last byte of a string, if any. *)
Fixpoint lastByte (s : string) : option ascii :=
  match s with
  | EmptyString => None
  | String c EmptyString => Some c
  | String _ s' => lastByte s'
  end.

(** White space of one byte: [unicode.IsSpace] below U+0080, and the
    table [asciiSpace] of package [strings]. *)
Definition isSpace (c : ascii) : bool :=
  inCutset c (String TAB (String NL (String "011" (String "012"
             (String CR (String SP EmptyString)))))).

(** [strings.Replace(s, old, new, -1)] at a one-byte [old] and [new],
    the only way the program calls it. *)
Fixpoint ReplaceByte (s : string) (old new : ascii) : string :=
  match s with
  | EmptyString => EmptyString
  | String c s' =>
      String (if Ascii.eqb c old then new else c) (ReplaceByte s' old new)
  end.

(** [strings.Split(s, "\n")]: never empty; an empty [s] gives one
    empty string. *)
Fixpoint SplitNL (s : string) : list string :=
  match s with
  | EmptyString => [EmptyString]
  | String c s' =>
      match SplitNL s' with
      | [] => [String c EmptyString]
      | t :: ts =>
          if Ascii.eqb c NL then EmptyString :: t :: ts
          else String c t :: ts
      end
  end.

(** [strings.Cut(s, ": ")]: the text before and after the first
    occurrence of a colon followed by a space. *)
Fixpoint cutColonSpace (s : string) : option (string * string) :=
  match s with
  | EmptyString => None
  | String c s' =>
      match s' with
      | String d s'' =>
          if Ascii.eqb c ":" && Ascii.eqb d SP then Some (EmptyString, s'')
          else match cutColonSpace s' with
               | Some (a, b) => Some (String c a, b)
               | None => None
               end
      | EmptyString => None
      end
  end.

(** [strings.SplitN(s, ": ", 2)]. *)
Definition SplitN2ColonSpace (s : string) : list string :=
  match cutColonSpace s with
  | Some (a, b) => [a; b]
  | None => [s]
  end.

(** White space above U+007F as [unicode.IsSpace] has it, in UTF-8:
    U+0085 and U+00A0 take two bytes; U+1680, U+2000 to U+200A, U+2028,
    U+2029, U+202F, U+205F and U+3000 take three. *)
Definition isSpace2 (c d : ascii) : bool :=
  Ascii.eqb c "194" && (Ascii.eqb d "133" || Ascii.eqb d "160").

Definition isSpace3 (c d e : ascii) : bool :=
  (Ascii.eqb c "225" && Ascii.eqb d "154" && Ascii.eqb e "128")
  || (Ascii.eqb c "226" && Ascii.eqb d "128"
      && (((128 <=? nat_of_ascii e)%nat && (nat_of_ascii e <=? 138)%nat)
          || Ascii.eqb e "168" || Ascii.eqb e "169" || Ascii.eqb e "175"))
  || (Ascii.eqb c "226" && Ascii.eqb d "129" && Ascii.eqb e "159")
  || (Ascii.eqb c "227" && Ascii.eqb d "128" && Ascii.eqb e "128").

(** [strings.TrimLeftFunc(s, unicode.IsSpace)]: the runes of white
    space at the start are removed.  A byte that starts no valid
    encoding decodes to U+FFFD, which is no white space. *)
Fixpoint TrimLeftSpace (s : string) : string :=
  match s with
  | EmptyString => EmptyString
  | String c s1 =>
      if isSpace c then TrimLeftSpace s1
      else match s1 with
           | String d s2 =>
               if isSpace2 c d then TrimLeftSpace s2
               else match s2 with
                    | String e s3 =>
                        if isSpace3 c d e then TrimLeftSpace s3 else s
                    | EmptyString => s
                    end
           | EmptyString => s
           end
  end.

(** The bytes of a string in reverse order. *)
Fixpoint reverseOnto (s acc : string) : string :=
  match s with
  | EmptyString => acc
  | String c s' => reverseOnto s' (String c acc)
  end.

Definition reverse (s : string) : string := reverseOnto s EmptyString.

(** The runes of white space at the end, on the reversed bytes: the
    last rune is found from the last byte backwards, as
    [utf8.DecodeLastRuneInString] does. *)
Fixpoint TrimLeftSpaceReversed (s : string) : string :=
  match s with
  | EmptyString => EmptyString
  | String c s1 =>
      if isSpace c then TrimLeftSpaceReversed s1
      else match s1 with
           | String d s2 =>
               if isSpace2 d c then TrimLeftSpaceReversed s2
               else match s2 with
                    | String e s3 =>
                        if isSpace3 e d c then TrimLeftSpaceReversed s3
                        else s
                    | EmptyString => s
                    end
           | EmptyString => s
           end
  end.

(** [strings.TrimRightFunc(s, unicode.IsSpace)]. *)
Definition TrimRightSpace (s : string) : string :=
  reverse (TrimLeftSpaceReversed (reverse s)).

(** [strings.TrimSpace(s)]: the white space of Unicode is removed at
    both ends, first at the start and then at the end of what is
    left. *)
Definition TrimSpace (s : string) : string :=
  TrimRightSpace (TrimLeftSpace s).

(** [strings.Join(elems, sep)]. *)
Definition Join (elems : list string) (sep : string) : string :=
  String.concat sep elems.

(** [s[n:]] and [s[:n]]; slicing beyond the length panics ([None]). *)
Definition sliceFrom (s : string) (n : Z) : option string :=
  if (0 <=? n) && (n <=? Z.of_nat (String.length s))
  then Some (String.substring (Z.to_nat n)
               (String.length s - Z.to_nat n) s)
  else None.

Definition sliceTo (s : string) (n : Z) : option string :=
  if (0 <=? n) && (n <=? Z.of_nat (String.length s))
  then Some (String.substring 0 (Z.to_nat n) s)
  else None.

End GoStrings.
Import GoStrings.

(** * Autocomplete candidates *)

(** [completeFromSlice]: the loop appends to [completed] in the order of
    [completions]. *)
Definition completeFromSlice (str : string) (completions : list string)
  : list string :=
  let completed : list string := [] in
  if String.eqb str ""
     || negb (String.eqb (TrimRight str (String SP (String NL ""))) str)
  then completed
  else
    fold_left
      (fun completed completion =>
         if HasPrefix completion str && negb (String.eqb str completion)
         then completed ++ [completion]
         else completed)
      completions completed.

(** [T] is a strict prefix of [c]: [c] is [T] followed by something. *)
Definition strict_prefix (T c : string) : Prop :=
  exists suffix, suffix <> "" /\ c = T +:+ suffix.

(** [T] ends in white space. *)
Definition ends_in_whitespace (T : string) : Prop :=
  exists c, lastByte T = Some c /\ isSpace c = true.

(** [T] ends in one of the two bytes that [completeFromSlice] trims. *)
Definition ends_in_space_or_newline (T : string) : Prop :=
  lastByte T = Some SP \/ lastByte T = Some NL.

(** [symbolPattern] is [[a-zA-Z0-9-]+$]: a byte of the class. *)
Definition isSymbolByte (c : ascii) : bool :=
  let n := N_of_ascii c in
  ((97 <=? n) && (n <=? 122) || (65 <=? n) && (n <=? 90)
   || (48 <=? n) && (n <=? 57) || (n =? 45))%N.

(** [getLastSymbol]: [symbolPattern.FindString(str)], the longest run of
    class bytes that ends the string (empty when there is none). *)
Fixpoint getLastSymbol (str : string) : string :=
  match str with
  | EmptyString => EmptyString
  | String c str' =>
      let r := getLastSymbol str' in
      if isSymbolByte c && (String.length r =? String.length str')%nat
      then String c r else r
  end.

(** * Layout arithmetic: [position.getCoordinate]

    [pct] is a [float32].  IEEE 754 binary32 is [spec_float] at precision
    24 and maximal exponent 128, with the library's round-to-nearest-even
    operations. *)
Module Float32.

Definition prec : Z := 24.
Definition emax : Z := 128.

Definition float32 : Type := spec_float.

(** [float32(n)] for an integer [n]. *)
Definition ofInt (n : Z) : float32 := binary_normalize prec emax n 0 false.

(** [x * y] on [float32]. *)
Definition mul (x y : float32) : float32 := SFmul prec emax x y.

(** The integer part of a finite float, rounded toward zero. *)
Definition truncate (f : float32) : option Z :=
  match f with
  | S754_zero _ => Some 0
  | S754_finite s m e => Some (cond_Zopp s (Z.shiftl (Z.pos m) e))
  | S754_infinity _ | S754_nan => None
  end.

(** The floor of the real number a finite float denotes. *)
Definition floor (f : float32) : option Z :=
  match f with
  | S754_zero _ => Some 0
  | S754_finite s m e =>
      Some (if 0 <=? e then cond_Zopp s (Z.pos m) * 2 ^ e
            else cond_Zopp s (Z.pos m) / 2 ^ (- e))
  | S754_infinity _ | S754_nan => None
  end.

(** The floor of the exact (real) product of a finite float and an
    integer. *)
Definition floorTimes (f : float32) (n : Z) : option Z :=
  match f with
  | S754_zero _ => Some 0
  | S754_finite s m e =>
      Some (if 0 <=? e then cond_Zopp s (Z.pos m) * 2 ^ e * n
            else (cond_Zopp s (Z.pos m) * n) / 2 ^ (- e))
  | S754_infinity _ | S754_nan => None
  end.

(** The sign bit. *)
Definition sign (f : float32) : bool :=
  match f with
  | S754_zero s | S754_infinity s | S754_finite s _ _ => s
  | S754_nan => false
  end.

End Float32.

(** Go's [int] on the 64-bit targets. *)
Module GoInt.

Definition minInt : Z := - 2 ^ 63.
Definition maxInt : Z := 2 ^ 63 - 1.

Definition inRange (z : Z) : bool := (minInt <=? z) && (z <=? maxInt).

(** Two's complement wrap-around of integer arithmetic. *)
Definition wrap (z : Z) : Z := (z + 2 ^ 63) mod 2 ^ 64 - 2 ^ 63.

Definition add (x y : Z) : Z := wrap (x + y).

(** [int(f)]: the fraction is discarded; when the value does not fit
    (or is not a number) the language leaves the result to the
    implementation, which is [None] here. *)
Definition ofFloat32 (f : Float32.float32) : option Z :=
  match Float32.truncate f with
  | Some z => if inRange z then Some z else None
  | None => None
  end.

End GoInt.

Record position : Type := mkPosition {
  (* value = prc * MAX + abs *)
  pct : Float32.float32;
  abs : Z
}.

Record viewPosition : Type := mkViewPosition {
  x0 : position; y0 : position; x1 : position; y1 : position
}.

(** [position.getCoordinate]:
    [int(p.pct*float32(max)) + p.abs]. *)
Definition getCoordinate (p : position) (max : Z) : option Z :=
  match GoInt.ofFloat32 (Float32.mul (pct p) (Float32.ofInt max)) with
  | Some z => Some (GoInt.add z (abs p))
  | None => None
  end.

(** The coordinate as the specification words it: the floor of the
    exact product of the fraction and the size, plus the offset. *)
Definition floorCoordinate (p : position) (max : Z) : option Z :=
  match Float32.floorTimes (pct p) max with
  | Some z => Some (z + abs p)
  | None => None
  end.

(** Some [float32] values: 0, 0.5 and 1 are in the position table. *)
Definition f32_0 : Float32.float32 := S754_zero false.
Definition f32_half : Float32.float32 := S754_finite false 8388608 (-24).
Definition f32_minus_half : Float32.float32 := S754_finite true 8388608 (-24).
Definition f32_1 : Float32.float32 := S754_finite false 8388608 (-23).
(** [0.7] as a [float32] is 11744051 * 2^-24 = 0.699999988079071044921875. *)
Definition f32_0_7 : Float32.float32 := S754_finite false 11744051 (-24).

(** * View names *)

Definition URL_VIEW : string := "url".
Definition URL_PARAMS_VIEW : string := "get".
Definition REQUEST_METHOD_VIEW : string := "method".
Definition REQUEST_DATA_VIEW : string := "data".
Definition REQUEST_HEADERS_VIEW : string := "headers".
Definition STATUSLINE_VIEW : string := "status-line".
Definition SEARCH_VIEW : string := "search".
Definition RESPONSE_HEADERS_VIEW : string := "response-headers".
Definition RESPONSE_BODY_VIEW : string := "response-body".
Definition POPUP_VIEW : string := "popup_view".
Definition AUTOCOMPLETE_VIEW : string := "autocomplete_view".
Definition HISTORY_VIEW : string := "history".

Definition VIEWS : list string :=
  [URL_VIEW; URL_PARAMS_VIEW; REQUEST_METHOD_VIEW; REQUEST_DATA_VIEW;
   REQUEST_HEADERS_VIEW; SEARCH_VIEW; RESPONSE_HEADERS_VIEW;
   RESPONSE_BODY_VIEW].

(** * HTTP values *)

(** [http.Header] is [map[string][]string]. *)
Abbreviation Header := (gmap string (list string)).

(** What reading a body to its end gives: the bytes, or an error. *)
Inductive ReadResult : Type :=
| ReadOk (bytes : string)
| ReadErr (err : string).

(** An [*http.Response], with what its body yields when read as it is
    and when read through [gzip.NewReader] (whose creation may fail). *)
Record Response : Type := mkResponse {
  StatusCode : Z;
  respHeader : Header;
  respTrailer : Header;
  respBody : ReadResult;
  respGzipBody : string + ReadResult
}.

(** The [*http.Request] handed to [CLIENT.Do]. *)
Record HttpRequest : Type := mkHttpRequest {
  reqMethod : string;
  reqURL : string;
  reqHeader : Header;
  reqHost : string;
  reqBody : option string
}.

(** [formatter.ResponseFormatter]: [Format] gives what it writes and
    its error, if any. *)
Record ResponseFormatter : Type := mkFormatter {
  Title : string;
  Searchable : bool;
  Format : string -> string * option string;
  Search : string -> string -> string + list string
}.

Record Request : Type := mkRequest {
  Url : string;
  Method : string;
  GetParams : string;
  Data : string;
  Headers : string;
  ResponseHeaders : string;
  RawResponseBody : option string;
  ContentType : string;
  Duration : Z;
  Formatter : option ResponseFormatter
}.

(** [Request{}]. *)
Definition emptyRequest : Request :=
  mkRequest "" "" "" "" "" "" None "" 0 None.

(** A [*Request]. *)
Definition ptr : Type := nat.

(** * The gocui collaborator *)

(** The functions handed to [g.Update], one constructor per closure of
    the source. *)
Inductive Update : Type :=
| UFprintBody (msg : string)
    (* vrb, _ := g.View(RESPONSE_BODY_VIEW); fmt.Fprintf(vrb, ...) *)
| UClearFprintBody (msg : string)
    (* the same after vrb.Clear(), in LoadRequest *)
| USetData (data : string)
    (* the closure of LoadRequest on REQUEST_DATA_VIEW *)
| UPrintBody
    (* the closure of PrintBody *)
| URender (r : ptr) (response : Response).
    (* the closure that renders a response in SubmitRequest *)

(** A [*gocui.View]: its rectangle, the text written since the last
    [Clear], cursor, origin and title. *)
Record View : Type := mkView {
  vRect : Z * Z * Z * Z;
  vBuffer : string;
  vCursor : Z * Z;
  vOrigin : Z * Z;
  vTitle : string
}.

Record Gui : Type := mkGui {
  gSize : Z * Z;
  views : gmap string View;
  updates : list Update;
  currentView : string;
  gCursor : bool
}.

Module Gocui.

Definition withViews (g : Gui) (vs : gmap string View) : Gui :=
  mkGui (gSize g) vs (updates g) (currentView g) (gCursor g).

Definition withUpdates (g : Gui) (us : list Update) : Gui :=
  mkGui (gSize g) (views g) us (currentView g) (gCursor g).

Definition withCursor (g : Gui) (b : bool) : Gui :=
  mkGui (gSize g) (views g) (updates g) (currentView g) b.

(** [g.View(name)]; [None] is [ErrUnknownView]. *)
Definition GetView (g : Gui) (name : string) : option View :=
  views g !! name.

Definition putView (g : Gui) (name : string) (v : View) : Gui :=
  withViews g (<[name := v]> (views g)).

(** [g.DeleteView(name)]. *)
Definition DeleteView (g : Gui) (name : string) : Gui :=
  withViews g (delete name (views g)).

(** [g.SetCurrentView(name)]: nothing changes for an unknown view. *)
Definition SetCurrentView (g : Gui) (name : string) : Gui :=
  match GetView g name with
  | Some _ => mkGui (gSize g) (views g) (updates g) name (gCursor g)
  | None => g
  end.

(** [g.Update(f)]: [f] waits in the queue of the main loop. *)
Definition Update_ (g : Gui) (f : Update) : Gui :=
  withUpdates g (updates g ++ [f]).

Inductive SetViewResult : Type :=
| SetViewOk (g : Gui)          (* the view existed and was moved *)
| SetViewUnknown (g : Gui)     (* created: ErrUnknownView *)
| SetViewError.                (* invalid dimensions *)

(** [g.SetView(name, x0, y0, x1, y1)]. *)
Definition SetView (g : Gui) (name : string) (x0 y0 x1 y1 : Z)
  : SetViewResult :=
  if (x1 <=? x0) || (y1 <=? y0) then SetViewError
  else match GetView g name with
       | Some v =>
           SetViewOk (putView g name
             (mkView (x0, y0, x1, y1) (vBuffer v) (vCursor v)
                     (vOrigin v) (vTitle v)))
       | None =>
           SetViewUnknown (putView g name
             (mkView (x0, y0, x1, y1) "" (0, 0) (0, 0) ""))
       end.

(** [v.Size()]. *)
Definition Size (v : View) : Z * Z :=
  let '(x0, y0, x1, y1) := vRect v in (x1 - x0 - 1, y1 - y0 - 1).

(** [v.Clear()]. *)
Definition Clear (v : View) : View :=
  mkView (vRect v) "" (vCursor v) (vOrigin v) (vTitle v).

(** [fmt.Fprint(v, s)]. *)
Definition Fprint (v : View) (s : string) : View :=
  mkView (vRect v) (vBuffer v +:+ s) (vCursor v) (vOrigin v) (vTitle v).

(** [v.SetCursor(x, y)]: refused outside the view. *)
Definition SetCursor (v : View) (x y : Z) : View :=
  let '(maxX, maxY) := Size v in
  if (x <? 0) || (maxX <=? x) || (y <? 0) || (maxY <=? y) then v
  else mkView (vRect v) (vBuffer v) (x, y) (vOrigin v) (vTitle v).

(** [v.SetOrigin(x, y)]: refused for a negative coordinate. *)
Definition SetOrigin (v : View) (x y : Z) : View :=
  if (x <? 0) || (y <? 0) then v
  else mkView (vRect v) (vBuffer v) (vCursor v) (x, y) (vTitle v).

Definition SetTitle (v : View) (t : string) : View :=
  mkView (vRect v) (vBuffer v) (vCursor v) (vOrigin v) t.

(** [v.Line(y)], without line wrapping; [None] is its error. *)
Definition Line (v : View) (y : Z) : option string :=
  if String.eqb (vBuffer v) "" then None
  else if y + snd (vOrigin v) <? 0 then None
  else SplitNL (vBuffer v) !! Z.to_nat (y + snd (vOrigin v)).

End Gocui.

(** [getViewValue]: the trimmed text of a view, empty for a view that
    does not exist. *)
Definition getViewValue (g : Gui) (name : string) : string :=
  match Gocui.GetView g name with
  | None => ""
  | Some v => TrimSpace (vBuffer v)
  end.

(** [setViewTextAndCursor]. *)
Definition setViewTextAndCursor (v : View) (s : string) : View :=
  Gocui.SetCursor (Gocui.Fprint (Gocui.Clear v) s)
    (Z.of_nat (String.length s)) 0.

(** [v, _ := g.View(name); setViewTextAndCursor(v, s)]: a missing view
    is a nil pointer, and the call panics ([None]). *)
Definition setViewTextAndCursorAt (g : Gui) (name s : string)
  : option Gui :=
  v ← Gocui.GetView g name;
  Some (Gocui.putView g name (setViewTextAndCursor v s)).

(** * The application state *)

(** The two options of [config.General] that rendering reads. *)
Record Config : Type := mkConfig {
  PreserveScrollPosition : bool;
  ContextSpecificSearch : bool
}.

Record App : Type := mkApp {
  viewIndex : Z;
  historyIndex : Z;
  currentPopup : string;
  history : list ptr;
  config : Config
}.

(** The program state: the user interface, the [App], the [Request]s
    that pointers denote, and the requests handed to [CLIENT.Do] so
    far. *)
Record State : Type := mkState {
  gui : Gui;
  app : App;
  requests : gmap ptr Request;
  sent : list HttpRequest
}.

Definition withGui (st : State) (g : Gui) : State :=
  mkState g (app st) (requests st) (sent st).

Definition withApp (st : State) (a : App) : State :=
  mkState (gui st) a (requests st) (sent st).

Definition withRequests (st : State) (rs : gmap ptr Request) : State :=
  mkState (gui st) (app st) rs (sent st).

Definition withSent (st : State) (l : list HttpRequest) : State :=
  mkState (gui st) (app st) (requests st) l.

(** [main]: [app := &App{history: make([]*Request, 0, 31)}]. *)
Definition initialApp (c : Config) : App := mkApp 0 0 "" [] c.

(** [url.Values] is [map[string][]string]. *)
Abbreviation Values := (gmap string (list string)).

(** What building a multipart payload gives: the payload, a file that
    could not be opened (reported), or another failure (not reported). *)
Inductive MultipartResult : Type :=
| MultipartBody (bytes : string)
| MultipartOpenError (err : string)
| MultipartAbort.

(** The collaborators outside the program: packages [net/url],
    [net/textproto], [mime/multipart] and [os] with the file system,
    [net/http] with the network, [encoding/json] and [formatter].
    [CLIENT_Do] sees the exchanges made so far and also gives the time
    the exchange took; an error is [inl] of its text. *)
Record World : Type := mkWorld {
  URLT : Type;
  url_Parse : string -> string + URLT;
  url_ParseQuery : string -> string + Values;
  URL_Query : URLT -> Values;
  Values_Encode : Values -> string;
  URL_String : URLT -> string -> string;
  CanonicalMIMEHeaderKey : string -> string;
  writeMultipart : Values -> MultipartResult;
  http_NewRequest : string -> string -> option string;
  CLIENT_Do : list HttpRequest -> HttpRequest -> (string + Response) * Z;
  formatter_New : Config -> string -> ResponseFormatter;
  DEFAULT_FORMATTER : ResponseFormatter;
  http_StatusText : Z -> string;
  os_ReadFile : string -> string + string;
  json_Marshal : gmap string string -> string + string;
  json_Unmarshal : string -> string + gmap string string
}.

Section Headers.

Variable w : World.

(** [h.Set(key, value)]. *)
Definition Header_Set (h : Header) (key value : string) : Header :=
  <[CanonicalMIMEHeaderKey w key := [value]]> h.

(** [h.Get(key)]. *)
Definition Header_Get (h : Header) (key : string) : string :=
  match h !! CanonicalMIMEHeaderKey w key with
  | Some (v :: _) => v
  | _ => ""
  end.

(** The loop over the header lines of [SubmitRequest]: the headers
    set, or the first line that is not [Name: Value]. *)
Fixpoint setHeaders (lines : list string) (headers : Header)
  : string + Header :=
  match lines with
  | [] => inr headers
  | header :: lines' =>
      if String.eqb header "" then setHeaders lines' headers
      else match SplitN2ColonSpace header with
           | [name; value] =>
               setHeaders lines' (Header_Set headers name value)
           | _ => inl header
           end
  end.

End Headers.

(** The query parameters of the field are added to those of the URL:
    [originalQuery.Add(k, qp)] for every [k] and every [qp] of [q]. *)
Definition addQuery (originalQuery q : Values) : Values :=
  union_with (fun v1 v2 => Some (v1 ++ v2)) originalQuery q.

Definition ESC : ascii := "027"%char.

(** The order of [sort.Strings]: byte-wise lexicographic. *)
Definition string_le (a b : string) : Prop := String.leb a b = true.

#[global] Instance string_le_dec : RelDecision string_le :=
  fun a b => decide (String.leb a b = true).

(** [writeSortedHeaders], as the text written. *)
Definition writeSortedHeaders (h : Header) : string :=
  let hkeys := merge_sort string_le (map fst (map_to_list h)) in
  String.concat ""
    (map (fun hname =>
            String ESC "[0;33m" +:+ hname +:+ ":" +:+ String ESC "[0;0m "
            +:+ Join (default [] (h !! hname)) "," +:+ String NL "")
         hkeys).

(** ** Popups *)

(** [setView] at a given entry of [VIEW_POSITIONS]. *)
Definition setView (g : Gui) (viewName : string) (position : viewPosition)
  : option Gocui.SetViewResult :=
  let '(maxX, maxY) := gSize g in
  c0 ← getCoordinate (x0 position) (maxX + 1);
  c1 ← getCoordinate (y0 position) (maxY + 1);
  c2 ← getCoordinate (x1 position) (maxX + 1);
  c3 ← getCoordinate (y1 position) (maxY + 1);
  Some (Gocui.SetView g viewName c0 c1 c2 c3).

(** [popup]: the entry of [POPUP_VIEW] gets its offsets from the length
    of the message, and its properties the message as text. *)
Definition popup (g : Gui) (msg : string) : option Gui :=
  let len := Z.of_nat (String.length msg) in
  let pos := mkViewPosition
               (mkPosition f32_half (Z.quot (- len) 2 - 1))
               (mkPosition f32_half (-1))
               (mkPosition f32_half (Z.quot len 2 + 1))
               (mkPosition f32_half 1) in
  r ← setView g POPUP_VIEW pos;
  match r with
  | Gocui.SetViewUnknown g' =>
      v ← Gocui.GetView g' POPUP_VIEW;
      Some (Gocui.putView g' POPUP_VIEW
              (setViewTextAndCursor (Gocui.SetTitle v "Info") msg))
  | Gocui.SetViewOk g' => Some g'
  | Gocui.SetViewError => Some g
  end.

(** [App.closePopup]. *)
Definition closePopup (g : Gui) (a : App) (viewname : string)
  : option (Gui * App) :=
  match Gocui.GetView g viewname with
  | Some _ =>
      let a' := mkApp (viewIndex a) (historyIndex a) "" (history a)
                  (config a) in
      let g' := Gocui.DeleteView g viewname in
      if viewIndex a <? 0 then None
      else
        name ← VIEWS !! Z.to_nat (Z.rem (viewIndex a)
                                     (Z.of_nat (length VIEWS)));
        Some (Gocui.withCursor (Gocui.SetCurrentView g' name) true, a')
  | None => Some (g, a)
  end.

(** ** The history store *)

(** [a.history = append(a.history, r)]. *)
Definition appendHistory (a : App) (r : ptr) : App :=
  mkApp (viewIndex a) (historyIndex a) (currentPopup a)
        (history a ++ [r]) (config a).

(** [a.historyIndex = idx]. *)
Definition setHistoryIndex (a : App) (idx : Z) : App :=
  mkApp (viewIndex a) idx (currentPopup a) (history a) (config a).

(** [a.history[i]]; an index out of range panics ([None]). *)
Definition historyAt (a : App) (i : Z) : option ptr :=
  if i <? 0 then None else history a !! Z.to_nat i.

(** [App.PrintBody]: the rendering waits in the queue. *)
Definition PrintBody (g : Gui) : Gui := Gocui.Update_ g UPrintBody.

Section Program.

Variable w : World.

(** ** Rendering *)

(** The closure of [PrintBody]. *)
Definition runPrintBody (st : State) : option State :=
  let a := app st in
  let g := gui st in
  if (length (history a) =? 0)%nat then Some st
  else
    p ← historyAt a (historyIndex a);
    req ← requests st !! p;
    match RawResponseBody req with
    | None => Some st
    | Some raw =>
        vrb ← Gocui.GetView g RESPONSE_BODY_VIEW;
        let vrb := Gocui.Clear vrb in
        responseFormatter ← Formatter req;
        let vrb := Gocui.SetTitle vrb
                     ("Response body" +:+ " " +:+ Title responseFormatter) in
        let search_text := getViewValue g "search" in
        let put v := Some (withGui st (Gocui.putView g RESPONSE_BODY_VIEW v)) in
        if String.eqb search_text "" || negb (Searchable responseFormatter)
        then
          let '(out, err) := Format responseFormatter raw in
          let vrb := Gocui.Fprint vrb out in
          match err with
          | Some e =>
              put (Gocui.Fprint vrb
                     ("Error: cannot decode response body: " +:+ e))
          | None =>
              if negb (PreserveScrollPosition (config a))
                 || negb (bool_decide (is_Some (Gocui.Line vrb 0)))
              then put (Gocui.SetOrigin vrb 0 0)
              else put vrb
          end
        else
          let responseFormatter :=
            if negb (ContextSpecificSearch (config a))
            then DEFAULT_FORMATTER w else responseFormatter in
          let vrb := Gocui.SetOrigin vrb 0 0 in
          match Search responseFormatter search_text raw with
          | inl err => put (Gocui.Fprint vrb ("Search error: " +:+ err))
          | inr results =>
              if (length results =? 0)%nat
              then put (Gocui.Fprint (Gocui.SetTitle vrb "No results")
                          "Error: no results")
              else put
                (fold_left
                   (fun v result =>
                      Gocui.Fprint v
                        ("-----" +:+ String NL result +:+ String NL ""))
                   results
                   (Gocui.SetTitle vrb
                      (pretty (Z.of_nat (length results)) +:+ " results")))
          end
    end.

(** The closure of [SubmitRequest] that renders the response of the
    request [r]. *)
Definition runRender (r : ptr) (response : Response) (st : State)
  : option State :=
  let g := PrintBody (gui st) in
  let status_color := if StatusCode response =? 200 then 32 else 31 in
  let header :=
    String ESC "[0;" +:+ pretty status_color +:+ "mHTTP/1.1 "
    +:+ pretty (StatusCode response) +:+ " "
    +:+ http_StatusText w (StatusCode response)
    +:+ String ESC "[0;0m" +:+ String NL ""
    +:+ writeSortedHeaders (respHeader response)
    +:+ writeSortedHeaders (respTrailer response) in
  let rs := alter (fun q => mkRequest (Url q) (Method q) (GetParams q)
                              (Data q) (Headers q) header
                              (RawResponseBody q) (ContentType q)
                              (Duration q) (Formatter q))
              r (requests st) in
  vrh ← Gocui.GetView g RESPONSE_HEADERS_VIEW;
  let vrh := Gocui.Fprint vrh header in
  let vrh := if bool_decide (is_Some (Gocui.Line vrh 0)) then vrh
             else Gocui.SetOrigin vrh 0 0 in
  Some (withRequests (withGui st (Gocui.putView g RESPONSE_HEADERS_VIEW vrh))
          rs).

(** One function of the queue, run by the main loop; [None] is a
    panic. *)
Definition runUpdate (u : Update) (st : State) : option State :=
  match u with
  | UFprintBody msg =>
      vrb ← Gocui.GetView (gui st) RESPONSE_BODY_VIEW;
      Some (withGui st (Gocui.putView (gui st) RESPONSE_BODY_VIEW
                          (Gocui.Fprint vrb msg)))
  | UClearFprintBody msg =>
      vrb ← Gocui.GetView (gui st) RESPONSE_BODY_VIEW;
      Some (withGui st (Gocui.putView (gui st) RESPONSE_BODY_VIEW
                          (Gocui.Fprint (Gocui.Clear vrb) msg)))
  | USetData data =>
      v ← Gocui.GetView (gui st) REQUEST_DATA_VIEW;
      Some (withGui st (Gocui.putView (gui st) REQUEST_DATA_VIEW
                          (Gocui.Fprint (Gocui.Clear v) data)))
  | UPrintBody => runPrintBody st
  | URender r response => runRender r response st
  end.

(** The main loop takes the functions of the queue in turn, those
    they add included; [fuel] bounds the number taken. *)
Fixpoint drainUpdates (fuel : nat) (st : State) : option State :=
  match fuel with
  | O => Some st
  | S fuel' =>
      match updates (gui st) with
      | [] => Some st
      | u :: us =>
          st' ← runUpdate u (withGui st (Gocui.withUpdates (gui st) us));
          drainUpdates fuel' st'
      end
  end.

(** ** Recall *)

(** [App.restoreRequest]. *)
Definition restoreRequest (st : State) (idx : Z) : option State :=
  let a := app st in
  if (idx <? 0) || (Z.of_nat (length (history a)) <=? idx) then Some st
  else
    '(g, a) ← closePopup (gui st) a HISTORY_VIEW;
    let a := setHistoryIndex a idx in
    p ← historyAt a idx;
    r ← requests st !! p;
    g ← setViewTextAndCursorAt g URL_VIEW (Url r);
    g ← setViewTextAndCursorAt g REQUEST_METHOD_VIEW (Method r);
    g ← setViewTextAndCursorAt g URL_PARAMS_VIEW (GetParams r);
    g ← setViewTextAndCursorAt g REQUEST_DATA_VIEW (Data r);
    g ← setViewTextAndCursorAt g REQUEST_HEADERS_VIEW (Headers r);
    g ← setViewTextAndCursorAt g RESPONSE_HEADERS_VIEW (ResponseHeaders r);
    Some (withApp (withGui st (PrintBody g)) a).

(** ** Saving and loading a request *)

(** The [requestMap] of [exportJSON]. *)
Definition requestMapOf (r : Request) : gmap string string :=
  <[URL_VIEW := Url r]>
  (<[REQUEST_METHOD_VIEW := Method r]>
  (<[URL_PARAMS_VIEW := GetParams r]>
  (<[REQUEST_DATA_VIEW := Data r]>
  (<[REQUEST_HEADERS_VIEW := Headers r]> ∅)))).

(** [exportJSON]. *)
Definition exportJSON (r : Request) : string :=
  match json_Marshal w (requestMapOf r) with
  | inl _ => ""
  | inr request => request
  end.

(** [if exists { v, _ = g.View(name); setViewTextAndCursor(v, s) }]. *)
Definition loadField (requestMap : gmap string string) (name : string)
  (g : Gui) : option Gui :=
  match requestMap !! name with
  | Some s => setViewTextAndCursorAt g name s
  | None => Some g
  end.

(** [App.LoadRequest]. *)
Definition LoadRequest (g : Gui) (loadLocation : string) : option Gui :=
  match os_ReadFile w loadLocation with
  | inl ioErr =>
      Some (Gocui.Update_ g
              (UClearFprintBody ("File reading error: " +:+ ioErr)))
  | inr requestJson =>
      match json_Unmarshal w requestJson with
      | inl jsonErr =>
          Some (Gocui.Update_ g
                  (UClearFprintBody ("JSON decoding error: " +:+ jsonErr)))
      | inr requestMap =>
          g ← loadField requestMap URL_VIEW g;
          g ← loadField requestMap REQUEST_METHOD_VIEW g;
          g ← loadField requestMap URL_PARAMS_VIEW g;
          let g := match requestMap !! REQUEST_DATA_VIEW with
                   | Some data => Gocui.Update_ g (USetData data)
                   | None => g
                   end in
          loadField requestMap REQUEST_HEADERS_VIEW g
      end
  end.

(** ** Submitting a request *)

(** Assignments to the fields of [*r]. *)
Definition setReq (f : Request -> Request) (r : ptr) (st : State) : State :=
  withRequests st (alter f r (requests st)).

Definition setUrl (x : string) (q : Request) : Request :=
  mkRequest x (Method q) (GetParams q) (Data q) (Headers q)
    (ResponseHeaders q) (RawResponseBody q) (ContentType q) (Duration q)
    (Formatter q).

Definition setMethod (x : string) (q : Request) : Request :=
  mkRequest (Url q) x (GetParams q) (Data q) (Headers q)
    (ResponseHeaders q) (RawResponseBody q) (ContentType q) (Duration q)
    (Formatter q).

Definition setGetParams (x : string) (q : Request) : Request :=
  mkRequest (Url q) (Method q) x (Data q) (Headers q)
    (ResponseHeaders q) (RawResponseBody q) (ContentType q) (Duration q)
    (Formatter q).

Definition setData (x : string) (q : Request) : Request :=
  mkRequest (Url q) (Method q) (GetParams q) x (Headers q)
    (ResponseHeaders q) (RawResponseBody q) (ContentType q) (Duration q)
    (Formatter q).

Definition setHeadersText (x : string) (q : Request) : Request :=
  mkRequest (Url q) (Method q) (GetParams q) (Data q) x
    (ResponseHeaders q) (RawResponseBody q) (ContentType q) (Duration q)
    (Formatter q).

Definition setDuration (x : Z) (q : Request) : Request :=
  mkRequest (Url q) (Method q) (GetParams q) (Data q) (Headers q)
    (ResponseHeaders q) (RawResponseBody q) (ContentType q) x
    (Formatter q).

Definition setResponse (ct : string) (raw : option string)
  (f : ResponseFormatter) (q : Request) : Request :=
  mkRequest (Url q) (Method q) (GetParams q) (Data q) (Headers q)
    (ResponseHeaders q) raw ct (Duration q) (Some f).

Definition setContentType (ct : string) (q : Request) : Request :=
  mkRequest (Url q) (Method q) (GetParams q) (Data q) (Headers q)
    (ResponseHeaders q) (RawResponseBody q) ct (Duration q) (Formatter q).

(** [SubmitRequest] up to the [go] statement: both response views are
    cleared, the popup is shown and [r] is allocated.  The result
    holds the pointer the goroutine receives. *)
Definition SubmitRequest (st : State) : option (State * ptr) :=
  let g := gui st in
  vrb ← Gocui.GetView g RESPONSE_BODY_VIEW;
  let g := Gocui.putView g RESPONSE_BODY_VIEW (Gocui.Clear vrb) in
  vrh ← Gocui.GetView g RESPONSE_HEADERS_VIEW;
  let g := Gocui.putView g RESPONSE_HEADERS_VIEW (Gocui.Clear vrh) in
  g ← popup g "Sending request..";
  let r : ptr := fresh (dom (requests st)) in
  Some (withRequests (withGui st g) (<[r := emptyRequest]> (requests st)), r).

(** The closures that report an error in the response body. *)
Definition report (st : State) (msg : string) : State :=
  withGui st (Gocui.Update_ (gui st) (UFprintBody msg)).

(** The body of the request, or why there is none. *)
Inductive BodyResult : Type :=
| BodyOk (body : option string)
| BodyReport (msg : string)
| BodySilent.

(** Lines 181 to 230: the body for POST, PUT and PATCH. *)
Definition requestBody (g : Gui) (method : string) (headers : Header)
  : BodyResult :=
  if String.eqb method "POST" || String.eqb method "PUT"
     || String.eqb method "PATCH"
  then
    let bodyStr := getViewValue g REQUEST_DATA_VIEW in
    if negb (String.eqb (Header_Get w headers "Content-Type")
               "multipart/form-data")
    then
      let bodyStr :=
        if String.eqb (Header_Get w headers "Content-Type")
             "application/x-www-form-urlencoded"
        then ReplaceByte bodyStr NL "&" else bodyStr in
      BodyOk (Some bodyStr)
    else
      match url_ParseQuery w
              (ReplaceByte (getViewValue g REQUEST_DATA_VIEW) NL "&") with
      | inl _ => BodySilent
      | inr postData =>
          match writeMultipart w postData with
          | MultipartBody bytes => BodyOk (Some bytes)
          | MultipartOpenError err => BodyReport ("Error: " +:+ err)
          | MultipartAbort => BodySilent
          end
      end
  else BodyOk None.

(** Lines 232 to 326: the exchange and what follows it. *)
Definition sendRequest (r : ptr) (method urlString : string)
  (headers : Header) (body : option string) (st : State) : State :=
  match http_NewRequest w method urlString with
  | Some err => report st ("Request error: " +:+ err)
  | None =>
      let req := mkHttpRequest method urlString headers
                   (Header_Get w headers "Host") body in
      let '(result, duration) := CLIENT_Do w (sent st) req in
      let st := withSent st (sent st ++ [req]) in
      let st := setReq (setDuration duration) r st in
      match result with
      | inl err => report st ("Response error: " +:+ err)
      | inr response =>
          let contentType :=
            Header_Get w (respHeader response) "Content-Type" in
          let st := setReq (setContentType contentType) r st in
          let read :=
            if String.eqb
                 (Header_Get w (respHeader response) "Content-Encoding")
                 "gzip"
            then respGzipBody response
            else inr (respBody response) in
          match read with
          | inl err => report st ("Cannot uncompress response: " +:+ err)
          | inr bodyRead =>
              let raw := match bodyRead with
                         | ReadOk bodyBytes => Some bodyBytes
                         | ReadErr _ => None
                         end in
              let st :=
                setReq (setResponse contentType raw
                          (formatter_New w (config (app st)) contentType))
                  r st in
              (* add to history *)
              let a := appendHistory (app st) r in
              let a := setHistoryIndex a
                         (Z.of_nat (length (history a)) - 1) in
              let st := withApp st a in
              (* render response *)
              withGui st (Gocui.Update_ (gui st) (URender r response))
          end
      end
  end.

(** The goroutine of [SubmitRequest] before its deferred calls. *)
Definition submitBody (r : ptr) (st : State) : State :=
  let g := gui st in
  let st := setReq (setUrl (getViewValue g URL_VIEW)) r st in
  match url_Parse w (getViewValue g URL_VIEW) with
  | inl err => report st ("URL parse error: " +:+ err)
  | inr u =>
      match url_ParseQuery w
              (ReplaceByte (getViewValue g URL_PARAMS_VIEW) NL "&") with
      | inl err => report st ("Invalid GET parameters: " +:+ err)
      | inr q =>
          let rawQuery := Values_Encode w (addQuery (URL_Query w u) q) in
          let st := setReq (setGetParams rawQuery) r st in
          let method := getViewValue g REQUEST_METHOD_VIEW in
          let st := setReq (setMethod method) r st in
          let headers := Header_Set w ∅ "User-Agent" "" in
          let headersText := getViewValue g REQUEST_HEADERS_VIEW in
          let st := setReq (setHeadersText headersText) r st in
          match setHeaders w (SplitNL headersText) headers with
          | inl header => report st ("Invalid header: " +:+ header)
          | inr headers =>
              let st :=
                if String.eqb method "POST" || String.eqb method "PUT"
                   || String.eqb method "PATCH"
                then setReq (setData (getViewValue g REQUEST_DATA_VIEW)) r st
                else st in
              match requestBody g method headers with
              | BodySilent => st
              | BodyReport msg => report st msg
              | BodyOk body =>
                  sendRequest r method (URL_String w u rawQuery)
                    headers body st
              end
          end
      end
  end.

(** The goroutine of [SubmitRequest]: [defer g.DeleteView(POPUP_VIEW)]
    runs however the body ends. *)
Definition submitGoroutine (r : ptr) (st : State) : State :=
  let st := submitBody r st in
  withGui st (Gocui.DeleteView (gui st) POPUP_VIEW).

End Program.

(** * The editor chain *)

(** Keys, modifiers and runes are numbers; the constants are those of
    gocui. *)
Definition KeyEnter : Z := 13.
Definition KeyArrowDown : Z := 65516.
Definition ModNone : Z := 0.
Definition ModAlt : Z := 1.
Definition rune_Z : Z := 90.          (* 'Z' *)
Definition rune_lbracket : Z := 91.   (* '[' *)

(** What an editor asks of its collaborators, in the order asked. *)
Inductive Call : Type :=
| OrigEdit (key ch modifier : Z)        (* e.origEditor.Edit(v, key, ch, mod) *)
| EditDelete (back : bool)         (* v.EditDelete(back) *)
| EditWrite (ch : Z)               (* v.EditWrite(ch) *)
| PrevView                         (* e.app.PrevView(e.g, nil) *)
| CloseAutocomplete                (* closeAutocomplete(g) *)
| ShowAutocomplete (completions : list string)
    (left top maxWidth maxHeight : Z).  (* showAutocomplete(...) *)

(** The calls made on the edited view itself. *)
Definition onView (c : Call) : bool :=
  match c with
  | OrigEdit _ _ _ | EditDelete _ | EditWrite _ => true
  | PrevView | CloseAutocomplete | ShowAutocomplete _ _ _ _ _ => false
  end.

Record ViewEditor : Type := mkViewEditor {
  backTabEscape : bool
}.

(** A [[]string] is a reference to its backing array; two slices that
    were assigned from one another share it. *)
Definition slice : Type := nat.
Abbreviation Arrays := (gmap slice (list string)).

Record AutocompleteEditor : Type := mkAutocompleteEditor {
  currentCompletions : slice;
  isAutocompleting : bool
}.

Section Editors.

(** The edited view answers from the calls made on it so far. *)
Variable Cursor : list Call -> Z * Z.
Variable Line : list Call -> Z -> option string.
Variable Size : list Call -> Z * Z.
Variable ViewPosition : list Call -> Z * Z.
(** The runes of a string, as [range] yields them. *)
Variable runes : string -> list Z.
(** [e.completions], which returns a new slice. *)
Variable completions : string -> list string.

(** [ViewEditor.Edit]. *)
Definition ViewEditor_Edit (e : ViewEditor) (tr : list Call)
  (key ch modifier : Z) : ViewEditor * list Call :=
  (* handle back-tab (\033[Z) sequence *)
  if backTabEscape e && (ch =? rune_Z)
  then (mkViewEditor false, tr ++ [PrevView])
  else
    let tr := if backTabEscape e
              then tr ++ [OrigEdit 0 rune_lbracket ModAlt] else tr in
    if (ch =? rune_lbracket) && (modifier =? ModAlt)
    then (mkViewEditor true, tr)
    else
      (* disable infinite down scroll *)
      if (key =? KeyArrowDown) && (modifier =? ModNone)
         && negb (bool_decide (is_Some
                    (Line (filter onView tr)
                          (snd (Cursor (filter onView tr))))))
      then (e, tr)
      else (e, tr ++ [OrigEdit key ch modifier]).

(** [AutocompleteEditor.Edit]; [None] is a panic (a slice bound or an
    index out of range). *)
Definition AutocompleteEditor_Edit (mem : Arrays) (ve : ViewEditor)
  (e : AutocompleteEditor) (tr : list Call) (key ch modifier : Z)
  : option (Arrays * ViewEditor * AutocompleteEditor * list Call) :=
  let '(ve, tr) :=
    if negb (key =? KeyEnter) then ViewEditor_Edit ve tr key ch modifier
    else (ve, tr) in
  let '(cx, cy) := Cursor (filter onView tr) in
  let lineErr := Line (filter onView tr) cy in
  trimmedLine ← sliceTo (default "" lineErr) cx;
  match lineErr with
  | None =>
      let '(ve, tr) := ViewEditor_Edit ve tr key ch modifier in
      Some (mem, ve, e, tr)
  | Some _ =>
      let lastSymbol := getLastSymbol trimmedLine in
      if (key =? KeyEnter) && isAutocompleting e
      then
        comps ← mem !! currentCompletions e;
        currentCompletion ← comps !! 0%nat;
        let shouldDelete := negb (length comps =? 1)%nat in
        let tr :=
          if shouldDelete
          then tr ++ replicate (length (runes lastSymbol)) (EditDelete true)
          else tr in
        let tr := tr ++ map EditWrite (runes currentCompletion) in
        let tr := tr ++ [CloseAutocomplete] in
        Some (mem, ve, mkAutocompleteEditor (currentCompletions e) false, tr)
      else
        let '(ve, tr) :=
          if key =? KeyEnter then ViewEditor_Edit ve tr key ch modifier
          else (ve, tr) in
        let tr := tr ++ [CloseAutocomplete] in
        (* completions := e.completions(lastSymbol)
           e.currentCompletions = completions *)
        let s : slice := fresh (dom mem) in
        let mem := <[s := completions lastSymbol]> mem in
        let '(cx, cy) := Cursor (filter onView tr) in
        let '(sx, _) := Size (filter onView tr) in
        let '(ox, oy) := ViewPosition (filter onView tr) in
        let maxWidth := sx - cx in
        let maxHeight := 10 in
        let len := Z.of_nat (String.length lastSymbol) in
        if (0 <? length (completions lastSymbol))%nat
        then
          (* comps := completions: the same backing array *)
          comps ← mem !! s;
          if (length comps =? 1)%nat
          then
            c0 ← comps !! 0%nat;
            c0' ← sliceFrom c0 len;
            let mem := <[s := <[0%nat := c0']> comps]> mem in
            comps ← mem !! s;
            Some (mem, ve, mkAutocompleteEditor s true,
                  tr ++ [ShowAutocomplete comps (ox + cx) (oy + cy)
                           maxWidth maxHeight])
          else
            Some (mem, ve, mkAutocompleteEditor s true,
                  tr ++ [ShowAutocomplete comps (ox + cx - len)
                           (oy + cy + 1) (maxWidth + len) maxHeight])
        else Some (mem, ve, mkAutocompleteEditor s false, tr)
  end.

End Editors.

(** * The history store as a transition system *)

(** The cursor of the history is valid. *)
Definition historyInv (a : App) : Prop :=
  (history a = [] -> historyIndex a = 0)
  /\ (history a <> [] ->
      0 <= historyIndex a < Z.of_nat (length (history a))).

(** The program as [main] starts it. *)
Definition initialState (g : Gui) (c : Config) : State :=
  mkState g (initialApp c) ∅ [].

(** What the program does to its state: a submit (the call and its
    goroutine), one function of the queue taken by the main loop, a
    recall, a load.  [step_append] and [step_point] are lines 288 and
    289 of a submit taken one at a time, as a main loop that runs beside
    the goroutine sees them; line 289 follows a line 288, so the history
    is not empty there. *)
Inductive step (w : World) : State -> State -> Prop :=
| step_submit st st1 r :
    SubmitRequest st = Some (st1, r) ->
    step w st (submitGoroutine w r st1)
| step_append st r :
    step w st (withApp st (appendHistory (app st) r))
| step_point st :
    history (app st) <> [] ->
    step w st
      (withApp st (setHistoryIndex (app st)
                     (Z.of_nat (length (history (app st))) - 1)))
| step_update st u us st' :
    updates (gui st) = u :: us ->
    runUpdate w u (withGui st (Gocui.withUpdates (gui st) us)) = Some st' ->
    step w st st'
| step_restore st idx st' :
    restoreRequest st idx = Some st' ->
    step w st st'
| step_load st loadLocation g' :
    LoadRequest w (gui st) loadLocation = Some g' ->
    step w st (withGui st g').

Inductive reachable (w : World) : State -> Prop :=
| reachable_init g c : reachable w (initialState g c)
| reachable_step st st' :
    reachable w st -> step w st st' -> reachable w st'.

(** The text of a view, if the view exists. *)
Definition bufferOf (g : Gui) (name : string) : option string :=
  vBuffer <$> Gocui.GetView g name.

(** ** A view of one line, for the examples

    The text is what the calls wrote, the cursor is at its end. *)

Fixpoint dropLast (s : string) : string :=
  match s with
  | EmptyString => EmptyString
  | String _ EmptyString => EmptyString
  | String c s' => String c (dropLast s')
  end.

Definition runeByte (ch : Z) : string :=
  String (ascii_of_N (Z.to_N ch)) EmptyString.

Definition lineText (tr : list Call) : string :=
  fold_left
    (fun text c =>
       match c with
       | OrigEdit 0 ch 0 => if ch =? 0 then text else text +:+ runeByte ch
       | EditWrite ch => text +:+ runeByte ch
       | EditDelete true => dropLast text
       | _ => text
       end)
    tr EmptyString.

Definition lineCursor (tr : list Call) : Z * Z :=
  (Z.of_nat (String.length (lineText tr)), 0).

Definition lineLine (tr : list Call) (y : Z) : option string :=
  if (y =? 0) && negb (String.eqb (lineText tr) "")
  then Some (lineText tr) else None.

Definition lineSize (tr : list Call) : Z * Z := (40, 10).

Definition linePosition (tr : list Call) : Z * Z := (0, 20).

(** The runes of ASCII text. *)
Definition asciiRunes (s : string) : list Z :=
  map (fun c => Z.of_N (N_of_ascii c)) (String.list_ascii_of_string s).

(** Three of the header names offered by the header editor. *)
Definition someHeaders : list string :=
  ["Accept"; "Connection"; "Content-Type"].

Definition typed (s : string) : list Call :=
  map (fun ch => OrigEdit 0 ch 0) (asciiRunes s).

(** A header line of the shape [Name: Value]. *)
Definition headerShape (l : string) : Prop :=
  exists name value, l = name +:+ ": " +:+ value.

(** What a transition may do to the history and its cursor: extend the
    one, and keep the other or put it within the history. *)
Definition historyStep (a a' : App) : Prop :=
  history a `prefix_of` history a'
  /\ (historyIndex a' = historyIndex a
      \/ 0 <= historyIndex a' < Z.of_nat (length (history a'))).

(** ** A world and a user interface for the examples

    The world answers as the packages do on the inputs of the examples:
    URLs without a query, header names in canonical form, one host that
    does not resolve, one saved request. *)

Definition textFormatter : ResponseFormatter :=
  mkFormatter "[text]" false (fun raw => (raw, None)) (fun _ _ => inr []).

Definition exampleResponse : Response :=
  mkResponse 200 ∅ ∅ (ReadOk "hello") (inl "gzip: invalid header").

Definition exampleRequest : Request :=
  mkRequest "http://example.com/" "POST" "a=1" "x=y" "Accept: text/plain"
    "" None "" 0 None.

Definition QUOTE : string := String "034"%char "".

Definition jsonPair (k v : string) : string :=
  QUOTE +:+ k +:+ QUOTE +:+ ":" +:+ QUOTE +:+ v +:+ QUOTE.

(** What [json.Marshal] gives for the map of [exampleRequest]. *)
Definition exampleJson : string :=
  "{" +:+ Join [jsonPair "data" "x=y"; jsonPair "get" "a=1";
                jsonPair "headers" "Accept: text/plain";
                jsonPair "method" "POST";
                jsonPair "url" "http://example.com/"] "," +:+ "}".

Definition exampleWorld : World :=
  {| URLT := string;
     url_Parse := fun s =>
       if String.eqb s ":" then inl "missing protocol scheme" else inr s;
     url_ParseQuery := fun s =>
       if String.eqb s "" then inr ∅ else inl "invalid semicolon separator in query";
     URL_Query := fun _ => ∅;
     Values_Encode := fun _ => "";
     URL_String := fun u _ => u;
     CanonicalMIMEHeaderKey := fun k => k;
     writeMultipart := fun _ => MultipartAbort;
     http_NewRequest := fun _ _ => None;
     CLIENT_Do := fun _ req =>
       if String.eqb (reqURL req) "http://unreachable.invalid/"
       then (inl "dial tcp: lookup unreachable.invalid: no such host", 1)
       else (inr exampleResponse, 1);
     formatter_New := fun _ _ => textFormatter;
     DEFAULT_FORMATTER := textFormatter;
     http_StatusText := fun _ => "OK";
     os_ReadFile := fun path =>
       if String.eqb path "request.json" then inr exampleJson
       else inl "open: no such file or directory";
     json_Marshal := fun m =>
       if decide (m = requestMapOf exampleRequest) then inr exampleJson
       else inl "unsupported value";
     json_Unmarshal := fun s =>
       if String.eqb s exampleJson then inr (requestMapOf exampleRequest)
       else inl "unexpected end of JSON input" |}.

Definition fieldView (text : string) : View :=
  mkView (0, 0, 40, 10) text (0, 0) (0, 0) "".

(** A terminal of 80 by 24 with the fields filled in. *)
Definition exampleGui (url method params data headers : string) : Gui :=
  mkGui (80, 24)
    (list_to_map
       [(URL_VIEW, fieldView url); (REQUEST_METHOD_VIEW, fieldView method);
        (URL_PARAMS_VIEW, fieldView params);
        (REQUEST_DATA_VIEW, fieldView data);
        (REQUEST_HEADERS_VIEW, fieldView headers);
        (SEARCH_VIEW, fieldView "");
        (RESPONSE_HEADERS_VIEW, fieldView "old headers");
        (RESPONSE_BODY_VIEW, fieldView "old body")])
    [] URL_VIEW true.

Definition exampleState (url method params data headers : string) : State :=
  initialState (exampleGui url method params data headers)
    (mkConfig false false).

(** The state and the pointer that [SubmitRequest] gives its goroutine. *)
Definition submitted (st0 : State) : State * ptr :=
  default (st0, 0%nat) (SubmitRequest st0).

(** A submit as a whole: the call, its goroutine, and the main loop
    running the queue. *)
Definition submitAndDrain (w : World) (st0 : State) : option State :=
  drainUpdates w 8
    (submitGoroutine w (snd (submitted st0)) (fst (submitted st0))).

(** Two requests were submitted, to [/first] and then to [/second]. *)
Definition twoRequests : State :=
  default (exampleState "" "" "" "" "")
    (st ← submitAndDrain exampleWorld
            (exampleState "http://example.com/first" "GET" "" ""
               "Accept: text/plain");
     g ← setViewTextAndCursorAt (gui st) URL_VIEW "http://example.com/second";
     submitAndDrain exampleWorld (withGui st g)).

(** * Further definitions for the properties of the rest of the code *)

(** Every byte of a string is of the class of [symbolPattern]. *)
Definition allSymbolBytes (s : string) : bool :=
  forallb isSymbolByte (String.list_ascii_of_string s).

(** The line that [writeSortedHeaders] writes for one header name. *)
Definition headerLine (h : Header) (hname : string) : string :=
  String ESC "[0;33m" +:+ hname +:+ ":" +:+ String ESC "[0;0m "
  +:+ Join (default [] (h !! hname)) "," +:+ String NL "".

(** The fields of [*r] when the request is handed over. *)
Definition filledRequest (g : Gui) (rawQuery : string) (q0 : Request)
  : Request :=
  let method := getViewValue g REQUEST_METHOD_VIEW in
  let q1 := setHeadersText (getViewValue g REQUEST_HEADERS_VIEW)
            (setMethod method
               (setGetParams rawQuery
                  (setUrl (getViewValue g URL_VIEW) q0))) in
  if String.eqb method "POST" || String.eqb method "PUT"
     || String.eqb method "PATCH"
  then setData (getViewValue g REQUEST_DATA_VIEW) q1 else q1.


(** What the closure of [PrintBody] writes for one search result. *)
Definition resultLine (result : string) : string :=
  "-----" +:+ String NL result +:+ String NL "".

(** The texts of a list one after the other. *)
Definition concatAll (l : list string) : string :=
  fold_right String.append "" l.

(** ** Moving between the views *)

(** [App.setView]: the popup is closed and the view under the index
    becomes the current one.  The error is that of
    [g.SetCurrentView]; an index outside [VIEWS] panics ([None]). *)
Definition App_setView (g : Gui) (a : App)
  : option (Gui * App * option string) :=
  '(g, a) ← closePopup g a (currentPopup a);
  name ← (if viewIndex a <? 0 then None
          else VIEWS !! Z.to_nat (viewIndex a));
  Some (Gocui.SetCurrentView g name, a,
        match Gocui.GetView g name with
        | Some _ => None
        | None => Some "unknown view"
        end).

(** [a.viewIndex = i]. *)
Definition setViewIndex (a : App) (i : Z) : App :=
  mkApp i (historyIndex a) (currentPopup a) (history a) (config a).

(** [App.NextView]. *)
Definition NextView (g : Gui) (a : App)
  : option (Gui * App * option string) :=
  App_setView g
    (setViewIndex a
       (Z.rem (GoInt.add (viewIndex a) 1) (Z.of_nat (length VIEWS)))).

(** [App.PrevView]. *)
Definition PrevView_ (g : Gui) (a : App)
  : option (Gui * App * option string) :=
  App_setView g
    (setViewIndex a
       (Z.rem (GoInt.add (GoInt.add (viewIndex a) (-1))
                         (Z.of_nat (length VIEWS)))
              (Z.of_nat (length VIEWS)))).

(** The loop of [App.setViewByName] from the index [i] on. *)
Fixpoint setViewByNameFrom (views_ : list string) (i : Z) (g : Gui) (a : App)
  (name : string) : option (Gui * App * option string) :=
  match views_ with
  | [] => Some (g, a, Some "view not found")
  | v :: views' =>
      if String.eqb v name then App_setView g (setViewIndex a i)
      else setViewByNameFrom views' (i + 1) g a name
  end.

(** [App.setViewByName]. *)
Definition setViewByName (g : Gui) (a : App) (name : string)
  : option (Gui * App * option string) :=
  setViewByNameFrom VIEWS 0 g a name.

(** The index of a view is within [VIEWS]. *)
Definition viewIndexInv (a : App) : Prop :=
  0 <= viewIndex a < Z.of_nat (length VIEWS).

(** ** Popup views *)

Definition METHOD_LIST_VIEW : string := "method-list".

(** [METHODS] of the main file. *)
Definition METHODS : list string :=
  ["GET"; "POST"; "PUT"; "DELETE"; "PATCH"; "OPTIONS"; "TRACE"; "CONNECT";
   "HEAD"].

(** [a.currentPopup = name]. *)
Definition setCurrentPopup (a : App) (name : string) : App :=
  mkApp (viewIndex a) (historyIndex a) name (history a) (config a).

(** [x - y] on [int]. *)
Definition GoInt_sub (x y : Z) : Z := GoInt.wrap (x - y).

(** [App.CreatePopupView]; the flag tells that the error is [nil].  The
    attributes of drawing ([Wrap], [Frame], [Highlight] and the
    colours) are not part of a [View] here. *)
Definition CreatePopupView (name : string) (width height : Z) (g : Gui)
  (a : App) : option (Gui * App * bool) :=
  '(g, a) ← closePopup g a (currentPopup a);
  let g := Gocui.withCursor g false in
  let '(maxX, maxY) := gSize g in
  let height := if GoInt_sub maxY 4 <? height then GoInt_sub maxY 4
                else height in
  let width := if GoInt_sub maxX 4 <? width then GoInt_sub maxX 4
               else width in
  match Gocui.SetView g name
          (GoInt_sub (GoInt_sub (Z.quot maxX 2) (Z.quot width 2)) 1)
          (GoInt_sub (GoInt_sub (Z.quot maxY 2) (Z.quot height 2)) 1)
          (GoInt.add (Z.quot maxX 2) (Z.quot width 2))
          (GoInt.add (GoInt.add (Z.quot maxY 2) (Z.quot height 2)) 1)
  with
  | Gocui.SetViewError => Some (g, a, false)
  | Gocui.SetViewOk g' | Gocui.SetViewUnknown g' =>
      Some (g', setCurrentPopup a name, true)
  end.

(** [fmt.Sprintf("%02d", i)]. *)
Definition pad2 (i : Z) : string :=
  let s := pretty i in
  if (String.length s <? 2)%nat then "0" +:+ s else s.

(** The line of [ToggleHistory] for the entry [i]. *)
Definition historyLine (i : Z) (r : Request) : string :=
  let req_str := "[" +:+ pad2 i +:+ "] " +:+ Method r +:+ " " +:+ Url r in
  let req_str :=
    if String.eqb (GetParams r) "" then req_str
    else req_str +:+ "?" +:+ ReplaceByte (GetParams r) NL "&" in
  let req_str :=
    if String.eqb (Data r) "" then req_str
    else req_str +:+ " " +:+ ReplaceByte (Data r) NL "&" in
  if String.eqb (Headers r) "" then req_str
  else req_str +:+ " " +:+ ReplaceByte (Headers r) NL ";".

(** [fmt.Fprintln(v, s)]. *)
Definition Fprintln (v : View) (s : string) : View :=
  Gocui.Fprint v (s +:+ String NL "").

(** The loop of [ToggleHistory] from the entry [i] on; a [nil] entry
    panics. *)
Fixpoint writeHistory (rs : gmap ptr Request) (v : View) (i : Z)
  (l : list ptr) : option View :=
  match l with
  | [] => Some v
  | p :: l' =>
      r ← rs !! p;
      writeHistory rs (Fprintln v (historyLine i r)) (i + 1) l'
  end.

(** [App.ToggleHistory]; the flag tells that the error is [nil]. *)
Definition ToggleHistory (st : State) : option (State * bool) :=
  let a := app st in
  if String.eqb (currentPopup a) HISTORY_VIEW then
    '(g, a) ← closePopup (gui st) a HISTORY_VIEW;
    Some (withApp (withGui st g) a, true)
  else
    '(g, a, ok) ← CreatePopupView HISTORY_VIEW 100
                    (Z.of_nat (length (history a))) (gui st) a;
    if negb ok then Some (withApp (withGui st g) a, false)
    else
      v ← Gocui.GetView g HISTORY_VIEW;
      let v := Gocui.SetTitle v "History" in
      if (length (history a) =? 0)%nat then
        Some (withApp
                (withGui st
                   (Gocui.putView g HISTORY_VIEW
                      (setViewTextAndCursor v "[!] No items in history")))
                a, true)
      else
        v ← writeHistory (requests st) v 0 (history a);
        let g := Gocui.putView g HISTORY_VIEW v in
        let g := Gocui.SetCurrentView g HISTORY_VIEW in
        Some (withApp
                (withGui st
                   (Gocui.putView g HISTORY_VIEW
                      (Gocui.SetCursor v 0 (historyIndex a))))
                a, true).

(** [cursDown] and [cursUp] of [SetKeys]. *)
Definition cursDown (v : View) : View :=
  let '(cx, cy) := vCursor v in Gocui.SetCursor v cx (GoInt.add cy 1).

Definition cursUp (v : View) : View :=
  let '(cx, cy) := vCursor v in
  Gocui.SetCursor v cx (if 0 <? cy then GoInt_sub cy 1 else cy).

(** The handler of Enter in the history popup. *)
Definition historyEnter (st : State) : option State :=
  v ← Gocui.GetView (gui st) HISTORY_VIEW;
  let cy := snd (vCursor v) in
  if Z.of_nat (length (history (app st))) <=? cy then Some st
  else restoreRequest st cy.

(** The loop of [ToggleMethodList] from the entry [i] on. *)
Fixpoint writeMethods (cur : string) (v : View) (i : Z) (l : list string)
  : View :=
  match l with
  | [] => v
  | r :: l' =>
      let v := Fprintln v r in
      writeMethods cur
        (if String.eqb cur r then Gocui.SetCursor v 0 i else v) (i + 1) l'
  end.

(** [App.ToggleMethodList]; the flag tells that the error is [nil]. *)
Definition ToggleMethodList (g : Gui) (a : App)
  : option (Gui * App * bool) :=
  if String.eqb (currentPopup a) METHOD_LIST_VIEW then
    '(g, a) ← closePopup g a METHOD_LIST_VIEW;
    Some (g, a, true)
  else
    '(g, a, ok) ← CreatePopupView METHOD_LIST_VIEW 50
                    (Z.of_nat (length METHODS)) g a;
    if negb ok then Some (g, a, false)
    else
      v ← Gocui.GetView g METHOD_LIST_VIEW;
      let v := Gocui.SetTitle v "Methods" in
      let cur := getViewValue g REQUEST_METHOD_VIEW in
      let v := writeMethods cur v 0 METHODS in
      let g := Gocui.putView g METHOD_LIST_VIEW v in
      Some (Gocui.SetCurrentView g METHOD_LIST_VIEW, a, true).

(** The handler of Enter in the method list: [METHODS[cy]] goes to the
    method view; a row past the methods panics. *)
Definition methodListEnter (g : Gui) (a : App) : option (Gui * App) :=
  v ← Gocui.GetView g METHOD_LIST_VIEW;
  let cy := snd (vCursor v) in
  m ← (if cy <? 0 then None else METHODS !! Z.to_nat cy);
  g ← setViewTextAndCursorAt g REQUEST_METHOD_VIEW m;
  closePopup g a METHOD_LIST_VIEW.

(** The loops of the handlers of the arrow keys in the method view:
    [value] is read once, before the loop. *)
Fixpoint methodDownFrom (value : string) (v : View) (i : nat)
  (l : list string) : View :=
  match l with
  | [] => v
  | val :: l' =>
      methodDownFrom value
        (if String.eqb val value && negb (i =? length METHODS - 1)%nat
         then setViewTextAndCursor v (default "" (METHODS !! (i + 1)%nat))
         else v)
        (S i) l'
  end.

Fixpoint methodUpFrom (value : string) (v : View) (i : nat)
  (l : list string) : View :=
  match l with
  | [] => v
  | val :: l' =>
      methodUpFrom value
        (if String.eqb val value && negb (i =? 0)%nat
         then setViewTextAndCursor v (default "" (METHODS !! (i - 1)%nat))
         else v)
        (S i) l'
  end.

Definition methodArrowDown (v : View) : View :=
  methodDownFrom (TrimSpace (vBuffer v)) v 0 METHODS.

Definition methodArrowUp (v : View) : View :=
  methodUpFrom (TrimSpace (vBuffer v)) v 0 METHODS.

(** A text without a newline. *)
Fixpoint noNewline (s : string) : bool :=
  match s with
  | EmptyString => true
  | String c s' => negb (Ascii.eqb c NL) && noNewline s'
  end.

(** The lines of the history popup from the entry [i] on. *)
Fixpoint historyLines (i : Z) (rs : list Request) : list string :=
  match rs with
  | [] => []
  | r :: rs' => historyLine i r :: historyLines (i + 1) rs'
  end.

(** The rows of the popup of [height] rows asked for on a terminal of
    [maxY] rows. *)
Definition popupRows (height maxY : Z) : Z :=
  2 * (Z.min height (maxY - 4) / 2) + 1.

(** Arrow keys pressed in a list popup, one after the other: [true] is
    the arrow down, [false] the arrow up. *)
Definition pressArrows (keys : list bool) (v : View) : View :=
  fold_left (fun v (down : bool) => if down then cursDown v else cursUp v)
            keys v.

(** The cursor of a list popup is in its first column and on one of
    its rows. *)
Definition cursorInRows (v : View) (rows : Z) : Prop :=
  snd (Gocui.Size v) = rows /\ 0 < fst (Gocui.Size v)
  /\ fst (vCursor v) = 0 /\ 0 <= snd (vCursor v) < rows.


(** * The layout *)

Definition ERROR_VIEW : string := "error_view".
Definition SEARCH_PROMPT_VIEW : string := "prompt".

Definition MIN_WIDTH : Z := 60.
Definition MIN_HEIGHT : Z := 20.

(** [0.25] is a [float32]; [0.3] as a [float32] is
    10066330 * 2^-25 = 0.300000011920928955078125. *)
Definition f32_quarter : Float32.float32 := S754_finite false 8388608 (-25).
Definition f32_0_3 : Float32.float32 := S754_finite false 10066330 (-25).

(** The four coordinates that [setView] hands to [g.SetView]. *)
Definition coordinates (position : viewPosition) (maxX maxY : Z)
  : option (Z * Z * Z * Z) :=
  c0 ← getCoordinate (x0 position) (maxX + 1);
  c1 ← getCoordinate (y0 position) (maxY + 1);
  c2 ← getCoordinate (x1 position) (maxX + 1);
  c3 ← getCoordinate (y1 position) (maxY + 1);
  Some (c0, c1, c2, c3).

(** [int(f*float32(k))] is [g k] for the [fuel] sizes from [k] on. *)
Fixpoint checkCoordinates (f : Float32.float32) (g : Z -> Z) (fuel : nat)
  (k : Z) : bool :=
  match fuel with
  | O => true
  | S fuel' =>
      match GoInt.ofFloat32 (Float32.mul f (Float32.ofInt k)) with
      | Some z => (z =? g k) && checkCoordinates f g fuel' (k + 1)
      | None => false
      end
  end.

(** The largest size of a terminal that the properties of the layout
    consider, and the fractions of [VIEW_POSITIONS] with what they
    give in integer arithmetic. *)
Definition MAX_SIZE : Z := 65536.

Definition fractions : list (Float32.float32 * (Z -> Z)) :=
  [(f32_0, fun _ => 0);
   (f32_quarter, fun n => n / 4);
   (f32_0_3, fun n => 3 * n / 10);
   (f32_half, fun n => n / 2);
   (f32_1, fun n => n)].

(** ** The tables of the views *)

Definition zeroPosition : position := mkPosition f32_0 0.

(** [VIEW_POSITIONS] as the program starts.  [popup] and
    [showAutocomplete] rewrite the entries of their own views before
    they use them, and nothing else writes to the table. *)
Definition VIEW_POSITIONS : gmap string viewPosition :=
  list_to_map
    [(URL_VIEW,
      mkViewPosition (mkPosition f32_0 0) (mkPosition f32_0 0)
                     (mkPosition f32_1 (-2)) (mkPosition f32_0 3));
     (URL_PARAMS_VIEW,
      mkViewPosition (mkPosition f32_0 0) (mkPosition f32_0 3)
                     (mkPosition f32_0_3 0) (mkPosition f32_quarter 0));
     (REQUEST_METHOD_VIEW,
      mkViewPosition (mkPosition f32_0 0) (mkPosition f32_quarter 0)
                     (mkPosition f32_0_3 0) (mkPosition f32_quarter 2));
     (REQUEST_DATA_VIEW,
      mkViewPosition (mkPosition f32_0 0) (mkPosition f32_quarter 2)
                     (mkPosition f32_0_3 0) (mkPosition f32_half 1));
     (REQUEST_HEADERS_VIEW,
      mkViewPosition (mkPosition f32_0 0) (mkPosition f32_half 1)
                     (mkPosition f32_0_3 0) (mkPosition f32_1 (-3)));
     (RESPONSE_HEADERS_VIEW,
      mkViewPosition (mkPosition f32_0_3 0) (mkPosition f32_0 3)
                     (mkPosition f32_1 (-2)) (mkPosition f32_quarter 2));
     (RESPONSE_BODY_VIEW,
      mkViewPosition (mkPosition f32_0_3 0) (mkPosition f32_quarter 2)
                     (mkPosition f32_1 (-2)) (mkPosition f32_1 (-3)));
     (STATUSLINE_VIEW,
      mkViewPosition (mkPosition f32_0 (-1)) (mkPosition f32_1 (-4))
                     (mkPosition f32_1 0) (mkPosition f32_1 (-1)));
     (SEARCH_VIEW,
      mkViewPosition (mkPosition f32_0 7) (mkPosition f32_1 (-3))
                     (mkPosition f32_1 (-1)) (mkPosition f32_1 (-1)));
     (ERROR_VIEW,
      mkViewPosition (mkPosition f32_0 0) (mkPosition f32_0 0)
                     (mkPosition f32_1 (-2)) (mkPosition f32_1 (-2)));
     (SEARCH_PROMPT_VIEW,
      mkViewPosition (mkPosition f32_0 (-1)) (mkPosition f32_1 (-3))
                     (mkPosition f32_0 8) (mkPosition f32_1 (-1)));
     (POPUP_VIEW,
      mkViewPosition (mkPosition f32_half (-9999)) (mkPosition f32_half (-1))
                     (mkPosition f32_half (-9999)) (mkPosition f32_half 1));
     (AUTOCOMPLETE_VIEW,
      mkViewPosition (mkPosition f32_0 (-9999)) (mkPosition f32_0 (-9999))
                     (mkPosition f32_0 (-9999)) (mkPosition f32_0 (-9999)))].

(** [VIEW_POSITIONS[name]]: a name without an entry gives the zero
    value. *)
Definition positionOf (name : string) : viewPosition :=
  default (mkViewPosition zeroPosition zeroPosition zeroPosition zeroPosition)
          (VIEW_POSITIONS !! name).

(** [viewProperties], without the editor: a [View] here keeps the title
    and the text, and not the frame, the editor or the colours. *)
Record viewProperties : Type := mkViewProperties {
  title : string;
  frame : bool;
  editable : bool;
  wrap : bool;
  text : string
}.

(** [VIEW_PROPERTIES] as the program starts. *)
Definition VIEW_PROPERTIES : gmap string viewProperties :=
  list_to_map
    [(URL_VIEW, mkViewProperties "URL - press F1 for help" true true false "");
     (URL_PARAMS_VIEW, mkViewProperties "URL params" true true false "");
     (REQUEST_METHOD_VIEW, mkViewProperties "Method" true true false "GET");
     (REQUEST_DATA_VIEW,
      mkViewProperties "Request data (POST/PUT/PATCH)" true true false "");
     (REQUEST_HEADERS_VIEW,
      mkViewProperties "Request headers" true true false "");
     (RESPONSE_HEADERS_VIEW,
      mkViewProperties "Response headers" true true true "");
     (RESPONSE_BODY_VIEW, mkViewProperties "Response body" true true true "");
     (SEARCH_VIEW, mkViewProperties "" false true false "");
     (STATUSLINE_VIEW, mkViewProperties "" false false false "");
     (SEARCH_PROMPT_VIEW, mkViewProperties "" false false false "search> ");
     (POPUP_VIEW, mkViewProperties "Info" true false false "");
     (AUTOCOMPLETE_VIEW, mkViewProperties "" false false false "")].

(** [VIEW_PROPERTIES[name]] in the table [props]. *)
Definition propertiesOf (props : gmap string viewProperties) (name : string)
  : viewProperties :=
  default (mkViewProperties "" false false false "") (props !! name).

(** [setViewProperties]. *)
Definition setViewProperties (props : gmap string viewProperties) (v : View)
  (name : string) : View :=
  setViewTextAndCursor (Gocui.SetTitle v (title (propertiesOf props name)))
                       (text (propertiesOf props name)).

(** [strings.HasSuffix(s, suffix)]. *)
Definition HasSuffix (s suffix : string) : bool :=
  (String.length suffix <=? String.length s)%nat
  && String.eqb (String.substring (String.length s - String.length suffix)
                                  (String.length suffix) s) suffix.

(** ** [App.Layout] *)

(** The views that [Layout] places, in its order. *)
Definition layoutNames : list string :=
  [URL_VIEW; URL_PARAMS_VIEW; REQUEST_METHOD_VIEW; REQUEST_DATA_VIEW;
   REQUEST_HEADERS_VIEW; RESPONSE_HEADERS_VIEW; RESPONSE_BODY_VIEW;
   STATUSLINE_VIEW; SEARCH_PROMPT_VIEW; SEARCH_VIEW].

(** The last loop of [Layout]; the flag tells that no error is
    returned. *)
Fixpoint layoutViews (props : gmap string viewProperties)
  (names : list string) (g : Gui) : option (Gui * bool) :=
  match names with
  | [] => Some (g, true)
  | name :: names' =>
      r ← setView g name (positionOf name);
      match r with
      | Gocui.SetViewError => Some (g, false)
      | Gocui.SetViewOk g' => layoutViews props names' g'
      | Gocui.SetViewUnknown g' =>
          v ← Gocui.GetView g' name;
          layoutViews props names'
            (Gocui.putView g' name (setViewProperties props v name))
      end
  end.

(** [refreshStatusLine]; [refresh] is [StatusLine.Update], which is not
    part of these sources.  Without a status line view it would get a
    [nil] view, taken as a panic here. *)
Definition refreshStatusLine (refresh : App -> View -> View) (a : App)
  (g : Gui) : option Gui :=
  sv ← Gocui.GetView g STATUSLINE_VIEW;
  Some (Gocui.putView g STATUSLINE_VIEW (refresh a sv)).

(** [App.Layout]; [scheme] is [a.config.General.DefaultURLScheme] and
    [props] the table [VIEW_PROPERTIES], which [Layout] updates.  The
    flag tells that no error is returned. *)
Definition Layout (scheme : string) (refresh : App -> View -> View)
  (props : gmap string viewProperties) (g : Gui) (a : App)
  : option (Gui * App * gmap string viewProperties * bool) :=
  let '(maxX, maxY) := gSize g in
  if (maxX <? MIN_WIDTH) || (maxY <? MIN_HEIGHT) then
    r ← setView g ERROR_VIEW (positionOf ERROR_VIEW);
    match r with
    | Gocui.SetViewError => Some (g, a, props, false)
    | Gocui.SetViewOk g' => Some (g', a, props, true)
    | Gocui.SetViewUnknown g' =>
        v ← Gocui.GetView g' ERROR_VIEW;
        Some (Gocui.withCursor
                (Gocui.putView g' ERROR_VIEW
                   (Fprintln (Gocui.SetTitle v "Error")
                             "Terminal is too small"))
                false,
              a, props, true)
    end
  else
    '(g, a) ← match Gocui.GetView g ERROR_VIEW with
              | Some _ =>
                  '(g', a', _) ← App_setView
                                   (Gocui.withCursor
                                      (Gocui.DeleteView g ERROR_VIEW) true)
                                   a;
                  Some (g', a')
              | None => Some (g, a)
              end;
    let props :=
      if negb (String.eqb scheme "") && negb (HasSuffix scheme "://")
      then <[URL_VIEW :=
               let p := propertiesOf props URL_VIEW in
               mkViewProperties (title p) (frame p) (editable p) (wrap p)
                                (scheme +:+ "://")]> props
      else props in
    '(g, ok) ← layoutViews props layoutNames g;
    if negb ok then Some (g, a, props, false)
    else
      g ← refreshStatusLine refresh a g;
      Some (g, a, props, true).

(** The rectangles of the layout in integer arithmetic, on a terminal
    of [maxX] columns and [maxY] rows. *)
Definition layoutRect (name : string) (maxX maxY : Z) : Z * Z * Z * Z :=
  let X := maxX + 1 in
  let Y := maxY + 1 in
  if String.eqb name URL_VIEW then (0, 0, X - 2, 3)
  else if String.eqb name URL_PARAMS_VIEW then (0, 3, 3 * X / 10, Y / 4)
  else if String.eqb name REQUEST_METHOD_VIEW
  then (0, Y / 4, 3 * X / 10, Y / 4 + 2)
  else if String.eqb name REQUEST_DATA_VIEW
  then (0, Y / 4 + 2, 3 * X / 10, Y / 2 + 1)
  else if String.eqb name REQUEST_HEADERS_VIEW
  then (0, Y / 2 + 1, 3 * X / 10, Y - 3)
  else if String.eqb name RESPONSE_HEADERS_VIEW
  then (3 * X / 10, 3, X - 2, Y / 4 + 2)
  else if String.eqb name RESPONSE_BODY_VIEW
  then (3 * X / 10, Y / 4 + 2, X - 2, Y - 3)
  else if String.eqb name STATUSLINE_VIEW then (-1, Y - 4, X, Y - 1)
  else if String.eqb name SEARCH_PROMPT_VIEW then (-1, Y - 3, 8, Y - 1)
  else if String.eqb name SEARCH_VIEW then (7, Y - 3, X - 1, Y - 1)
  else (0, 0, 0, 0).

(** ** The autocompletion box *)

(** [minInt]. *)
Definition minInt (x y : Z) : Z := if x <? y then x else y.

(** [closeAutocomplete]. *)
Definition closeAutocomplete (g : Gui) : Gui :=
  Gocui.DeleteView g AUTOCOMPLETE_VIEW.

(** [showAutocomplete]. *)
Definition showAutocomplete (completions : list string)
  (left top maxWidth maxHeight : Z) (g : Gui) : option Gui :=
  let completionsWidth :=
    fold_left (fun w completion =>
                 let thisCompletionWidth :=
                   Z.of_nat (String.length completion) in
                 if w <? thisCompletionWidth then thisCompletionWidth else w)
              completions 0 in
  let width := minInt completionsWidth maxWidth in
  let height := minInt (Z.of_nat (length completions)) maxHeight in
  let newPos :=
    mkViewPosition (mkPosition f32_0 left) (mkPosition f32_0 top)
      (mkPosition f32_0 (GoInt.add (GoInt.add left width) 1))
      (mkPosition f32_0 (GoInt.add (GoInt.add top height) 1)) in
  r ← setView g AUTOCOMPLETE_VIEW newPos;
  match r with
  | Gocui.SetViewUnknown g' =>
      v ← Gocui.GetView g' AUTOCOMPLETE_VIEW;
      Some (Gocui.putView g' AUTOCOMPLETE_VIEW
              (setViewTextAndCursor (Gocui.SetTitle v "")
                 (Join completions (String NL ""))))
  | Gocui.SetViewOk g' => Some g'
  | Gocui.SetViewError => Some g
  end.

(** The length of the longest of the completions. *)
Definition widest (completions : list string) : Z :=
  foldr Z.max 0 (map (fun c => Z.of_nat (String.length c)) completions).

(** ** Examples for the rest of the code *)

(** A response that claims to be gzip-encoded and is not. *)
Definition gzipResponse : Response :=
  mkResponse 200 (<["Content-Encoding" := ["gzip"]]> ∅) ∅ (ReadOk "hello")
             (inl "gzip: invalid header").

(** The world of the examples with a server that answers with it. *)
Definition gzipWorld : World :=
  {| URLT := URLT exampleWorld;
     url_Parse := url_Parse exampleWorld;
     url_ParseQuery := url_ParseQuery exampleWorld;
     URL_Query := URL_Query exampleWorld;
     Values_Encode := Values_Encode exampleWorld;
     URL_String := URL_String exampleWorld;
     CanonicalMIMEHeaderKey := CanonicalMIMEHeaderKey exampleWorld;
     writeMultipart := writeMultipart exampleWorld;
     http_NewRequest := http_NewRequest exampleWorld;
     CLIENT_Do := fun _ _ => (inr gzipResponse, 1);
     formatter_New := formatter_New exampleWorld;
     DEFAULT_FORMATTER := DEFAULT_FORMATTER exampleWorld;
     http_StatusText := http_StatusText exampleWorld;
     os_ReadFile := os_ReadFile exampleWorld;
     json_Marshal := json_Marshal exampleWorld;
     json_Unmarshal := json_Unmarshal exampleWorld |}.

(** The request that a submit of the example fields hands over. *)
Definition sentBy (w : World) (st0 : State) : HttpRequest :=
  default (mkHttpRequest "" "" ∅ "" None)
    (head (sent (submitGoroutine w (snd (submitted st0))
                   (fst (submitted st0))))).

(** A formatter with a search that finds every line holding the text
    [he]. *)
Definition searchFormatter : ResponseFormatter :=
  mkFormatter "[lines]" true (fun raw => (raw, None))
    (fun q raw => if String.eqb q "he" then inr ["hello"; "help"]
                  else inl "invalid expression").

(** One request in the history, with a body and [searchFormatter], and
    the text [he] in the search field. *)
Definition searchState : State :=
  mkState
    (Gocui.putView (exampleGui "http://example.com/" "GET" "" "" "")
       SEARCH_VIEW (fieldView "he"))
    (mkApp 0 0 "" [0%nat] (mkConfig false true))
    {[ 0%nat := mkRequest "http://example.com/" "GET" "" "" "" ""
                  (Some ("hello" +:+ String NL "help")) "text/plain" 1
                  (Some searchFormatter) ]}
    [].

(** A terminal of 40 by 10, and one of 80 by 24, without views. *)
Definition smallTerminal : Gui := mkGui (40, 10) ∅ [] "" true.
Definition emptyTerminal : Gui := mkGui (80, 24) ∅ [] "" true.

(** * Properties *)

(** [TrimSpace] removes the white space of Unicode at both ends, such
    as a no-break space (U+00A0) or an ideographic space (U+3000), and
    leaves a byte that is no encoding of a rune. *)
Example TrimSpace_unicode :
  TrimSpace (String "194" (String "160" "")) = ""
  /\ TrimSpace ("GET" +:+ String "194" (String "160" "")) = "GET"
  /\ TrimSpace (String "227" (String "128" (String "128" " a b"))
                +:+ String NL "") = "a b"
  /\ TrimSpace (String "160" "x") = String "160" "x".
Proof. repeat split. Qed.

(** ** Go strings *)

Lemma HasPrefix_app (s prefix : string) :
  HasPrefix s prefix = true <-> exists suffix, s = prefix +:+ suffix.
Proof.
  revert s; induction prefix as [|p prefix IH]; intros s; simpl.
  - split; [intros _; exists s; reflexivity | intros _; now destruct s].
  - destruct s as [|c s].
    + split; [discriminate | intros [suffix H]; discriminate].
    + simpl. rewrite andb_true_iff, Ascii.eqb_eq, IH. split.
      * intros [-> [suffix ->]]. exists suffix. reflexivity.
      * intros [suffix H]. injection H as -> ->. split; [reflexivity|].
        exists suffix. reflexivity.
Qed.

Lemma string_app_nil_r (s : string) : s +:+ "" = s.
Proof.
  induction s as [|c s IH]; [reflexivity|].
  change (String c (s +:+ "") = String c s). now rewrite IH.
Qed.

Lemma string_app_inv_nil (s t : string) : s = s +:+ t -> t = "".
Proof.
  induction s as [|c s IH]; intros H.
  - symmetry; exact H.
  - change (String c s = String c (s +:+ t)) in H.
    injection H as H. apply IH, H.
Qed.

Lemma strict_prefix_test (T c : string) :
  HasPrefix c T && negb (String.eqb T c) = true <-> strict_prefix T c.
Proof.
  rewrite andb_true_iff, negb_true_iff, HasPrefix_app, String.eqb_neq.
  unfold strict_prefix. split.
  - intros [[suffix ->] Hne]. exists suffix. split; [|reflexivity].
    intros ->. apply Hne. now rewrite string_app_nil_r.
  - intros [suffix [Hne ->]]. split; [exists suffix; reflexivity|].
    intros H. apply Hne. apply (string_app_inv_nil T), H.
Qed.

Lemma TrimRight_nil_iff (s cutset : string) :
  TrimRight s cutset = "" -> s = "" \/
  exists c, lastByte s = Some c /\ inCutset c cutset = true.
Proof.
  induction s as [|c s IH]; simpl; [now left|].
  destruct (TrimRight s cutset) eqn:E.
  - destruct (inCutset c cutset) eqn:Ec; [|discriminate].
    intros _. right. destruct (IH eq_refl) as [->|[d [Hd Hin]]].
    + exists c. split; [reflexivity | exact Ec].
    + exists d. split; [|exact Hin]. destruct s; [discriminate | exact Hd].
  - discriminate.
Qed.

Lemma TrimRight_fixed (s cutset : string) :
  TrimRight s cutset = s <->
  (forall c, lastByte s = Some c -> inCutset c cutset = false).
Proof.
  induction s as [|c s IH]; simpl.
  - split; [intros _ d H; discriminate | reflexivity].
  - destruct s as [|c' s'].
    + simpl. destruct (inCutset c cutset) eqn:Ec.
      * split; [discriminate | intros H; specialize (H c eq_refl); congruence].
      * split; [intros _ d [= <-]; exact Ec | reflexivity].
    + destruct (TrimRight (String c' s') cutset) as [|a t] eqn:E.
      * split.
        -- destruct (inCutset c cutset); discriminate.
        -- intros H. apply TrimRight_nil_iff in E as [E|[d [Hd Hin]]];
             [discriminate|]. rewrite (H d Hd) in Hin. discriminate.
      * rewrite <- IH. split; intros H; [injection H as H1 H2 | ]; congruence.
Qed.

(** ** Autocomplete candidates *)

Lemma completeFromSlice_loop (str : string) (completions acc : list string) :
  fold_left
    (fun completed completion =>
       if HasPrefix completion str && negb (String.eqb str completion)
       then completed ++ [completion] else completed)
    completions acc
  = acc ++ List.filter
             (fun c => HasPrefix c str && negb (String.eqb str c)) completions.
Proof.
  revert acc; induction completions as [|c cs IH]; intros acc; simpl.
  - now rewrite app_nil_r.
  - rewrite IH. destruct (HasPrefix c str && negb (String.eqb str c)).
    + now rewrite <- app_assoc.
    + reflexivity.
Qed.

Lemma completeFromSlice_guard (str : string) :
  String.eqb str ""
  || negb (String.eqb (TrimRight str (String SP (String NL ""))) str)
  = true <-> str = "" \/ ends_in_space_or_newline str.
Proof.
  rewrite orb_true_iff, negb_true_iff, String.eqb_eq, String.eqb_neq.
  rewrite TrimRight_fixed. unfold ends_in_space_or_newline. split.
  - intros [H|H]; [now left|]. right.
    destruct (lastByte str) as [c|] eqn:E.
    + destruct (Ascii.eqb c SP) eqn:E1; [apply Ascii.eqb_eq in E1; subst; now left|].
      destruct (Ascii.eqb c NL) eqn:E2; [apply Ascii.eqb_eq in E2; subst; now right|].
      exfalso. apply H. intros d [= <-]. simpl. now rewrite E1, E2.
    + exfalso. apply H. intros d Hd. discriminate.
  - intros [H|[H|H]]; [now left| |]; right; intros Hall;
      specialize (Hall _ H); discriminate.
Qed.

(** C1 (as amended).  For every token [T] and candidate list [C]:
    when [T] is empty or ends in a space or a newline,
    [completeFromSlice T C] is empty; otherwise it is exactly the entries
    of [C] that have [T] as a strict prefix (so never [T] itself), in the
    order of [C]. *)
Theorem completeFromSlice_spec (T : string) (C : list string) :
  (forall c, HasPrefix c T && negb (String.eqb T c) = true
             <-> strict_prefix T c)
  /\ (T = "" \/ ends_in_space_or_newline T -> completeFromSlice T C = [])
  /\ (~ (T = "" \/ ends_in_space_or_newline T) ->
      completeFromSlice T C
      = List.filter (fun c => HasPrefix c T && negb (String.eqb T c)) C).
Proof.
  split; [intros c; apply strict_prefix_test|].
  unfold completeFromSlice. split; intros H.
  - apply completeFromSlice_guard in H. now rewrite H.
  - destruct (_ || _) eqn:E.
    + exfalso. apply H. now apply completeFromSlice_guard.
    + apply completeFromSlice_loop.
Qed.

(** The amended statement at two tokens of the header editor. *)
Example completeFromSlice_amended_witness :
  completeFromSlice "Con " ["Content-Type"] = []
  /\ completeFromSlice "Con" ["Connection"; "Con"; "Accept"; "Content-Type"]
     = ["Connection"; "Content-Type"].
Proof.
  split.
  - apply (proj1 (proj2 (completeFromSlice_spec "Con " ["Content-Type"]))).
    right. left. reflexivity.
  - rewrite (proj2 (proj2 (completeFromSlice_spec "Con"
               ["Connection"; "Con"; "Accept"; "Content-Type"]))).
    + reflexivity.
    + intros [H|[H|H]]; discriminate.
Defined.

(** C1 as stated fails: a token that ends in a tab ends in white space,
    and the candidates it is a strict prefix of are still returned.
    (And at the empty token, a strict prefix of every candidate, nothing
    is returned.) *)
Lemma completeFromSlice_tab_counterexample :
  let T := String "a" (String TAB "") in
  let C := [String "a" (String TAB "b")] in
  (ends_in_whitespace T
   /\ completeFromSlice T C = C
   /\ completeFromSlice T C <> [])
  /\ (strict_prefix "" "Accept" /\ completeFromSlice "" ["Accept"] = []).
Proof.
  simpl. split; [split; [|split]|split].
  - exists TAB. split; reflexivity.
  - reflexivity.
  - discriminate.
  - exists "Accept". split; [discriminate | reflexivity].
  - reflexivity.
Qed.

(** ** Layout arithmetic *)

Lemma truncate_floor_abs (f : Float32.float32) :
  Float32.truncate f
  = (fun z => cond_Zopp (Float32.sign f) z) <$> Float32.floor (SFabs f).
Proof.
  destruct f as [s|s| |s m e]; simpl; try reflexivity.
  - now destruct s.
  - f_equal. f_equal. destruct (Z.leb_spec 0 e).
    + now rewrite Z.shiftl_mul_pow2.
    + rewrite Z.shiftl_div_pow2 by lia. reflexivity.
Qed.

Lemma floor_nonneg (f : Float32.float32) :
  Float32.sign f = false -> Float32.floor (SFabs f) = Float32.floor f.
Proof. destruct f as [s|s| |s m e]; simpl; intros H; subst; reflexivity. Qed.

Lemma sign_binary_round_aux (sx : bool) (mx ex : Z) (lx : location) :
Float32.sign (binary_round_aux Float32.prec Float32.emax sx mx ex lx) = sx
\/ binary_round_aux Float32.prec Float32.emax sx mx ex lx = S754_nan.
Proof.
unfold binary_round_aux.
destruct (shr_fexp _ _ mx ex lx) as [mrs' e'].
destruct (shr_fexp _ _ _ e' loc_Exact) as [mrs'' e''].
destruct (shr_m mrs'') as [|m|m]; [now left| |now right].
destruct (_ <=? _); now left.
Qed.

(** A product of two floats whose sign bits are clear has its sign bit
    clear. *)
Lemma sign_mul_nonneg (x y : Float32.float32) :
Float32.sign x = false -> Float32.sign y = false ->
Float32.sign (Float32.mul x y) = false.
Proof.
destruct x as [sx|sx| |sx mx ex], y as [sy|sy| |sy my ey];
  intros Hx Hy; simpl in Hx, Hy; subst; try reflexivity.
change (Float32.sign
          (binary_round_aux Float32.prec Float32.emax false
             (Z.pos (mx * my)) (ex + ey) loc_Exact) = false).
destruct (sign_binary_round_aux false (Z.pos (mx * my)) (ex + ey) loc_Exact)
  as [H|H]; [exact H | now rewrite H].
Qed.

(** The [float32] of an integer that is not negative has its sign bit
    clear. *)
Lemma sign_ofInt_nonneg (n : Z) : 0 <= n -> Float32.sign (Float32.ofInt n) = false.
Proof.
intros Hn. unfold Float32.ofInt, binary_normalize.
destruct n as [|m|m]; [reflexivity| |lia].
unfold binary_round. destruct (shl_align _ _ _) as [mz ez].
change (Float32.sign
          (binary_round_aux Float32.prec Float32.emax false
             (Z.pos mz) ez loc_Exact) = false).
destruct (sign_binary_round_aux false (Z.pos mz) ez loc_Exact)
  as [H|H]; [exact H | now rewrite H].
Qed.

(** C2 (as amended).  [getCoordinate] multiplies in [float32], discards
    the fraction of the product (rounding toward zero) and adds the
    offset with the wrap-around of [int], whenever the product is finite
    and its integer part fits an [int]: with [z] the floor of the
    absolute value of the [float32] product, the result is [z + abs]
    for a product that is not negative, where [z] is the floor of the
    product itself, and [-z + abs] for a negative one.  A fraction and
    a size that are not negative, as those of the position table and of
    a terminal are, give a product that is not negative.  The same
    position and size always give the same coordinate. *)
Theorem getCoordinate_truncates (p : position) (S z : Z) :
let f := Float32.mul (pct p) (Float32.ofInt S) in
Float32.floor (SFabs f) = Some z ->
GoInt.inRange (cond_Zopp (Float32.sign f) z) = true ->
getCoordinate p S
= Some (GoInt.add (cond_Zopp (Float32.sign f) z) (abs p))
/\ (Float32.sign f = false ->
    Float32.floor f = Some z
    /\ getCoordinate p S = Some (GoInt.add z (abs p)))
/\ (Float32.sign (pct p) = false -> 0 <= S ->
    Float32.floor f = Some z
    /\ getCoordinate p S = Some (GoInt.add z (abs p)))
/\ (forall p' S', p' = p -> S' = S ->
    getCoordinate p' S' = getCoordinate p S).
Proof.
intros f Hz Hr.
assert (E : getCoordinate p S
            = Some (GoInt.add (cond_Zopp (Float32.sign f) z) (abs p))).
{ unfold getCoordinate, GoInt.ofFloat32. fold f.
  rewrite truncate_floor_abs, Hz. simpl. now rewrite Hr. }
assert (Hpos : Float32.sign f = false ->
               Float32.floor f = Some z
               /\ getCoordinate p S = Some (GoInt.add z (abs p))).
{ intros Hs. split.
  - now rewrite <- floor_nonneg.
  - rewrite E, Hs. reflexivity. }
split; [exact E|]. split; [exact Hpos|]. split.
- intros Hp HS. apply Hpos, sign_mul_nonneg; [exact Hp|].
  apply sign_ofInt_nonneg, HS.
- intros p' S' -> ->. reflexivity.
Qed.

(** The popup of an 80 column terminal: half of 81 is 40.5, the
    coordinate is 40 - 9. *)
Lemma getCoordinate_truncates_witness :
  getCoordinate (mkPosition f32_half (-9)) 81 = Some 31.
Proof.
  apply (getCoordinate_truncates (mkPosition f32_half (-9)) 81 40);
    reflexivity.
Defined.

(** C2 as stated fails.  At the fraction -0.5 and the size 1 the product
    is -0.5, whose floor is -1, and the coordinate is 0.  At the
    [float32] nearest to 0.7 and the size 10 the exact product is
    6.99999988..., whose floor is 6, and the coordinate is 7, because
    the [float32] product is rounded to 7 first. *)
Lemma getCoordinate_floor_counterexample :
  (getCoordinate (mkPosition f32_minus_half 0) 1 = Some 0
   /\ floorCoordinate (mkPosition f32_minus_half 0) 1 = Some (-1))
  /\ (getCoordinate (mkPosition f32_0_7 0) 10 = Some 7
      /\ floorCoordinate (mkPosition f32_0_7 0) 10 = Some 6).
Proof. repeat split; reflexivity. Qed.

(** ** The editor chain *)

Section EditorProperties.

Variable Cursor : list Call -> Z * Z.
Variable Line : list Call -> Z -> option string.
Variable Size : list Call -> Z * Z.
Variable ViewPosition : list Call -> Z * Z.
Variable runes : string -> list Z.
Variable completions : string -> list string.

(** After the first byte of the sequence, [Z] moves the focus to the
    previous view and the editor stops buffering. *)
Lemma backTab_Z (tr : list Call) (key modifier : Z) :
  ViewEditor_Edit Cursor Line (mkViewEditor true) tr key rune_Z modifier
  = (mkViewEditor false, tr ++ [PrevView]).
Proof. reflexivity. Qed.

(** After the first byte of the sequence, an input other than [Z]
    and other than the first byte itself is handed to the inner editor
    after the buffered byte (unless it is an arrow down below the last
    line), and the editor keeps buffering. *)
Lemma backTab_other (tr : list Call) (key ch modifier : Z) :
  ch <> rune_Z ->
  backTabEscape
    (fst (ViewEditor_Edit Cursor Line (mkViewEditor true) tr key ch modifier))
  = true.
Proof.
  intros H. unfold ViewEditor_Edit. simpl.
  destruct (Z.eqb_spec ch rune_Z) as [E|_]; [contradiction|].
  destruct (_ && _); [reflexivity|].
  destruct (_ && _); reflexivity.
Qed.

(** After the first byte of the sequence, an input other than [Z] is
    handled as the editor that is not buffering handles it, once the
    buffered byte has been handed to the inner editor. *)
Lemma backTab_other_replays (tr : list Call) (key ch modifier : Z) :
ch <> rune_Z ->
snd (ViewEditor_Edit Cursor Line (mkViewEditor true) tr key ch modifier)
= snd (ViewEditor_Edit Cursor Line (mkViewEditor false)
         (tr ++ [OrigEdit 0 rune_lbracket ModAlt]) key ch modifier).
Proof.
intros H. unfold ViewEditor_Edit. simpl.
destruct (Z.eqb_spec ch rune_Z) as [E|_]; [contradiction|].
destruct (_ && _); [reflexivity|].
destruct (_ && _); reflexivity.
Qed.

(** C9, where the code departs from it: the editor is buffering and
    the letter [a] arrives.  Both inputs reach the inner editor, and
    the editor is still buffering afterwards; a [Z] typed next is then
    taken for the end of the sequence and moves the focus. *)
Theorem backTab_escape_not_reset (tr : list Call) :
  let '(e1, tr1) :=
    ViewEditor_Edit Cursor Line (mkViewEditor true) tr 0 97 ModNone in
  e1 = mkViewEditor true
  /\ tr1 = tr ++ [OrigEdit 0 rune_lbracket ModAlt; OrigEdit 0 97 ModNone]
  /\ ViewEditor_Edit Cursor Line e1 tr1 0 rune_Z ModNone
     = (mkViewEditor false, tr1 ++ [PrevView]).
Proof.
  unfold ViewEditor_Edit. simpl.
  rewrite <- app_assoc. repeat split.
Qed.

End EditorProperties.

Lemma string_length_app (a b : string) :
  String.length (a +:+ b) = (String.length a + String.length b)%nat.
Proof.
  induction a as [|c a IH]; [reflexivity|].
  change (S (String.length (a +:+ b)) = S (String.length a + String.length b)).
  now rewrite IH.
Qed.

Lemma substring_all (s : string) : String.substring 0 (String.length s) s = s.
Proof. induction s as [|c s IH]; simpl; [reflexivity | now rewrite IH]. Qed.

Lemma sliceFrom_app (token suffix : string) :
  sliceFrom (token +:+ suffix) (Z.of_nat (String.length token)) = Some suffix.
Proof.
  unfold sliceFrom. rewrite string_length_app, Nat2Z.id.
  replace ((0 <=? Z.of_nat (String.length token))
           && (Z.of_nat (String.length token)
               <=? Z.of_nat (String.length token + String.length suffix)))
    with true by (symmetry; apply andb_true_iff; split; apply Z.leb_le; lia).
  replace (String.length token + String.length suffix - String.length token)%nat
    with (String.length suffix) by lia.
  f_equal. induction token as [|c token IH]; [apply substring_all|exact IH].
Qed.

Section AutocompleteProperties.

Variable Cursor : list Call -> Z * Z.
Variable Line : list Call -> Z -> option string.
Variable Size : list Call -> Z * Z.
Variable ViewPosition : list Call -> Z * Z.
Variable runes : string -> list Z.
Variable completions : string -> list string.


Lemma onView_suffix (tr : list Call) (c : Call) :
  onView c = false -> filter onView (tr ++ [c]) = filter onView tr.
Proof.
  intros H. rewrite filter_app, filter_cons, filter_nil.
  destruct (decide (onView c)) as [Hc|_].
  - rewrite H in Hc. destruct Hc.
  - apply app_nil_r.
Qed.

(** Enter while a suggestion is showing. *)
Lemma Edit_Enter_completing (mem : Arrays) (ve : ViewEditor)
  (e : AutocompleteEditor) (tr : list Call) (ch modifier : Z)
  (line trimmed : string) (comps : list string) (c : string) :
  isAutocompleting e = true ->
  Line (filter onView tr) (snd (Cursor (filter onView tr))) = Some line ->
  sliceTo line (fst (Cursor (filter onView tr))) = Some trimmed ->
  mem !! currentCompletions e = Some comps ->
  comps !! 0%nat = Some c ->
  AutocompleteEditor_Edit Cursor Line Size ViewPosition runes completions
    mem ve e tr KeyEnter ch modifier
  = Some (mem, ve, mkAutocompleteEditor (currentCompletions e) false,
          tr ++ ((if (length comps =? 1)%nat then []
                  else replicate (length (runes (getLastSymbol trimmed)))
                         (EditDelete true))
                 ++ map EditWrite (runes c)) ++ [CloseAutocomplete]).
Proof.
  intros Hauto Hline Htrim Hmem Hc. unfold AutocompleteEditor_Edit.
  change (KeyEnter =? KeyEnter) with true. cbv iota. simpl negb. cbv iota.
  destruct (Cursor (filter onView tr)) as [cx cy]. simpl in Hline, Htrim.
  rewrite Hline. simpl. rewrite Htrim. simpl.
  rewrite Hauto, Hmem. simpl. rewrite Hc. simpl.
  destruct (length comps =? 1)%nat; simpl;
    rewrite <- ?app_assoc; reflexivity.
Qed.

(** C7.  A key other than Enter is pressed, the cursor is on a line
    of the view, and the token before it has candidates, each of which
    extends the token: a suggestion shows.  When Enter is pressed
    next, the view receives, before the suggestion is closed: if
    there was exactly one candidate, one [EditWrite] per rune of what
    that candidate has after the token and no [EditDelete] (the
    suggestion time wrote the suffix into the array that
    [currentCompletions] shares); otherwise one [EditDelete(true)]
    per rune of the token and then one [EditWrite] per rune of the
    whole first candidate. *)
Theorem autocomplete_enter (mem : Arrays) (ve : ViewEditor)
  (e : AutocompleteEditor) (tr : list Call) (key ch modifier : Z)
  (line trimmed : string) :
  key <> KeyEnter ->
  let ve1 := fst (ViewEditor_Edit Cursor Line ve tr key ch modifier) in
  let tra := snd (ViewEditor_Edit Cursor Line ve tr key ch modifier) in
  let va := filter onView tra in
  Line va (snd (Cursor va)) = Some line ->
  sliceTo line (fst (Cursor va)) = Some trimmed ->
  let token := getLastSymbol trimmed in
  let cands := completions token in
  cands <> [] ->
  (forall c, c ∈ cands -> HasPrefix c token = true) ->
  exists mem1 e1 tr1,
    AutocompleteEditor_Edit Cursor Line Size ViewPosition runes completions
      mem ve e tr key ch modifier = Some (mem1, ve1, e1, tr1)
    /\ isAutocompleting e1 = true
    /\ forall ch' modifier',
        exists e2 edits,
          AutocompleteEditor_Edit Cursor Line Size ViewPosition runes
            completions mem1 ve1 e1 tr1 KeyEnter ch' modifier'
          = Some (mem1, ve1, e2, tr1 ++ edits ++ [CloseAutocomplete])
          /\ isAutocompleting e2 = false
          /\ match cands with
             | [c] => exists suffix,
                 c = token +:+ suffix
                 /\ edits = map EditWrite (runes suffix)
             | c :: _ =>
                 edits = replicate (length (runes token)) (EditDelete true)
                         ++ map EditWrite (runes c)
             | [] => False
             end.
Proof.
  intros Hkey ve1 tra va Hline Htrim token cands Hne Hpre.
  unfold AutocompleteEditor_Edit at 1.
  destruct (Z.eqb_spec key KeyEnter) as [?|_]; [contradiction|].
  simpl negb. cbv iota.
  subst ve1 tra va.
  destruct (ViewEditor_Edit Cursor Line ve tr key ch modifier)
    as [ve0 tr0] eqn:EV.
  simpl fst in *. simpl snd in *.
  destruct (Cursor (filter onView tr0)) as [cx cy] eqn:EC.
  simpl in Hline, Htrim.
  rewrite Hline. simpl. rewrite Htrim. simpl. fold token. fold cands.
  rewrite (onView_suffix tr0 CloseAutocomplete eq_refl), EC.
  destruct (Size (filter onView tr0)) as [sx sy].
  destruct (ViewPosition (filter onView tr0)) as [ox oy].
  rewrite lookup_insert_eq. simpl.
  unfold cands in *. clear cands.
  destruct (completions token) as [|c [|c' cs]] eqn:Ecands;
    [contradiction| |].
  - (* one candidate: the array holds its suffix *)
    destruct (proj1 (HasPrefix_app c token)) as [suffix Hc].
    { apply Hpre. apply list_elem_of_here. }
    assert (Hs : sliceFrom c (Z.of_nat (String.length token)) = Some suffix)
      by (rewrite Hc; apply sliceFrom_app).
    simpl. rewrite Hs. simpl. rewrite lookup_insert_eq. simpl.
    eexists _, _, _. split; [reflexivity|]. split; [reflexivity|].
    intros ch' modifier'.
    eexists _, _. split.
    { erewrite Edit_Enter_completing; [reflexivity|reflexivity|..].
      - rewrite !onView_suffix by reflexivity. rewrite EC. exact Hline.
      - rewrite !onView_suffix by reflexivity. rewrite EC. exact Htrim.
      - simpl. apply lookup_insert_eq.
      - reflexivity. }
    split; [reflexivity|].
    exists suffix. split; [exact Hc | reflexivity].
  - (* several candidates: the array holds them as they are *)
    simpl.
    eexists _, _, _. split; [reflexivity|]. split; [reflexivity|].
    intros ch' modifier'.
    eexists _, _. split.
    { erewrite Edit_Enter_completing; [reflexivity|reflexivity|..].
      - rewrite !onView_suffix by reflexivity. rewrite EC. exact Hline.
      - rewrite !onView_suffix by reflexivity. rewrite EC. exact Htrim.
      - simpl. apply lookup_insert_eq.
      - reflexivity. }
    split; reflexivity.
Qed.
End AutocompleteProperties.

(** [Con] was typed in the one-line view and [t] is typed: the only
    header that extends [Cont] is [Content-Type], and Enter writes
    [ent-Type] without deleting. *)
Lemma autocomplete_enter_witness :
  exists mem1 e1 tr1 e2,
    AutocompleteEditor_Edit lineCursor lineLine lineSize linePosition
      asciiRunes (fun s => completeFromSlice s someHeaders)
      ∅ (mkViewEditor false) (mkAutocompleteEditor 0%nat false)
      (typed "Con") 0 116 0
    = Some (mem1, mkViewEditor false, e1, tr1)
    /\ AutocompleteEditor_Edit lineCursor lineLine lineSize linePosition
         asciiRunes (fun s => completeFromSlice s someHeaders)
         mem1 (mkViewEditor false) e1 tr1 KeyEnter 0 0
       = Some (mem1, mkViewEditor false, e2,
               tr1 ++ map EditWrite (asciiRunes "ent-Type")
                   ++ [CloseAutocomplete]).
Proof.
  destruct (autocomplete_enter lineCursor lineLine lineSize linePosition
              asciiRunes (fun s => completeFromSlice s someHeaders)
              ∅ (mkViewEditor false) (mkAutocompleteEditor 0%nat false)
              (typed "Con") 0 116 0 "Cont" "Cont")
    as (mem1 & e1 & tr1 & H1 & _ & H3).
  - discriminate.
  - reflexivity.
  - reflexivity.
  - discriminate.
  - intros c Hc. apply list_elem_of_singleton in Hc. subst c. reflexivity.
  - change ((ViewEditor_Edit lineCursor lineLine (mkViewEditor false)
                (typed "Con") 0 116 0).1) with (mkViewEditor false) in H1, H3.
    destruct (H3 0 0) as (e2 & edits & H4 & _ & suffix & Hs & He).
    exists mem1, e1, tr1, e2. split; [exact H1|].
    rewrite H4. subst edits.
    cbv in Hs. injection Hs as Hs. subst suffix. reflexivity.
Defined.

Lemma ReplaceByte_length (s : string) (old new : ascii) :
String.length (ReplaceByte s old new) = String.length s.
Proof. induction s as [|c s IH]; simpl; [reflexivity | now rewrite IH]. Qed.

Lemma ReplaceByte_get (s : string) (old new : ascii) (i : nat) :
String.get i (ReplaceByte s old new)
= (fun c => if Ascii.eqb c old then new else c) <$> String.get i s.
Proof.
revert i. induction s as [|c s IH]; intros i; simpl; [reflexivity|].
destruct i as [|i]; [reflexivity | apply IH].
Qed.

(** ** Header lines *)

Lemma cutColonSpace_sound (l a b : string) :
cutColonSpace l = Some (a, b) -> l = a +:+ ": " +:+ b.
Proof.
revert a b. induction l as [|c l IH]; intros a b; simpl; [discriminate|].
destruct l as [|d l']; [discriminate|].
destruct (Ascii.eqb c ":" && Ascii.eqb d SP) eqn:E.
- apply andb_true_iff in E as [Ec Ed].
  apply Ascii.eqb_eq in Ec, Ed. subst c d.
  intros [= <- <-]. reflexivity.
- destruct (cutColonSpace (String d l')) as [[a' b']|]; [|discriminate].
  intros [= <- <-]. rewrite (IH a' b' eq_refl). reflexivity.
Qed.

Lemma cutColonSpace_complete (name value : string) :
cutColonSpace (name +:+ ": " +:+ value) <> None.
Proof.
induction name as [|c name IH]; [discriminate|].
change (cutColonSpace (String c (name +:+ ": " +:+ value)) <> None).
simpl. destruct (name +:+ ": " +:+ value) as [|d l'] eqn:E.
- destruct name; discriminate.
- destruct (Ascii.eqb c ":" && Ascii.eqb d SP); [discriminate|].
  destruct (cutColonSpace (String d l')) as [[a b]|]; [discriminate|].
  exact IH.
Qed.

Lemma headerShape_cut (l : string) :
headerShape l <-> cutColonSpace l <> None.
Proof.
split.
- intros (name & value & ->). apply cutColonSpace_complete.
- destruct (cutColonSpace l) as [[a b]|] eqn:E; [|congruence].
  intros _. exists a, b. apply cutColonSpace_sound, E.
Qed.

Section HeaderLines.

Variable w : World.

Lemma setHeaders_step (header : string) (lines : list string) (h : Header) :
setHeaders w (header :: lines) h
= if String.eqb header "" then setHeaders w lines h
  else match cutColonSpace header with
       | Some (name, value) => setHeaders w lines (Header_Set w h name value)
       | None => inl header
       end.
Proof.
simpl. unfold SplitN2ColonSpace.
destruct (cutColonSpace header) as [[a b]|]; reflexivity.
Qed.

(** The loop stops at the first line that is not empty and is not
    [Name: Value], and only there. *)
Lemma setHeaders_inl (lines : list string) (h : Header) (l : string) :
setHeaders w lines h = inl l ->
exists pre post,
  lines = pre ++ l :: post /\ l <> "" /\ ~ headerShape l
  /\ Forall (fun x => x = "" \/ headerShape x) pre.
Proof.
revert h. induction lines as [|x lines IH]; intros h; [discriminate|].
rewrite setHeaders_step. destruct (String.eqb_spec x "") as [->|Hx].
- intros H. destruct (IH _ H) as (pre & post & -> & ? & ? & ?).
  exists ("" :: pre), post. repeat split; auto.
- destruct (cutColonSpace x) as [[a b]|] eqn:E.
  + intros H. destruct (IH _ H) as (pre & post & -> & ? & ? & ?).
    exists (x :: pre), post. repeat split; auto.
    constructor; [|assumption]. right. apply headerShape_cut. congruence.
  + intros [= <-]. exists [], lines. repeat split; auto.
    rewrite headerShape_cut. congruence.
Qed.

Lemma setHeaders_bad_line (lines : list string) (h : Header) :
(exists l, l ∈ lines /\ l <> "" /\ ~ headerShape l) ->
exists l, setHeaders w lines h = inl l.
Proof.
revert h. induction lines as [|x lines IH]; intros h (l & Hin & Hne & Hshape).
- inversion Hin.
- rewrite setHeaders_step. destruct (String.eqb_spec x "") as [->|Hx].
  + apply IH. exists l. repeat split; auto.
    apply elem_of_cons in Hin as [->|Hin]; [contradiction|exact Hin].
  + destruct (cutColonSpace x) as [[a b]|] eqn:E; [|eauto].
    apply IH. exists l. repeat split; auto.
    apply elem_of_cons in Hin as [->|Hin]; [|exact Hin].
    exfalso. apply Hshape, headerShape_cut. congruence.
Qed.

Lemma setHeaders_all_good (lines : list string) (h : Header) :
Forall (fun x => x = "" \/ headerShape x) lines ->
exists h', setHeaders w lines h = inr h'.
Proof.
intros H. revert h. induction H as [|x lines Hx _ IH]; intros h.
- exists h. reflexivity.
- rewrite setHeaders_step. destruct (String.eqb_spec x "") as [->|Hne].
  + apply IH.
  + destruct Hx as [->|Hx]; [contradiction|].
    apply headerShape_cut in Hx.
    destruct (cutColonSpace x) as [[a b]|]; [apply IH|contradiction].
Qed.

End HeaderLines.

(** ** Submitting a request *)

Section SubmitProperties.

Variable w : World.

Lemma list_neq_snoc {A} (l : list A) (x : A) : l <> l ++ [x].
Proof.
intros H. apply (f_equal length) in H. rewrite length_app in H.
simpl in H. lia.
Qed.

(** What [sendRequest] leaves behind, case by case. *)
Lemma sendRequest_cases r method urlString headers body st :
let req := mkHttpRequest method urlString headers
             (Header_Get w headers "Host") body in
let st' := sendRequest w r method urlString headers body st in
match http_NewRequest w method urlString with
| Some err =>
    sent st' = sent st /\ app st' = app st
    /\ updates (gui st')
       = updates (gui st) ++ [UFprintBody ("Request error: " +:+ err)]
| None =>
    sent st' = sent st ++ [req]
    /\ match fst (CLIENT_Do w (sent st) req) with
       | inl err =>
           app st' = app st
           /\ updates (gui st')
              = updates (gui st) ++ [UFprintBody ("Response error: " +:+ err)]
       | inr response =>
           (app st' = app st
            /\ exists err,
                updates (gui st')
                = updates (gui st)
                  ++ [UFprintBody ("Cannot uncompress response: " +:+ err)])
           \/ (app st'
               = setHistoryIndex (appendHistory (app st) r)
                   (Z.of_nat (length (history (app st) ++ [r])) - 1)
               /\ updates (gui st')
                  = updates (gui st) ++ [URender r response])
       end
end
/\ views (gui st') = views (gui st).
Proof.
intros req st'. subst st'. unfold sendRequest.
destruct (http_NewRequest w method urlString) as [err|].
{ repeat split. }
fold req. destruct (CLIENT_Do w (sent st) req) as [[err|response] d].
{ repeat split. }
simpl fst. cbv iota.
destruct (String.eqb _ "gzip").
- destruct (respGzipBody response) as [err|bodyRead].
  + split; [split; [reflexivity|]|reflexivity].
    left. split; [reflexivity|]. exists err. reflexivity.
  + split; [split; [reflexivity|]|reflexivity].
    right. split; reflexivity.
- split; [split; [reflexivity|]|reflexivity].
  right. split; reflexivity.
Qed.

(** What the body of the goroutine leaves behind, stage by stage. *)
Lemma submitBody_cases r st :
let g := gui st in
let st' := submitBody w r st in
let reported msg :=
  sent st' = sent st /\ app st' = app st
  /\ views (gui st') = views (gui st)
  /\ updates (gui st') = updates (gui st) ++ [UFprintBody msg] in
match url_Parse w (getViewValue g URL_VIEW) with
| inl err => reported ("URL parse error: " +:+ err)
| inr u =>
    match url_ParseQuery w
            (ReplaceByte (getViewValue g URL_PARAMS_VIEW) NL "&") with
    | inl err => reported ("Invalid GET parameters: " +:+ err)
    | inr q =>
        let method := getViewValue g REQUEST_METHOD_VIEW in
        match setHeaders w (SplitNL (getViewValue g REQUEST_HEADERS_VIEW))
                (Header_Set w ∅ "User-Agent" "") with
        | inl header => reported ("Invalid header: " +:+ header)
        | inr headers =>
            match requestBody w g method headers with
            | BodySilent =>
                sent st' = sent st /\ app st' = app st
                /\ gui st' = gui st
            | BodyReport msg => reported msg
            | BodyOk body =>
                exists st1,
                  gui st1 = gui st /\ app st1 = app st /\ sent st1 = sent st
                  /\ st' = sendRequest w r method
                             (URL_String w u
                                (Values_Encode w (addQuery (URL_Query w u) q)))
                             headers body st1
            end
        end
    end
end.
Proof.
intros g st' reported. subst st' reported. unfold submitBody. fold g.
destruct (url_Parse w (getViewValue g URL_VIEW)) as [err|u].
{ repeat split. }
destruct (url_ParseQuery w _) as [err|q].
{ repeat split. }
cbv zeta.
destruct (setHeaders w _ _) as [header|headers].
{ repeat split. }
destruct (requestBody w g _ headers) as [body|msg|].
- eexists. split; [|split; [|split; [|reflexivity]]];
    destruct (_ || _); reflexivity.
- destruct (_ || _); repeat split.
- destruct (_ || _); repeat split.
Qed.

Lemma submitGoroutine_frame r st :
sent (submitGoroutine w r st) = sent (submitBody w r st)
/\ app (submitGoroutine w r st) = app (submitBody w r st)
/\ updates (gui (submitGoroutine w r st)) = updates (gui (submitBody w r st))
/\ views (gui (submitGoroutine w r st))
   = delete POPUP_VIEW (views (gui (submitBody w r st))).
Proof. repeat split. Qed.

(** The closure that reports an error appends it to the response body. *)
Lemma runUpdate_report st msg text :
bufferOf (gui st) RESPONSE_BODY_VIEW = Some text ->
exists st',
  runUpdate w (UFprintBody msg) st = Some st'
  /\ bufferOf (gui st') RESPONSE_BODY_VIEW = Some (text +:+ msg)
  /\ app st' = app st /\ sent st' = sent st.
Proof.
unfold bufferOf, Gocui.GetView. simpl.
destruct (views (gui st) !! RESPONSE_BODY_VIEW) as [vrb|] eqn:E;
  [|discriminate].
intros [= <-]. unfold Gocui.GetView. rewrite E. simpl.
eexists. split; [reflexivity|].
split; [|split; reflexivity].
unfold bufferOf, Gocui.GetView. simpl. now rewrite lookup_insert_eq.
Qed.

Lemma setView_result g name pos res :
setView g name pos = Some res ->
exists c0 c1 c2 c3, res = Gocui.SetView g name c0 c1 c2 c3.
Proof.
unfold setView. destruct (gSize g) as [maxX maxY]. intros H.
apply bind_Some in H as (c0 & _ & H).
apply bind_Some in H as (c1 & _ & H).
apply bind_Some in H as (c2 & _ & H).
apply bind_Some in H as (c3 & _ & H).
injection H as <-. eauto.
Qed.

Lemma popup_frame g msg g' :
popup g msg = Some g' ->
updates g' = updates g
/\ forall name, name <> POPUP_VIEW -> views g' !! name = views g !! name.
Proof.
unfold popup. intros H. apply bind_Some in H as (res & Hres & H).
apply setView_result in Hres as (c0 & c1 & c2 & c3 & ->).
unfold Gocui.SetView in H.
destruct (_ || _).
{ injection H as <-. auto. }
destruct (Gocui.GetView g POPUP_VIEW) as [v|] eqn:E.
- injection H as <-. split; [reflexivity|].
  intros name Hn. simpl. now rewrite lookup_insert_ne.
- apply bind_Some in H as (v & _ & H). injection H as <-.
  split; [reflexivity|].
  intros name Hn. simpl. now rewrite !lookup_insert_ne.
Qed.

(** [SubmitRequest] before the goroutine: the response body is empty,
    the fields, the queue, the history and the network are as before. *)
Lemma SubmitRequest_frame st0 st r :
SubmitRequest st0 = Some (st, r) ->
app st = app st0 /\ sent st = sent st0
/\ updates (gui st) = updates (gui st0)
/\ bufferOf (gui st) RESPONSE_BODY_VIEW = Some ""
/\ forall name,
    name <> RESPONSE_BODY_VIEW -> name <> RESPONSE_HEADERS_VIEW ->
    name <> POPUP_VIEW ->
    views (gui st) !! name = views (gui st0) !! name.
Proof.
unfold SubmitRequest. intros H.
apply bind_Some in H as (vrb & Eb & H).
apply bind_Some in H as (vrh & Eh & H).
apply bind_Some in H as (g' & Ep & H).
injection H as <- <-. simpl.
apply popup_frame in Ep as [Hu Hv].
split; [reflexivity|]. split; [reflexivity|]. split; [exact Hu|]. split.
- unfold bufferOf, Gocui.GetView. rewrite Hv by discriminate. simpl.
  rewrite lookup_insert_ne by discriminate. now rewrite lookup_insert_eq.
- intros name H1 H2 H3. rewrite Hv by assumption. simpl.
  now rewrite !lookup_insert_ne by congruence.
Qed.

Lemma getViewValue_frame g g' name :
views g' !! name = views g !! name ->
getViewValue g' name = getViewValue g name.
Proof. unfold getViewValue, Gocui.GetView. now intros ->. Qed.

(** C3.  The stages of a submit run in order.  A submit whose URL and
    query parameters have parsed, and whose header text has a non-empty
    line that is not of the shape [Name: Value], stops at the first
    such line [l], every line before it being empty or well shaped: no
    request is handed to [CLIENT.Do], the [App] (history and cursor) is
    unchanged, and the one function queued writes [Invalid header: l]
    into the response body, which the submit had cleared. *)
Theorem invalid_header_aborts (st0 st : State) (r : ptr) (u : URLT w)
  (q : Values) :
SubmitRequest st0 = Some (st, r) ->
url_Parse w (getViewValue (gui st0) URL_VIEW) = inr u ->
url_ParseQuery w (ReplaceByte (getViewValue (gui st0) URL_PARAMS_VIEW) NL "&")
= inr q ->
let lines := SplitNL (getViewValue (gui st0) REQUEST_HEADERS_VIEW) in
(exists l, l ∈ lines /\ l <> "" /\ ~ headerShape l) ->
exists pre l post,
  lines = pre ++ l :: post /\ l <> "" /\ ~ headerShape l
  /\ Forall (fun x => x = "" \/ headerShape x) pre
  /\ let st' := submitGoroutine w r st in
     sent st' = sent st0 /\ app st' = app st0
     /\ updates (gui st')
        = updates (gui st0) ++ [UFprintBody ("Invalid header: " +:+ l)]
     /\ exists st'',
         runUpdate w (UFprintBody ("Invalid header: " +:+ l)) st' = Some st''
         /\ bufferOf (gui st'') RESPONSE_BODY_VIEW
            = Some ("Invalid header: " +:+ l)
         /\ app st'' = app st0 /\ sent st'' = sent st0.
Proof.
intros Hsub Hurl Hq lines Hbad.
destruct (SubmitRequest_frame _ _ _ Hsub) as (Ha & Hs & Hu & Hb & Hv).
destruct (setHeaders_bad_line w lines (Header_Set w ∅ "User-Agent" "") Hbad)
  as [l Hl].
destruct (setHeaders_inl w _ _ _ Hl) as (pre & post & Hlines & Hne & Hsh & Hpre).
exists pre, l, post. repeat (split; [assumption|]).
pose proof (submitBody_cases r st) as Hc. cbv zeta in Hc.
rewrite !(getViewValue_frame (gui st0) (gui st)) in Hc
  by (apply Hv; discriminate).
rewrite Hurl, Hq in Hc. fold lines in Hc. rewrite Hl in Hc.
destruct Hc as (Hc1 & Hc2 & Hc3 & Hc4).
destruct (submitGoroutine_frame r st) as (Hg1 & Hg2 & Hg3 & Hg4).
cbv zeta. rewrite Hg1, Hg2, Hg3, Hc1, Hc2, Hc4, Hs, Ha, Hu.
repeat (split; [reflexivity|]).
destruct (runUpdate_report (submitGoroutine w r st)
            ("Invalid header: " +:+ l) "") as (st'' & H1 & H2 & H3 & H4).
{ unfold bufferOf, Gocui.GetView. rewrite Hg4, Hc3.
  rewrite lookup_delete_ne by discriminate. exact Hb. }
exists st''. split; [exact H1|]. split; [exact H2|].
rewrite H3, H4, Hg1, Hg2, Hc1, Hc2. auto.
Qed.

(** C4.  A submit that hands a request to [CLIENT.Do] and gets an error
    back leaves the [App] (history and cursor) as it was, and the one
    function it queues writes [Response error:] and the error into the
    response body, which the submit had cleared. *)
Theorem transport_error_not_recorded (st0 st : State) (r : ptr)
  (req : HttpRequest) (err : string) :
SubmitRequest st0 = Some (st, r) ->
let st' := submitGoroutine w r st in
sent st' = sent st0 ++ [req] ->
fst (CLIENT_Do w (sent st0) req) = inl err ->
app st' = app st0
/\ history (app st') = history (app st0)
/\ historyIndex (app st') = historyIndex (app st0)
/\ updates (gui st')
   = updates (gui st0) ++ [UFprintBody ("Response error: " +:+ err)]
/\ exists st'',
    runUpdate w (UFprintBody ("Response error: " +:+ err)) st' = Some st''
    /\ bufferOf (gui st'') RESPONSE_BODY_VIEW
       = Some ("Response error: " +:+ err)
    /\ app st'' = app st0.
Proof.
intros Hsub st' Hsent Hdo. subst st'.
destruct (SubmitRequest_frame _ _ _ Hsub) as (Ha & Hs & Hu & Hb & Hv).
destruct (submitGoroutine_frame r st) as (Hg1 & Hg2 & Hg3 & Hg4).
rewrite Hg1 in Hsent.
assert (Hmain :
  app (submitBody w r st) = app st0
  /\ updates (gui (submitBody w r st))
     = updates (gui st0) ++ [UFprintBody ("Response error: " +:+ err)]
  /\ views (gui (submitBody w r st)) = views (gui st)).
{ pose proof (submitBody_cases r st) as Hc. cbv zeta in Hc.
  destruct (url_Parse w _) as [e|u].
  { destruct Hc as [Hc _]. rewrite Hc, Hs in Hsent.
    destruct (list_neq_snoc _ _ Hsent). }
  destruct (url_ParseQuery w _) as [e|q].
  { destruct Hc as [Hc _]. rewrite Hc, Hs in Hsent.
    destruct (list_neq_snoc _ _ Hsent). }
  destruct (setHeaders w _ _) as [e|headers].
  { destruct Hc as [Hc _]. rewrite Hc, Hs in Hsent.
    destruct (list_neq_snoc _ _ Hsent). }
  destruct (requestBody w _ _ _) as [body|msg|].
  - destruct Hc as (st1 & G1 & A1 & S1 & Hc). rewrite Hc in *.
    pose proof (sendRequest_cases r
                  (getViewValue (gui st) REQUEST_METHOD_VIEW)
                  (URL_String w u
                     (Values_Encode w (addQuery (URL_Query w u) q)))
                  headers body st1) as Hsend.
    cbv zeta in Hsend. destruct Hsend as [Hsend Hviews].
    destruct (http_NewRequest w _ _) as [e|].
    { destruct Hsend as [Hc' _]. rewrite Hc', S1, Hs in Hsent.
      destruct (list_neq_snoc _ _ Hsent). }
    destruct Hsend as [Hc' Hres]. rewrite Hc', S1, Hs in Hsent.
    apply app_inj_tail in Hsent as [_ Hreq]. rewrite Hreq, S1, Hs in Hres.
    rewrite Hdo in Hres. destruct Hres as [Happ Hupd].
    rewrite Happ, Hupd, A1, G1, Ha, Hu, Hviews, G1. auto.
  - destruct Hc as [Hc _]. rewrite Hc, Hs in Hsent.
    destruct (list_neq_snoc _ _ Hsent).
  - destruct Hc as [Hc _]. rewrite Hc, Hs in Hsent.
    destruct (list_neq_snoc _ _ Hsent). }
destruct Hmain as (Happ & Hupd & Hviews).
rewrite Hg2, Hg3, Happ, Hupd.
repeat (split; [reflexivity|]).
destruct (runUpdate_report (submitGoroutine w r st)
            ("Response error: " +:+ err) "") as (st'' & H1 & H2 & H3 & H4).
{ unfold bufferOf, Gocui.GetView. rewrite Hg4, Hviews.
  rewrite lookup_delete_ne by discriminate. exact Hb. }
exists st''. split; [exact H1|]. split; [exact H2|].
now rewrite H3, Hg2.
Qed.

(** The request that a submit hands to [CLIENT.Do], if it hands one. *)
Lemma submitBody_sent r st req :
sent (submitBody w r st) = sent st ++ [req] ->
exists headers,
  reqMethod req = getViewValue (gui st) REQUEST_METHOD_VIEW
  /\ reqHeader req = headers
  /\ requestBody w (gui st) (reqMethod req) headers = BodyOk (reqBody req).
Proof.
intros Hsent.
pose proof (submitBody_cases r st) as Hc. cbv zeta in Hc.
destruct (url_Parse w _) as [e|u].
{ destruct Hc as [Hc _]. rewrite Hc in Hsent.
  destruct (list_neq_snoc _ _ Hsent). }
destruct (url_ParseQuery w _) as [e|q].
{ destruct Hc as [Hc _]. rewrite Hc in Hsent.
  destruct (list_neq_snoc _ _ Hsent). }
destruct (setHeaders w _ _) as [e|headers].
{ destruct Hc as [Hc _]. rewrite Hc in Hsent.
  destruct (list_neq_snoc _ _ Hsent). }
destruct (requestBody w _ _ _) as [body|msg|] eqn:Ebody.
- destruct Hc as (st1 & G1 & A1 & S1 & Hc). rewrite Hc in *.
  pose proof (sendRequest_cases r
                (getViewValue (gui st) REQUEST_METHOD_VIEW)
                (URL_String w u
                   (Values_Encode w (addQuery (URL_Query w u) q)))
                headers body st1) as Hsend.
  cbv zeta in Hsend. destruct Hsend as [Hsend _].
  destruct (http_NewRequest w _ _) as [e|].
  { destruct Hsend as [Hc' _]. rewrite Hc', S1 in Hsent.
    destruct (list_neq_snoc _ _ Hsent). }
  destruct Hsend as [Hc' _]. rewrite Hc', S1 in Hsent.
  apply app_inj_tail in Hsent as [_ <-]. simpl.
  exists headers. auto.
- destruct Hc as [Hc _]. rewrite Hc in Hsent.
  destruct (list_neq_snoc _ _ Hsent).
- destruct Hc as [Hc _]. rewrite Hc in Hsent.
  destruct (list_neq_snoc _ _ Hsent).
Qed.

(** C5.  A submit with method POST, PUT or PATCH that hands a request
    to [CLIENT.Do]: when the [Content-Type] of the request headers is
    [application/x-www-form-urlencoded], the body handed over is the
    text of the data field with every newline byte replaced by [&] and
    every other byte kept; for any other [Content-Type] but
    [multipart/form-data], it is the text of the data field itself. *)
Theorem form_urlencoded_body (st0 st : State) (r : ptr) (req : HttpRequest) :
SubmitRequest st0 = Some (st, r) ->
sent (submitGoroutine w r st) = sent st0 ++ [req] ->
reqMethod req = "POST" \/ reqMethod req = "PUT" \/ reqMethod req = "PATCH" ->
let bodyText := getViewValue (gui st0) REQUEST_DATA_VIEW in
let contentType := Header_Get w (reqHeader req) "Content-Type" in
(contentType = "application/x-www-form-urlencoded" ->
 exists body,
   reqBody req = Some body
   /\ body = ReplaceByte bodyText NL "&"
   /\ String.length body = String.length bodyText
   /\ forall i,
       String.get i body
       = (fun c => if Ascii.eqb c NL then "&"%char else c)
           <$> String.get i bodyText)
/\ (contentType <> "application/x-www-form-urlencoded" ->
    contentType <> "multipart/form-data" ->
    reqBody req = Some bodyText).
Proof.
intros Hsub Hsent Hmethod bodyText contentType.
destruct (SubmitRequest_frame _ _ _ Hsub) as (Ha & Hs & Hu & Hb & Hv).
destruct (submitGoroutine_frame r st) as (Hg1 & _).
rewrite Hg1, <- Hs in Hsent.
destruct (submitBody_sent r st req Hsent) as (headers & Hm & Hh & Hbody).
subst headers. unfold requestBody in Hbody.
rewrite (getViewValue_frame (gui st0) (gui st)) in Hbody
  by (apply Hv; discriminate).
fold bodyText contentType in Hbody.
assert (Hpost : String.eqb (reqMethod req) "POST"
                || String.eqb (reqMethod req) "PUT"
                || String.eqb (reqMethod req) "PATCH" = true).
{ destruct Hmethod as [H|[H|H]]; rewrite H; reflexivity. }
rewrite Hpost in Hbody. split.
- intros Hct. rewrite Hct in Hbody. simpl in Hbody.
  injection Hbody as Hbody. eexists. split; [symmetry; exact Hbody|].
  split; [reflexivity|]. split.
  + apply ReplaceByte_length.
  + intros i. apply ReplaceByte_get.
- intros Hne1 Hne2.
  apply String.eqb_neq in Hne1, Hne2. rewrite Hne1, Hne2 in Hbody.
  simpl in Hbody. now injection Hbody as <-.
Qed.

End SubmitProperties.

(** ** Saving, loading and recalling a request *)

(** Membership in a list that is written out. *)
Ltac in_list :=
  repeat first [apply list_elem_of_here | apply list_elem_of_further].

Lemma vBuffer_setViewTextAndCursor (v : View) (s : string) :
vBuffer (setViewTextAndCursor v s) = s.
Proof.
unfold setViewTextAndCursor, Gocui.SetCursor.
destruct (Gocui.Size _) as [maxX maxY].
destruct (_ || _); reflexivity.
Qed.

(** Writing the text of one view leaves the other views, the queue and
    the set of views as they are. *)
Lemma setViewTextAndCursorAt_spec (g : Gui) (name s : string) :
is_Some (views g !! name) ->
exists g',
  setViewTextAndCursorAt g name s = Some g'
  /\ bufferOf g' name = Some s
  /\ (forall n, n <> name -> views g' !! n = views g !! n)
  /\ (forall n, is_Some (views g !! n) -> is_Some (views g' !! n))
  /\ updates g' = updates g.
Proof.
intros [v Hv]. unfold setViewTextAndCursorAt, Gocui.GetView. rewrite Hv.
simpl. eexists. split; [reflexivity|]. split; [|split; [|split]].
- unfold bufferOf, Gocui.GetView. simpl. rewrite lookup_insert_eq. simpl.
  now rewrite vBuffer_setViewTextAndCursor.
- intros n Hn. simpl. now rewrite lookup_insert_ne.
- intros n Hn. simpl. destruct (decide (name = n)) as [->|Hne].
  + rewrite lookup_insert_eq. eauto.
  + now rewrite lookup_insert_ne.
- reflexivity.
Qed.

Lemma closePopup_spec (g : Gui) (a : App) (viewname : string) :
0 <= viewIndex a ->
exists g' a',
  closePopup g a viewname = Some (g', a')
  /\ history a' = history a /\ historyIndex a' = historyIndex a
  /\ viewIndex a' = viewIndex a /\ config a' = config a
  /\ updates g' = updates g
  /\ forall n, n <> viewname -> views g' !! n = views g !! n.
Proof.
intros Hvi. unfold closePopup.
destruct (Gocui.GetView g viewname) as [v|]; [|eauto 10].
destruct (Z.ltb_spec (viewIndex a) 0) as [?|_]; [lia|].
destruct (lookup_lt_is_Some_2 VIEWS
            (Z.to_nat (Z.rem (viewIndex a) (Z.of_nat (length VIEWS)))))
  as [name Hname].
{ pose proof (Z.rem_bound_pos (viewIndex a) (Z.of_nat (length VIEWS)) Hvi).
  simpl length in *. lia. }
rewrite Hname. simpl. eexists _, _. split; [reflexivity|].
repeat (split; [reflexivity|]). unfold Gocui.SetCurrentView.
destruct (Gocui.GetView _ name); (split; [reflexivity|]);
  intros n Hn; simpl; now rewrite lookup_delete_ne.
Qed.

Lemma closePopup_inv (g g' : Gui) (a a' : App) (viewname : string) :
closePopup g a viewname = Some (g', a') ->
history a' = history a /\ historyIndex a' = historyIndex a.
Proof.
unfold closePopup. destruct (Gocui.GetView g viewname) as [v|].
- destruct (viewIndex a <? 0); [discriminate|].
  intros H. apply bind_Some in H as (name & _ & H).
  injection H as <- <-. auto.
- intros [= <- <-]. auto.
Qed.

Lemma bufferOf_frame (g g' : Gui) (name : string) :
views g' !! name = views g !! name -> bufferOf g' name = bufferOf g name.
Proof. unfold bufferOf, Gocui.GetView. now intros ->. Qed.

Section LoadProperties.

Variable w : World.

(** C6.  When [encoding/json] gives back the map it was given, the file
    read is the one [exportJSON] wrote and the five field views exist,
    [LoadRequest] leaves the URL, the method, the query and the header
    text of the request in their views, and queues the function that,
    when the main loop runs it, puts the body in the data view and keeps
    the other four. *)
Theorem export_load_roundtrip (r : Request) (g : Gui)
  (loadLocation json : string) :
json_Marshal w (requestMapOf r) = inr json ->
json_Unmarshal w json = inr (requestMapOf r) ->
os_ReadFile w loadLocation = inr (exportJSON w r) ->
(forall name,
   name ∈ [URL_VIEW; REQUEST_METHOD_VIEW; URL_PARAMS_VIEW;
           REQUEST_DATA_VIEW; REQUEST_HEADERS_VIEW] ->
   is_Some (views g !! name)) ->
exists g',
  LoadRequest w g loadLocation = Some g'
  /\ bufferOf g' URL_VIEW = Some (Url r)
  /\ bufferOf g' REQUEST_METHOD_VIEW = Some (Method r)
  /\ bufferOf g' URL_PARAMS_VIEW = Some (GetParams r)
  /\ bufferOf g' REQUEST_HEADERS_VIEW = Some (Headers r)
  /\ updates g' = updates g ++ [USetData (Data r)]
  /\ forall st, gui st = g' ->
      exists st',
        runUpdate w (USetData (Data r)) st = Some st'
        /\ bufferOf (gui st') URL_VIEW = Some (Url r)
        /\ bufferOf (gui st') REQUEST_METHOD_VIEW = Some (Method r)
        /\ bufferOf (gui st') URL_PARAMS_VIEW = Some (GetParams r)
        /\ bufferOf (gui st') REQUEST_DATA_VIEW = Some (Data r)
        /\ bufferOf (gui st') REQUEST_HEADERS_VIEW = Some (Headers r).
Proof.
intros Hmarshal Hunmarshal Hread Hviews.
unfold LoadRequest. rewrite Hread. unfold exportJSON. rewrite Hmarshal.
rewrite Hunmarshal. unfold loadField.
change (requestMapOf r !! URL_VIEW) with (Some (Url r)).
change (requestMapOf r !! REQUEST_METHOD_VIEW) with (Some (Method r)).
change (requestMapOf r !! URL_PARAMS_VIEW) with (Some (GetParams r)).
change (requestMapOf r !! REQUEST_DATA_VIEW) with (Some (Data r)).
change (requestMapOf r !! REQUEST_HEADERS_VIEW) with (Some (Headers r)).
destruct (setViewTextAndCursorAt_spec g URL_VIEW (Url r))
  as (g1 & E1 & B1 & F1 & D1 & U1).
{ apply Hviews. in_list. }
destruct (setViewTextAndCursorAt_spec g1 REQUEST_METHOD_VIEW (Method r))
  as (g2 & E2 & B2 & F2 & D2 & U2).
{ apply D1, Hviews. in_list. }
destruct (setViewTextAndCursorAt_spec g2 URL_PARAMS_VIEW (GetParams r))
  as (g3 & E3 & B3 & F3 & D3 & U3).
{ apply D2, D1, Hviews. in_list. }
destruct (setViewTextAndCursorAt_spec
            (Gocui.Update_ g3 (USetData (Data r)))
            REQUEST_HEADERS_VIEW (Headers r))
  as (g4 & E4 & B4 & F4 & D4 & U4).
{ apply D3, D2, D1, Hviews. in_list. }
rewrite E1. simpl. rewrite E2. simpl. rewrite E3. simpl. rewrite E4.
assert (H1 : bufferOf g4 URL_VIEW = Some (Url r)).
{ rewrite <- B1. etransitivity; [apply bufferOf_frame, F4; discriminate|].
  etransitivity; [apply (bufferOf_frame g2), F3; discriminate|].
  apply bufferOf_frame, F2; discriminate. }
assert (H2 : bufferOf g4 REQUEST_METHOD_VIEW = Some (Method r)).
{ rewrite <- B2. etransitivity; [apply bufferOf_frame, F4; discriminate|].
  apply (bufferOf_frame g2), F3; discriminate. }
assert (H3 : bufferOf g4 URL_PARAMS_VIEW = Some (GetParams r)).
{ rewrite <- B3. apply bufferOf_frame, F4; discriminate. }
exists g4. repeat (split; [first [reflexivity|assumption]|]).
split.
{ rewrite U4. simpl. now rewrite U3, U2, U1. }
intros st Hst. unfold runUpdate. rewrite Hst.
destruct (D4 REQUEST_DATA_VIEW) as [v Hv].
{ simpl. apply D3, D2, D1, Hviews. in_list. }
unfold Gocui.GetView at 1. rewrite Hv. simpl.
eexists. split; [reflexivity|]. simpl.
unfold bufferOf, Gocui.GetView in *. simpl.
repeat apply conj;
  first [ rewrite lookup_insert_ne by discriminate; assumption
        | rewrite lookup_insert_eq; reflexivity ].
Qed.

End LoadProperties.

Section RecallProperties.

Variable w : World.

(** No function of the queue touches the [App] or the network. *)
Lemma runUpdate_frame (u : Update) (st st' : State) :
runUpdate w u st = Some st' -> app st' = app st /\ sent st' = sent st.
Proof.
destruct u as [msg|msg|data| |r response]; simpl; intros H.
- apply bind_Some in H as (v & _ & H). injection H as <-. auto.
- apply bind_Some in H as (v & _ & H). injection H as <-. auto.
- apply bind_Some in H as (v & _ & H). injection H as <-. auto.
- unfold runPrintBody in H.
  destruct (length (history (app st)) =? 0)%nat; [injection H as <-; auto|].
  apply bind_Some in H as (p & _ & H).
  apply bind_Some in H as (req & _ & H).
  destruct (RawResponseBody req) as [raw|]; [|injection H as <-; auto].
  apply bind_Some in H as (vrb & _ & H).
  apply bind_Some in H as (f & _ & H).
  destruct (_ || _).
  + destruct (Format f raw) as [out [e|]].
    * injection H as <-. auto.
    * destruct (_ || _); injection H as <-; auto.
  + destruct (Search _ _ _) as [e|results]; [injection H as <-; auto|].
    destruct (length results =? 0)%nat; injection H as <-; auto.
- unfold runRender in H. apply bind_Some in H as (v & _ & H).
  injection H as <-. auto.
Qed.

(** C8.  [restoreRequest] with an index out of range changes nothing.
    With an index in range (the six field views existing), it puts the
    URL, method, query, body, headers and response headers of the stored
    entry in their views, makes the index the history cursor, leaves the
    history, the stored requests and the network as they are, and queues
    the rendering of [PrintBody]; that rendering, when the main loop
    runs it, makes no exchange either, and with an empty search field
    it writes what the stored formatter makes of the stored raw body. *)
Theorem restoreRequest_spec (st : State) (idx : Z) :
(idx < 0 \/ Z.of_nat (length (history (app st))) <= idx ->
 restoreRequest st idx = Some st)
/\ (0 <= idx < Z.of_nat (length (history (app st))) ->
    0 <= viewIndex (app st) ->
    (forall name,
       name ∈ [URL_VIEW; REQUEST_METHOD_VIEW; URL_PARAMS_VIEW;
               REQUEST_DATA_VIEW; REQUEST_HEADERS_VIEW;
               RESPONSE_HEADERS_VIEW] ->
       is_Some (views (gui st) !! name)) ->
    forall p r,
      history (app st) !! Z.to_nat idx = Some p ->
      requests st !! p = Some r ->
      exists st',
        restoreRequest st idx = Some st'
        /\ bufferOf (gui st') URL_VIEW = Some (Url r)
        /\ bufferOf (gui st') REQUEST_METHOD_VIEW = Some (Method r)
        /\ bufferOf (gui st') URL_PARAMS_VIEW = Some (GetParams r)
        /\ bufferOf (gui st') REQUEST_DATA_VIEW = Some (Data r)
        /\ bufferOf (gui st') REQUEST_HEADERS_VIEW = Some (Headers r)
        /\ bufferOf (gui st') RESPONSE_HEADERS_VIEW
           = Some (ResponseHeaders r)
        /\ historyIndex (app st') = idx
        /\ history (app st') = history (app st)
        /\ requests st' = requests st
        /\ sent st' = sent st
        /\ updates (gui st') = updates (gui st) ++ [UPrintBody]
        /\ (forall st'', runUpdate w UPrintBody st' = Some st'' ->
            sent st'' = sent st /\ app st'' = app st')
        /\ (forall raw f out vrb,
              RawResponseBody r = Some raw -> Formatter r = Some f ->
              Format f raw = (out, None) ->
              getViewValue (gui st) SEARCH_VIEW = "" ->
              views (gui st) !! RESPONSE_BODY_VIEW = Some vrb ->
              exists st'',
                runUpdate w UPrintBody st' = Some st''
                /\ bufferOf (gui st'') RESPONSE_BODY_VIEW = Some out)).
Proof.
split.
- intros H. unfold restoreRequest.
  replace ((idx <? 0) || (Z.of_nat (length (history (app st))) <=? idx))
    with true; [reflexivity|].
  symmetry. apply orb_true_iff. destruct H; [left|right]; lia.
- intros Hidx Hvi Hviews p r Hp Hr. unfold restoreRequest.
  replace ((idx <? 0) || (Z.of_nat (length (history (app st))) <=? idx))
    with false by (symmetry; apply orb_false_iff; split; lia).
  destruct (closePopup_spec (gui st) (app st) HISTORY_VIEW Hvi)
    as (g0 & a0 & Ec & Hh & Hi & Hv & Hcfg & Hu & Hf).
  rewrite Ec. simpl.
  assert (Hat : historyAt (setHistoryIndex a0 idx) idx = Some p).
  { unfold historyAt. simpl. rewrite Hh.
    destruct (Z.ltb_spec idx 0); [lia | exact Hp]. }
  rewrite Hat. simpl. rewrite Hr. simpl.
  assert (Hviews0 : forall name,
            name ∈ [URL_VIEW; REQUEST_METHOD_VIEW; URL_PARAMS_VIEW;
                    REQUEST_DATA_VIEW; REQUEST_HEADERS_VIEW;
                    RESPONSE_HEADERS_VIEW] ->
            is_Some (views g0 !! name)).
  { intros name Hn. rewrite Hf; [now apply Hviews|].
    intros ->. apply list_elem_of_In in Hn. simpl in Hn.
    intuition discriminate. }
  destruct (setViewTextAndCursorAt_spec g0 URL_VIEW (Url r))
    as (g1 & E1 & B1 & F1 & D1 & U1).
  { apply Hviews0. in_list. }
  destruct (setViewTextAndCursorAt_spec g1 REQUEST_METHOD_VIEW (Method r))
    as (g2 & E2 & B2 & F2 & D2 & U2).
  { apply D1, Hviews0. in_list. }
  destruct (setViewTextAndCursorAt_spec g2 URL_PARAMS_VIEW (GetParams r))
    as (g3 & E3 & B3 & F3 & D3 & U3).
  { apply D2, D1, Hviews0. in_list. }
  destruct (setViewTextAndCursorAt_spec g3 REQUEST_DATA_VIEW (Data r))
    as (g4 & E4 & B4 & F4 & D4 & U4).
  { apply D3, D2, D1, Hviews0. in_list. }
  destruct (setViewTextAndCursorAt_spec g4 REQUEST_HEADERS_VIEW (Headers r))
    as (g5 & E5 & B5 & F5 & D5 & U5).
  { apply D4, D3, D2, D1, Hviews0. in_list. }
  destruct (setViewTextAndCursorAt_spec g5 RESPONSE_HEADERS_VIEW
              (ResponseHeaders r))
    as (g6 & E6 & B6 & F6 & D6 & U6).
  { apply D5, D4, D3, D2, D1, Hviews0. in_list. }
  rewrite E1. simpl. rewrite E2. simpl. rewrite E3. simpl.
  rewrite E4. simpl. rewrite E5. simpl. rewrite E6. simpl.
  eexists. split; [reflexivity|]. simpl.
  unfold bufferOf, Gocui.GetView in *. simpl.
  split. { rewrite F6, F5, F4, F3, F2 by discriminate. exact B1. }
  split. { rewrite F6, F5, F4, F3 by discriminate. exact B2. }
  split. { rewrite F6, F5, F4 by discriminate. exact B3. }
  split. { rewrite F6, F5 by discriminate. exact B4. }
  split. { rewrite F6 by discriminate. exact B5. }
  split. { exact B6. }
  split. { reflexivity. }
  split. { exact Hh. }
  split. { reflexivity. }
  split. { reflexivity. }
  split. { now rewrite U6, U5, U4, U3, U2, U1, Hu. }
  split.
  { intros st'' H. apply (runUpdate_frame UPrintBody) in H as [H1 H2]. auto. }
  intros raw f out vrb Hraw Hfmt Hout Hsearch Hvrb.
  unfold runPrintBody. simpl. rewrite Hh.
  destruct (length (history (app st)) =? 0)%nat eqn:El.
  { apply Nat.eqb_eq in El. lia. }
  rewrite Hat. simpl. rewrite Hr. simpl. rewrite Hraw.
  assert (Hvrb6 : views g6 !! RESPONSE_BODY_VIEW = Some vrb).
  { rewrite F6, F5, F4, F3, F2, F1, Hf by discriminate. exact Hvrb. }
  unfold Gocui.GetView. simpl. rewrite Hvrb6. simpl. rewrite Hfmt. simpl.
  assert (Hs6 : getViewValue (PrintBody g6) "search" = "").
  { etransitivity; [|exact Hsearch]. apply getViewValue_frame. simpl.
    rewrite F6, F5, F4, F3, F2, F1, Hf by discriminate. reflexivity. }
  rewrite Hs6. simpl. rewrite Hout.
  destruct (_ || _); eexists; (split; [reflexivity|]); simpl;
    rewrite lookup_insert_eq; simpl.
  + unfold Gocui.SetOrigin. simpl. reflexivity.
  + reflexivity.
Qed.

End RecallProperties.

(** ** The history store *)

Section HistoryProperties.

Variable w : World.

Lemma historyStep_refl (a a' : App) :
history a' = history a -> historyIndex a' = historyIndex a ->
historyStep a a'.
Proof. intros H1 H2. split; [now rewrite H1 | now left]. Qed.

Lemma historyStep_inv (a a' : App) :
historyInv a -> historyStep a a' -> historyInv a'.
Proof.
intros [H0 H1] [[k Hk] Hi]. unfold historyInv. rewrite Hk in *.
rewrite length_app in *.
destruct Hi as [Hi|Hi].
- rewrite Hi. destruct (history a) as [|x l].
  + split; [intros _; auto|]. intros Hne. rewrite H0 by reflexivity.
    destruct k; [contradiction|]. simpl. lia.
  + split; [discriminate|]. intros _.
    assert (Hx : x :: l <> []) by discriminate.
    specialize (H1 Hx). simpl in *. lia.
- split; [|auto]. intros E. apply (f_equal length) in E.
  rewrite length_app in E. simpl in E. lia.
Qed.

Lemma submitGoroutine_history (r : ptr) (st : State) :
historyStep (app st) (app (submitGoroutine w r st)).
Proof.
destruct (submitGoroutine_frame w r st) as (_ & -> & _).
assert (Hsend : forall method urlString headers body st1,
          app st1 = app st ->
          historyStep (app st)
            (app (sendRequest w r method urlString headers body st1))).
{ intros method urlString headers body st1 A1.
  pose proof (sendRequest_cases w r method urlString headers body st1)
    as [Hc _]. cbv zeta in Hc.
  destruct (http_NewRequest w _ _) as [e|].
  { destruct Hc as (_ & Hc & _). apply historyStep_refl; congruence. }
  destruct Hc as [_ Hc].
  destruct (fst (CLIENT_Do w _ _)) as [e|response].
  { destruct Hc as [Hc _]. apply historyStep_refl; congruence. }
  destruct Hc as [[Hc _]|[Hc _]].
  { apply historyStep_refl; congruence. }
  rewrite Hc, A1. split; simpl.
  - now exists [r].
  - right. rewrite !length_app. simpl. lia. }
pose proof (submitBody_cases w r st) as Hc. cbv zeta in Hc.
destruct (url_Parse w _) as [e|u].
{ destruct Hc as (_ & Hc & _). apply historyStep_refl; congruence. }
destruct (url_ParseQuery w _) as [e|q].
{ destruct Hc as (_ & Hc & _). apply historyStep_refl; congruence. }
destruct (setHeaders w _ _) as [e|headers].
{ destruct Hc as (_ & Hc & _). apply historyStep_refl; congruence. }
destruct (requestBody w _ _ _) as [body|msg|].
- destruct Hc as (st1 & _ & A1 & _ & ->). apply Hsend, A1.
- destruct Hc as (_ & Hc & _). apply historyStep_refl; congruence.
- destruct Hc as (_ & Hc & _). apply historyStep_refl; congruence.
Qed.

Lemma restoreRequest_history (st st' : State) (idx : Z) :
restoreRequest st idx = Some st' -> historyStep (app st) (app st').
Proof.
unfold restoreRequest.
destruct ((idx <? 0) || (Z.of_nat (length (history (app st))) <=? idx))
  eqn:E.
{ intros [= <-]. now apply historyStep_refl. }
apply orb_false_iff in E as [E1 E2].
intros H. apply bind_Some in H as ([g a] & Hc & H).
apply closePopup_inv in Hc as [Hh Hi].
apply bind_Some in H as (p & _ & H).
apply bind_Some in H as (r & _ & H).
apply bind_Some in H as (g1 & _ & H).
apply bind_Some in H as (g2 & _ & H).
apply bind_Some in H as (g3 & _ & H).
apply bind_Some in H as (g4 & _ & H).
apply bind_Some in H as (g5 & _ & H).
apply bind_Some in H as (g6 & _ & H).
injection H as <-. simpl. split; simpl.
- now rewrite Hh.
- right. rewrite Hh. lia.
Qed.

Lemma step_history (st st' : State) :
step w st st' -> historyStep (app st) (app st').
Proof.
intros H. destruct H as [st st1 r Hs|st r|st Hne|st u us st' Hq Hu
                        |st idx st' Hr|st loc g' Hl].
- destruct (SubmitRequest_frame _ _ _ Hs) as (<- & _).
  apply submitGoroutine_history.
- split; simpl; [now exists [r] | now left].
- split; simpl; [reflexivity|]. right.
  destruct (history (app st)); [contradiction|]. simpl. lia.
- apply runUpdate_frame in Hu as [Hu _]. now apply historyStep_refl; rewrite Hu.
- eapply restoreRequest_history, Hr.
- now apply historyStep_refl.
Qed.

(** C10.  In every state the program reaches from its start, the
    cursor of the history is valid: 0 when the history is empty, within
    the history otherwise, so that the lookup of [PrintBody] is in
    bounds.  Every transition from such a state (a submit as a whole or
    its lines 288 and 289 one at a time, a function of the queue, a
    recall, a load) only extends the history, entries already there
    keeping their place, and keeps the cursor valid. *)
Theorem history_invariant (st : State) :
reachable w st ->
historyInv (app st)
/\ (history (app st) <> [] ->
    is_Some (historyAt (app st) (historyIndex (app st))))
/\ forall st',
    step w st st' ->
    history (app st) `prefix_of` history (app st')
    /\ historyInv (app st').
Proof.
intros Hreach.
assert (Hinv : historyInv (app st)).
{ induction Hreach as [g c|st st' _ IH Hstep].
  - split; [reflexivity|]. intros H. now destruct H.
  - eapply historyStep_inv; [exact IH | apply step_history, Hstep]. }
split; [exact Hinv|]. split.
- intros Hne. destruct Hinv as [_ Hi]. specialize (Hi Hne).
  unfold historyAt. destruct (Z.ltb_spec (historyIndex (app st)) 0); [lia|].
  apply lookup_lt_is_Some_2. lia.
- intros st' Hstep. pose proof (step_history _ _ Hstep) as Hs.
  split; [apply Hs | eapply historyStep_inv; eassumption].
Qed.

End HistoryProperties.

(** ** The properties at the inputs of the specification's scenarios *)

(** The header line [BadHeaderNoColon]: nothing is sent, the history
    stays empty, the response body shows the message. *)
Lemma invalid_header_aborts_witness :
  let st0 := exampleState "http://example.com/" "GET" "" ""
               "BadHeaderNoColon" in
  let st' := submitGoroutine exampleWorld (snd (submitted st0))
               (fst (submitted st0)) in
  sent st' = [] /\ history (app st') = []
  /\ exists st'',
      runUpdate exampleWorld
        (UFprintBody "Invalid header: BadHeaderNoColon") st' = Some st''
      /\ bufferOf (gui st'') RESPONSE_BODY_VIEW
         = Some "Invalid header: BadHeaderNoColon".
Proof.
  intros st0 st'.
  destruct (invalid_header_aborts exampleWorld st0 (fst (submitted st0))
              (snd (submitted st0)) "http://example.com/" ∅)
    as (pre & l & post & Hlines & _ & _ & _ & Hsent & Happ & _ & Hrun).
  - vm_compute. reflexivity.
  - reflexivity.
  - reflexivity.
  - exists "BadHeaderNoColon". split; [|split].
    + apply list_elem_of_In. vm_compute. left. reflexivity.
    + discriminate.
    + intros Hs. apply headerShape_cut in Hs. apply Hs. reflexivity.
  - assert (E : SplitNL (getViewValue (gui st0) REQUEST_HEADERS_VIEW)
                = ["BadHeaderNoColon"]) by (vm_compute; reflexivity).
    rewrite E in Hlines.
    assert (El : l = "BadHeaderNoColon").
    { clear - Hlines. destruct pre as [|x pre]; [now injection Hlines|].
      injection Hlines as _ Hlines. destruct pre; discriminate Hlines. }
    subst l. fold st' in Hsent, Happ, Hrun.
    split; [exact Hsent|]. split; [now rewrite Happ|].
    destruct Hrun as (st'' & H1 & H2 & _). exists st''. auto.
Defined.

(** A host that does not resolve: the history stays empty and the
    response body shows the error. *)
Lemma transport_error_not_recorded_witness :
  let st0 := exampleState "http://unreachable.invalid/" "GET" "" "" "" in
  let st' := submitGoroutine exampleWorld (snd (submitted st0))
               (fst (submitted st0)) in
  history (app st') = [] /\ historyIndex (app st') = 0
  /\ exists st'',
      runUpdate exampleWorld
        (UFprintBody
           "Response error: dial tcp: lookup unreachable.invalid: no such host")
        st' = Some st''
      /\ bufferOf (gui st'') RESPONSE_BODY_VIEW
         = Some "Response error: dial tcp: lookup unreachable.invalid: no such host".
Proof.
  intros st0 st'.
  destruct (transport_error_not_recorded exampleWorld st0
              (fst (submitted st0)) (snd (submitted st0))
              (mkHttpRequest "GET" "http://unreachable.invalid/"
                 (Header_Set exampleWorld ∅ "User-Agent" "") "" None)
              "dial tcp: lookup unreachable.invalid: no such host")
    as (_ & Hh & Hi & _ & st'' & H1 & H2 & _).
  - vm_compute. reflexivity.
  - vm_compute. reflexivity.
  - reflexivity.
  - fold st' in Hh, Hi, H1. split; [exact Hh|]. split; [exact Hi|].
    exists st''. auto.
Defined.

(** The scenario of the specification: the body [a=1], newline, [b=2]
    is transmitted as [a=1&b=2]. *)
Lemma form_urlencoded_body_witness :
  let st0 := exampleState "http://example.com/" "POST" ""
               ("a=1" +:+ String NL "b=2")
               "Content-Type: application/x-www-form-urlencoded" in
  exists req,
    sent (submitGoroutine exampleWorld (snd (submitted st0))
            (fst (submitted st0))) = [req]
    /\ reqBody req = Some "a=1&b=2".
Proof.
  intros st0.
  set (req := mkHttpRequest "POST" "http://example.com/"
                (Header_Set exampleWorld
                   (Header_Set exampleWorld ∅ "User-Agent" "")
                   "Content-Type" "application/x-www-form-urlencoded")
                "" (Some "a=1&b=2")).
  exists req.
  assert (Hsent : sent (submitGoroutine exampleWorld (snd (submitted st0))
                          (fst (submitted st0))) = sent st0 ++ [req])
    by (vm_compute; reflexivity).
  split; [exact Hsent|].
  destruct (form_urlencoded_body exampleWorld st0 (fst (submitted st0))
              (snd (submitted st0)) req) as [H _].
  - vm_compute. reflexivity.
  - exact Hsent.
  - left. reflexivity.
  - destruct H as (body & Hb & Hr & _); [reflexivity|].
    rewrite Hb, Hr. reflexivity.
Defined.

(** The saved request is loaded into empty fields. *)
Lemma export_load_roundtrip_witness :
  exists g',
    LoadRequest exampleWorld (exampleGui "" "GET" "" "" "") "request.json"
    = Some g'
    /\ bufferOf g' URL_VIEW = Some "http://example.com/"
    /\ bufferOf g' REQUEST_METHOD_VIEW = Some "POST"
    /\ bufferOf g' URL_PARAMS_VIEW = Some "a=1"
    /\ bufferOf g' REQUEST_HEADERS_VIEW = Some "Accept: text/plain"
    /\ updates g' = [USetData "x=y"].
Proof.
  destruct (export_load_roundtrip exampleWorld exampleRequest
              (exampleGui "" "GET" "" "" "") "request.json" exampleJson)
    as (g' & H0 & H1 & H2 & H3 & H4 & H5 & _).
  - vm_compute. reflexivity.
  - vm_compute. reflexivity.
  - vm_compute. reflexivity.
  - intros name Hn. apply list_elem_of_In in Hn. simpl in Hn.
    destruct Hn as [<-|[<-|[<-|[<-|[<-|[]]]]]]; vm_compute; eauto.
  - exists g'. auto 10.
Defined.

(** The scenario of the specification: after two requests, recalling
    index 0 shows the first and puts the cursor on it. *)
Lemma restoreRequest_spec_witness :
  exists st',
    restoreRequest twoRequests 0 = Some st'
    /\ bufferOf (gui st') URL_VIEW = Some "http://example.com/first"
    /\ historyIndex (app st') = 0
    /\ length (history (app st')) = 2%nat
    /\ sent st' = sent twoRequests.
Proof.
  destruct (proj2 (restoreRequest_spec exampleWorld twoRequests 0))
    with (p := 0%nat)
         (r := default emptyRequest (requests twoRequests !! 0%nat))
    as (st' & H0 & H1 & _ & _ & _ & _ & _ & Hi & Hh & _ & Hs & _).
  - vm_compute. split; [discriminate | reflexivity].
  - vm_compute. discriminate.
  - intros name Hn. apply list_elem_of_In in Hn. simpl in Hn.
    destruct Hn as [<-|[<-|[<-|[<-|[<-|[<-|[]]]]]]]; vm_compute; eauto.
  - vm_compute. reflexivity.
  - vm_compute. reflexivity.
  - exists st'. split; [exact H0|]. split; [exact H1|].
    split; [exact Hi|]. split; [now rewrite Hh|exact Hs].
Defined.

(** The state after one submit is reached, and its cursor is valid. *)
Lemma history_invariant_witness :
  let st0 := exampleState "http://example.com/" "GET" "" ""
               "Accept: text/plain" in
  let st := submitGoroutine exampleWorld (snd (submitted st0))
              (fst (submitted st0)) in
  length (history (app st)) = 1%nat /\ historyInv (app st).
Proof.
  intros st0 st. split; [reflexivity|].
  apply (proj1 (history_invariant exampleWorld st
                  (reachable_step exampleWorld st0 st
                     (reachable_init exampleWorld _ _)
                     (step_submit exampleWorld st0 (fst (submitted st0))
                        (snd (submitted st0)) eq_refl)))).
Defined.

(** * The rest of the code *)

(** ** The token before the cursor *)

Lemma getLastSymbol_length_le (str : string) :
(String.length (getLastSymbol str) <= String.length str)%nat.
Proof.
induction str as [|c str IH]; simpl; [lia|].
destruct (isSymbolByte c && _); simpl; lia.
Qed.

Lemma getLastSymbol_whole (str : string) :
String.length (getLastSymbol str) = String.length str ->
getLastSymbol str = str.
Proof.
induction str as [|c str IH]; simpl; [reflexivity|].
destruct (isSymbolByte c) eqn:Ec; simpl.
- destruct (Nat.eqb_spec (String.length (getLastSymbol str))
              (String.length str)) as [E|E].
  + intros _. now rewrite IH.
  + intros H. pose proof (getLastSymbol_length_le str). lia.
- intros H. pose proof (getLastSymbol_length_le str). lia.
Qed.

(** X1.  [getLastSymbol str] is a suffix of [str] made of bytes of the
    class [[a-zA-Z0-9-]] only, and it is the longest one: what is left
    of [str] before it is empty or ends in a byte outside the class. *)
Theorem getLastSymbol_longest_suffix (str : string) :
exists before,
  str = before +:+ getLastSymbol str
  /\ allSymbolBytes (getLastSymbol str) = true
  /\ (forall c, lastByte before = Some c -> isSymbolByte c = false).
Proof.
induction str as [|c str (before & Hs & Hall & Hmax)].
- exists "". repeat split. intros c H. discriminate.
- simpl. destruct (isSymbolByte c) eqn:Ec; simpl.
  + destruct (Nat.eqb_spec (String.length (getLastSymbol str))
                (String.length str)) as [E|E].
    * exists "". split; [|split].
      -- now rewrite (getLastSymbol_whole str E).
      -- unfold allSymbolBytes in *. simpl. now rewrite Ec.
      -- intros d H. discriminate.
    * exists (String c before). split; [|split].
      -- change (String c str = String c (before +:+ getLastSymbol str)).
         now rewrite <- Hs.
      -- exact Hall.
      -- destruct before as [|b before'].
         ++ exfalso. apply E. now rewrite Hs at 2.
         ++ intros d Hd. apply Hmax. exact Hd.
  + exists (String c before). split; [|split].
    * change (String c str = String c (before +:+ getLastSymbol str)).
      now rewrite <- Hs.
    * exact Hall.
    * destruct before as [|b before'].
      -- intros d [= <-]. exact Ec.
      -- intros d Hd. apply Hmax. exact Hd.
Qed.

(** ** Response headers *)

#[local] Instance string_le_total : Total string_le.
Proof. intros a b. apply String.leb_total. Qed.

(** X2.  [writeSortedHeaders] writes one line per header name of the
    map, each name once, in the byte-wise lexicographic order of
    [sort.Strings], whatever order the map yields them in. *)
Theorem writeSortedHeaders_sorted (h : Header) :
exists hkeys,
  writeSortedHeaders h = String.concat "" (map (headerLine h) hkeys)
  /\ Sorted string_le hkeys
  /\ NoDup hkeys
  /\ (forall hname, hname ∈ hkeys <-> is_Some (h !! hname)).
Proof.
exists (merge_sort string_le (map fst (map_to_list h))).
split; [reflexivity|]. split; [apply Sorted_merge_sort, _|]. split.
- rewrite merge_sort_Permutation. apply NoDup_fst_map_to_list.
- intros hname. rewrite merge_sort_Permutation. rewrite list_elem_of_fmap.
  split.
  + intros [[k v] [-> Hin]]. apply elem_of_map_to_list in Hin. simpl. eauto.
  + intros [v Hv]. exists (hname, v). split; [reflexivity|].
    now apply elem_of_map_to_list.
Qed.

(** ** What a submit sends and records *)

Section SubmitOutcomes.

Variable w : World.

(** X3.  The goroutine of a submit hands at most one request to
    [CLIENT.Do], never touches the history without having handed one
    over, and then appends exactly the request [r] of this submit and
    moves the cursor to it. *)
Theorem submit_sends_at_most_one (r : ptr) (st : State) :
let st' := submitGoroutine w r st in
(sent st' = sent st /\ app st' = app st)
\/ exists req,
    sent st' = sent st ++ [req]
    /\ (app st' = app st
        \/ (history (app st') = history (app st) ++ [r]
            /\ historyIndex (app st')
               = Z.of_nat (length (history (app st)))
            /\ exists response,
                fst (CLIENT_Do w (sent st) req) = inr response)).
Proof.
intros st'. subst st'.
destruct (submitGoroutine_frame w r st) as (-> & -> & _).
pose proof (submitBody_cases w r st) as Hc. cbv zeta in Hc.
destruct (url_Parse w _) as [e|u].
{ left. destruct Hc as (? & ? & _). auto. }
destruct (url_ParseQuery w _) as [e|q].
{ left. destruct Hc as (? & ? & _). auto. }
destruct (setHeaders w _ _) as [e|headers].
{ left. destruct Hc as (? & ? & _). auto. }
destruct (requestBody w _ _ _) as [body|msg|].
- destruct Hc as (st1 & G1 & A1 & S1 & ->).
  pose proof (sendRequest_cases w r
                (getViewValue (gui st) REQUEST_METHOD_VIEW)
                (URL_String w u
                   (Values_Encode w (addQuery (URL_Query w u) q)))
                headers body st1) as [Hsend _].
  cbv zeta in Hsend.
  destruct (http_NewRequest w _ _) as [e|].
  { left. destruct Hsend as (? & ? & _). split; congruence. }
  destruct Hsend as [Hs Hres]. right. eexists. rewrite Hs, S1.
  split; [reflexivity|]. rewrite S1 in Hres.
  destruct (fst (CLIENT_Do w _ _)) as [e|response].
  { left. destruct Hres as [? _]. congruence. }
  destruct Hres as [[Ha _]|[Ha _]]; [left; congruence|].
  right. rewrite Ha, A1. simpl. split; [reflexivity|]. split; [|eauto].
  rewrite length_app. simpl. lia.
- left. destruct Hc as (? & ? & _). auto.
- left. destruct Hc as (? & ? & _). auto.
Qed.

End SubmitOutcomes.

Section SubmitRecords.

Variable w : World.

Lemma SubmitRequest_allocates st0 st r :
SubmitRequest st0 = Some (st, r) ->
requests st !! r = Some emptyRequest /\ requests st0 !! r = None.
Proof.
unfold SubmitRequest. intros H.
apply bind_Some in H as (vrb & _ & H).
apply bind_Some in H as (vrh & _ & H).
apply bind_Some in H as (g' & _ & H).
injection H as <- <-. simpl. split; [apply lookup_insert_eq|].
apply not_elem_of_dom, is_fresh.
Qed.

(** The stages that a submit has passed when it hands a request over. *)
Lemma submitBody_stages r st req :
sent (submitBody w r st) = sent st ++ [req] ->
exists u q headers body,
  url_Parse w (getViewValue (gui st) URL_VIEW) = inr u
  /\ url_ParseQuery w
       (ReplaceByte (getViewValue (gui st) URL_PARAMS_VIEW) NL "&") = inr q
  /\ setHeaders w (SplitNL (getViewValue (gui st) REQUEST_HEADERS_VIEW))
       (Header_Set w ∅ "User-Agent" "") = inr headers
  /\ requestBody w (gui st) (getViewValue (gui st) REQUEST_METHOD_VIEW)
       headers = BodyOk body
  /\ http_NewRequest w (getViewValue (gui st) REQUEST_METHOD_VIEW)
       (URL_String w u (Values_Encode w (addQuery (URL_Query w u) q)))
     = None
  /\ req = mkHttpRequest (getViewValue (gui st) REQUEST_METHOD_VIEW)
             (URL_String w u (Values_Encode w (addQuery (URL_Query w u) q)))
             headers (Header_Get w headers "Host") body.
Proof.
intros Hsent.
pose proof (submitBody_cases w r st) as Hc. cbv zeta in Hc.
destruct (url_Parse w _) as [e|u] eqn:Eu.
{ destruct Hc as [Hc _]. rewrite Hc in Hsent.
  destruct (list_neq_snoc _ _ Hsent). }
destruct (url_ParseQuery w _) as [e|q] eqn:Eq.
{ destruct Hc as [Hc _]. rewrite Hc in Hsent.
  destruct (list_neq_snoc _ _ Hsent). }
destruct (setHeaders w _ _) as [e|headers] eqn:Eh.
{ destruct Hc as [Hc _]. rewrite Hc in Hsent.
  destruct (list_neq_snoc _ _ Hsent). }
destruct (requestBody w _ _ _) as [body|msg|] eqn:Ebody.
- destruct Hc as (st1 & G1 & A1 & S1 & Hc). rewrite Hc in *.
  pose proof (sendRequest_cases w r
                (getViewValue (gui st) REQUEST_METHOD_VIEW)
                (URL_String w u
                   (Values_Encode w (addQuery (URL_Query w u) q)))
                headers body st1) as [Hsend _].
  cbv zeta in Hsend.
  destruct (http_NewRequest w _ _) as [e|] eqn:En.
  { destruct Hsend as [Hc' _]. rewrite Hc', S1 in Hsent.
    destruct (list_neq_snoc _ _ Hsent). }
  destruct Hsend as [Hc' _]. rewrite Hc', S1 in Hsent.
  apply app_inj_tail in Hsent as [_ <-].
  exists u, q, headers, body. repeat (split; [first [assumption|reflexivity]|]).
  reflexivity.
- destruct Hc as [Hc _]. rewrite Hc in Hsent.
  destruct (list_neq_snoc _ _ Hsent).
- destruct Hc as [Hc _]. rewrite Hc in Hsent.
  destruct (list_neq_snoc _ _ Hsent).
Qed.

Lemma submitBody_to_send r st u q headers body q0 :
url_Parse w (getViewValue (gui st) URL_VIEW) = inr u ->
url_ParseQuery w
  (ReplaceByte (getViewValue (gui st) URL_PARAMS_VIEW) NL "&") = inr q ->
setHeaders w (SplitNL (getViewValue (gui st) REQUEST_HEADERS_VIEW))
  (Header_Set w ∅ "User-Agent" "") = inr headers ->
requestBody w (gui st) (getViewValue (gui st) REQUEST_METHOD_VIEW)
  headers = BodyOk body ->
requests st !! r = Some q0 ->
exists st1,
  submitBody w r st
  = sendRequest w r (getViewValue (gui st) REQUEST_METHOD_VIEW)
      (URL_String w u (Values_Encode w (addQuery (URL_Query w u) q)))
      headers body st1
  /\ gui st1 = gui st /\ app st1 = app st /\ sent st1 = sent st
  /\ requests st1 !! r
     = Some (filledRequest (gui st)
               (Values_Encode w (addQuery (URL_Query w u) q)) q0).
Proof.
intros Eu Eq Eh Eb Hr. unfold submitBody. rewrite Eu, Eq. cbv zeta.
rewrite Eh, Eb. eexists. split; [reflexivity|].
unfold filledRequest.
destruct (_ || _); simpl; rewrite !lookup_alter_eq, Hr; auto.
Qed.

Lemma sendRequest_success r method urlString headers body st response d q0 :
http_NewRequest w method urlString = None ->
CLIENT_Do w (sent st)
  (mkHttpRequest method urlString headers (Header_Get w headers "Host") body)
= (inr response, d) ->
Header_Get w (respHeader response) "Content-Encoding" <> "gzip" ->
requests st !! r = Some q0 ->
let st' := sendRequest w r method urlString headers body st in
let contentType := Header_Get w (respHeader response) "Content-Type" in
app st' = setHistoryIndex (appendHistory (app st) r)
            (Z.of_nat (length (history (app st) ++ [r])) - 1)
/\ updates (gui st') = updates (gui st) ++ [URender r response]
/\ requests st' !! r
   = Some (setResponse contentType
             match respBody response with
             | ReadOk bodyBytes => Some bodyBytes
             | ReadErr _ => None
             end
             (formatter_New w (config (app st)) contentType)
             (setContentType contentType (setDuration d q0))).
Proof.
intros En Edo Egz Hr st' contentType. subst st'. unfold sendRequest.
rewrite En, Edo. apply String.eqb_neq in Egz. rewrite Egz.
split; [reflexivity|]. split; [reflexivity|].
simpl. rewrite !lookup_alter_eq, Hr. reflexivity.
Qed.

(** X4.  A submit whose exchange succeeds (and whose response is not
    gzip-encoded) appends its request to the history with the cursor on
    it.  The entry holds the URL, method and header text of the fields,
    the body text for POST, PUT and PATCH only, as query the encoded
    merge of the query of the URL and of the query field, the content
    type and duration of the exchange, the formatter of that content
    type, the bytes read (none when reading failed) and no response
    header text yet; the rendering of the response is queued. *)
Theorem submit_success_recorded (st0 st : State) (r : ptr)
  (req : HttpRequest) (response : Response) (d : Z) :
SubmitRequest st0 = Some (st, r) ->
sent (submitGoroutine w r st) = sent st0 ++ [req] ->
CLIENT_Do w (sent st0) req = (inr response, d) ->
Header_Get w (respHeader response) "Content-Encoding" <> "gzip" ->
let st' := submitGoroutine w r st in
let g := gui st0 in
history (app st') = history (app st0) ++ [r]
/\ historyIndex (app st') = Z.of_nat (length (history (app st0)))
/\ updates (gui st') = updates g ++ [URender r response]
/\ exists q u qv,
    requests st' !! r = Some q
    /\ url_Parse w (getViewValue g URL_VIEW) = inr u
    /\ url_ParseQuery w (ReplaceByte (getViewValue g URL_PARAMS_VIEW) NL "&")
       = inr qv
    /\ Url q = getViewValue g URL_VIEW
    /\ Method q = getViewValue g REQUEST_METHOD_VIEW
    /\ GetParams q = Values_Encode w (addQuery (URL_Query w u) qv)
    /\ Headers q = getViewValue g REQUEST_HEADERS_VIEW
    /\ Data q = (if String.eqb (Method q) "POST" || String.eqb (Method q) "PUT"
                    || String.eqb (Method q) "PATCH"
                 then getViewValue g REQUEST_DATA_VIEW else "")
    /\ ResponseHeaders q = ""
    /\ RawResponseBody q = match respBody response with
                           | ReadOk bodyBytes => Some bodyBytes
                           | ReadErr _ => None
                           end
    /\ ContentType q = Header_Get w (respHeader response) "Content-Type"
    /\ Duration q = d
    /\ Formatter q
       = Some (formatter_New w (config (app st0)) (ContentType q)).
Proof.
intros Hsub Hsent Hdo Hgz st' g. subst st'.
destruct (SubmitRequest_frame _ _ _ Hsub) as (Ha & Hs & Hu & Hb & Hv).
destruct (SubmitRequest_allocates _ _ _ Hsub) as [Hr _].
destruct (submitGoroutine_frame w r st) as (Hg1 & Hg2 & Hg3 & _).
rewrite Hg1, <- Hs in Hsent.
destruct (submitBody_stages r st req Hsent)
  as (u & qv & headers & body & Eu & Eq & Eh & Eb & En & Hreq).
destruct (submitBody_to_send r st u qv headers body emptyRequest
            Eu Eq Eh Eb Hr) as (st1 & E1 & G1 & A1 & S1 & R1).
rewrite <- Hs, <- S1, Hreq in Hdo.
destruct (sendRequest_success r _ _ headers body st1 response d _
            En Hdo Hgz R1) as (Happ & Hupd & Hreqs).
simpl requests. rewrite Hg2, Hg3, E1, Happ, Hupd, G1, A1, Ha, Hu.
assert (Hval : forall name,
          name <> RESPONSE_BODY_VIEW -> name <> RESPONSE_HEADERS_VIEW ->
          name <> POPUP_VIEW ->
          getViewValue (gui st) name = getViewValue g name).
{ intros name H1 H2 H3. apply getViewValue_frame, Hv; assumption. }
rewrite !Hval in Eu, Eq by discriminate.
split; [reflexivity|]. split; [simpl; rewrite length_app; simpl; lia|].
split; [reflexivity|].
eexists _, u, qv. split; [exact Hreqs|].
split; [exact Eu|]. split; [exact Eq|].
unfold filledRequest. rewrite !Hval by discriminate.
rewrite A1, Ha.
destruct (String.eqb (getViewValue g REQUEST_METHOD_VIEW) "POST"
          || String.eqb (getViewValue g REQUEST_METHOD_VIEW) "PUT"
          || String.eqb (getViewValue g REQUEST_METHOD_VIEW) "PATCH") eqn:Em;
  simpl; rewrite ?Em; auto 20.
Qed.

(** X5.  A submit whose response says it is gzip-encoded but cannot be
    opened as gzip has been sent and is not recorded: the [App] (history
    and cursor) is unchanged and the one function queued writes
    [Cannot uncompress response:] and the error into the response
    body. *)
Theorem gzip_error_not_recorded (st0 st : State) (r : ptr)
  (req : HttpRequest) (response : Response) (d : Z) (err : string) :
SubmitRequest st0 = Some (st, r) ->
sent (submitGoroutine w r st) = sent st0 ++ [req] ->
CLIENT_Do w (sent st0) req = (inr response, d) ->
Header_Get w (respHeader response) "Content-Encoding" = "gzip" ->
respGzipBody response = inl err ->
let st' := submitGoroutine w r st in
app st' = app st0
/\ updates (gui st')
   = updates (gui st0)
     ++ [UFprintBody ("Cannot uncompress response: " +:+ err)]
/\ exists st'',
    runUpdate w (UFprintBody ("Cannot uncompress response: " +:+ err)) st'
    = Some st''
    /\ bufferOf (gui st'') RESPONSE_BODY_VIEW
       = Some ("Cannot uncompress response: " +:+ err).
Proof.
intros Hsub Hsent Hdo Hgz Herr st'. subst st'.
destruct (SubmitRequest_frame _ _ _ Hsub) as (Ha & Hs & Hu & Hb & Hv).
destruct (SubmitRequest_allocates _ _ _ Hsub) as [Hr _].
destruct (submitGoroutine_frame w r st) as (Hg1 & Hg2 & Hg3 & Hg4).
rewrite Hg1, <- Hs in Hsent.
destruct (submitBody_stages r st req Hsent)
  as (u & qv & headers & body & Eu & Eq & Eh & Eb & En & Hreq).
destruct (submitBody_to_send r st u qv headers body emptyRequest
            Eu Eq Eh Eb Hr) as (st1 & E1 & G1 & A1 & S1 & R1).
rewrite <- Hs, <- S1, Hreq in Hdo.
assert (Hsend :
  app (submitBody w r st) = app st1
  /\ updates (gui (submitBody w r st))
     = updates (gui st1)
       ++ [UFprintBody ("Cannot uncompress response: " +:+ err)]
  /\ views (gui (submitBody w r st)) = views (gui st1)).
{ rewrite E1. unfold sendRequest. rewrite En, Hdo, Hgz. simpl.
  rewrite Herr. repeat split. }
destruct Hsend as (Happ & Hupd & Hviews).
rewrite Hg2, Hg3, Happ, Hupd, G1, A1, Ha, Hu.
split; [reflexivity|]. split; [reflexivity|].
destruct (runUpdate_report w (submitGoroutine w r st)
            ("Cannot uncompress response: " +:+ err) "")
  as (st'' & H1 & H2 & _).
{ unfold bufferOf, Gocui.GetView. rewrite Hg4, Hviews, G1.
  rewrite lookup_delete_ne by discriminate. exact Hb. }
exists st''. auto.
Qed.

(** X6.  A submit with a method other than POST, PUT and PATCH hands
    its request over without a body, whatever the data field holds. *)
Theorem other_methods_send_no_body (r : ptr) (st : State) (req : HttpRequest) :
sent (submitGoroutine w r st) = sent st ++ [req] ->
reqMethod req <> "POST" -> reqMethod req <> "PUT" ->
reqMethod req <> "PATCH" ->
reqBody req = None.
Proof.
intros Hsent H1 H2 H3.
destruct (submitGoroutine_frame w r st) as (Hg1 & _). rewrite Hg1 in Hsent.
destruct (submitBody_sent w r st req Hsent) as (headers & _ & _ & Hbody).
unfold requestBody in Hbody.
apply String.eqb_neq in H1, H2, H3. rewrite H1, H2, H3 in Hbody.
simpl in Hbody. now injection Hbody as <-.
Qed.

(** X7.  A submit with a body method and the content type
    [multipart/form-data] whose data field does not parse as
    [key=value] pairs ends without a word: nothing is sent, nothing is
    queued for the response body, the history is unchanged. *)
Theorem multipart_parse_error_is_silent (st0 st : State) (r : ptr)
  (u : URLT w) (q : Values) (headers : Header) (err : string) :
SubmitRequest st0 = Some (st, r) ->
let g := gui st0 in
url_Parse w (getViewValue g URL_VIEW) = inr u ->
url_ParseQuery w (ReplaceByte (getViewValue g URL_PARAMS_VIEW) NL "&")
= inr q ->
setHeaders w (SplitNL (getViewValue g REQUEST_HEADERS_VIEW))
  (Header_Set w ∅ "User-Agent" "") = inr headers ->
getViewValue g REQUEST_METHOD_VIEW = "POST"
\/ getViewValue g REQUEST_METHOD_VIEW = "PUT"
\/ getViewValue g REQUEST_METHOD_VIEW = "PATCH" ->
Header_Get w headers "Content-Type" = "multipart/form-data" ->
url_ParseQuery w (ReplaceByte (getViewValue g REQUEST_DATA_VIEW) NL "&")
= inl err ->
let st' := submitGoroutine w r st in
sent st' = sent st0 /\ app st' = app st0
/\ updates (gui st') = updates (gui st0).
Proof.
intros Hsub g Eu Eq Eh Hm Hct Ed st'. subst st'.
destruct (SubmitRequest_frame _ _ _ Hsub) as (Ha & Hs & Hu & Hb & Hv).
destruct (submitGoroutine_frame w r st) as (Hg1 & Hg2 & Hg3 & _).
assert (Hval : forall name,
          name <> RESPONSE_BODY_VIEW -> name <> RESPONSE_HEADERS_VIEW ->
          name <> POPUP_VIEW ->
          getViewValue (gui st) name = getViewValue g name).
{ intros name H1 H2 H3. apply getViewValue_frame, Hv; assumption. }
pose proof (submitBody_cases w r st) as Hc. cbv zeta in Hc.
rewrite !Hval in Hc by discriminate.
rewrite Eu, Eq, Eh in Hc. unfold requestBody in Hc.
rewrite !Hval in Hc by discriminate.
assert (Hpost : String.eqb (getViewValue g REQUEST_METHOD_VIEW) "POST"
                || String.eqb (getViewValue g REQUEST_METHOD_VIEW) "PUT"
                || String.eqb (getViewValue g REQUEST_METHOD_VIEW) "PATCH"
                = true).
{ destruct Hm as [H|[H|H]]; rewrite H; reflexivity. }
rewrite Hpost, Hct, Ed in Hc. simpl in Hc.
destruct Hc as (H1 & H2 & H3).
rewrite Hg1, Hg2, Hg3, H1, H2, H3. auto.
Qed.

End SubmitRecords.

(** ** Rendering the response body *)

Lemma string_app_assoc (a b c : string) : (a +:+ b) +:+ c = a +:+ (b +:+ c).
Proof.
induction a as [|x a IH]; [reflexivity|].
change (String x ((a +:+ b) +:+ c) = String x (a +:+ (b +:+ c))).
now rewrite IH.
Qed.

Lemma Fprint_results (results : list string) (v : View) :
let v' := fold_left (fun v result => Gocui.Fprint v (resultLine result))
            results v in
vBuffer v' = vBuffer v +:+ concatAll (map resultLine results)
/\ vTitle v' = vTitle v /\ vOrigin v' = vOrigin v.
Proof.
revert v. induction results as [|x results IH]; intros v; simpl.
- now rewrite string_app_nil_r.
- destruct (IH (Gocui.Fprint v (resultLine x))) as (-> & -> & ->). simpl.
  now rewrite string_app_assoc.
Qed.

Section RenderProperties.

Variable w : World.

(** X8.  The rendering of [PrintBody] changes nothing when the history
    is empty, and nothing when the entry under the cursor has no raw
    body. *)
Theorem PrintBody_nothing_to_render (st : State) :
(history (app st) = []
 \/ exists p q,
     historyAt (app st) (historyIndex (app st)) = Some p
     /\ requests st !! p = Some q /\ RawResponseBody q = None) ->
runUpdate w UPrintBody st = Some st.
Proof.
simpl. unfold runPrintBody. intros [H|(p & q & Hp & Hq & Hraw)].
- now rewrite H.
- destruct (length (history (app st)) =? 0)%nat; [reflexivity|].
  rewrite Hp. simpl. rewrite Hq. simpl. now rewrite Hraw.
Qed.

(** X9.  With a search text and a searchable formatter, the rendering
    of [PrintBody] shows search results instead of the body, from the
    formatter of the entry when the search is context specific and from
    the default formatter otherwise.  No result gives the title
    [No results] and the text [Error: no results]; [n] results give the
    title [n results] and each result after a line of five dashes; an
    error of the search is shown after [Search error: ].  The origin of
    the view is reset. *)
Theorem PrintBody_search (st : State) (p : ptr) (q : Request)
  (raw : string) (f : ResponseFormatter) (vrb : View) :
history (app st) <> [] ->
historyAt (app st) (historyIndex (app st)) = Some p ->
requests st !! p = Some q ->
RawResponseBody q = Some raw ->
Formatter q = Some f ->
views (gui st) !! RESPONSE_BODY_VIEW = Some vrb ->
getViewValue (gui st) SEARCH_VIEW <> "" ->
Searchable f = true ->
let searcher := if ContextSpecificSearch (config (app st)) then f
                else DEFAULT_FORMATTER w in
exists st' vrb',
  runUpdate w UPrintBody st = Some st'
  /\ views (gui st') !! RESPONSE_BODY_VIEW = Some vrb'
  /\ vOrigin vrb' = (0, 0)
  /\ app st' = app st /\ requests st' = requests st
  /\ match Search searcher (getViewValue (gui st) SEARCH_VIEW) raw with
     | inl err =>
         vBuffer vrb' = "Search error: " +:+ err
         /\ vTitle vrb' = "Response body " +:+ Title f
     | inr [] =>
         vBuffer vrb' = "Error: no results" /\ vTitle vrb' = "No results"
     | inr results =>
         vBuffer vrb' = concatAll (map resultLine results)
         /\ vTitle vrb'
            = pretty (Z.of_nat (length results)) +:+ " results"
     end.
Proof.
intros Hne Hp Hq Hraw Hf Hvrb Hsearch Hsb searcher.
simpl. unfold runPrintBody.
destruct (length (history (app st)) =? 0)%nat eqn:El.
{ apply Nat.eqb_eq in El. destruct (history (app st)); [contradiction|].
  discriminate. }
rewrite Hp. simpl. rewrite Hq. simpl. rewrite Hraw.
unfold Gocui.GetView. rewrite Hvrb. simpl. rewrite Hf. simpl.
change (getViewValue (gui st) "search")
  with (getViewValue (gui st) SEARCH_VIEW).
apply String.eqb_neq in Hsearch. rewrite Hsearch, Hsb. simpl.
replace (if negb (ContextSpecificSearch (config (app st)))
         then DEFAULT_FORMATTER w else f) with searcher
  by (unfold searcher; now destruct (ContextSpecificSearch _)).
destruct (Search searcher _ raw) as [err|results].
{ eexists _, _. split; [reflexivity|]. simpl.
  rewrite lookup_insert_eq. repeat split. }
destruct results as [|x results].
{ eexists _, _. split; [reflexivity|]. simpl.
  rewrite lookup_insert_eq. repeat split. }
destruct (Fprint_results (x :: results)
            (Gocui.SetTitle
               (Gocui.SetOrigin
                  (Gocui.SetTitle (Gocui.Clear vrb)
                     ("Response body" +:+ " " +:+ Title f)) 0 0)
               (pretty (Z.of_nat (length (x :: results))) +:+ " results")))
  as (Hb & Ht & Ho).
eexists _, _. split; [reflexivity|]. simpl views.
rewrite lookup_insert_eq. split; [reflexivity|].
split; [exact Ho|]. split; [reflexivity|]. split; [reflexivity|].
split; [exact Hb | exact Ht].
Qed.

(** X10.  With a formatter that is not searchable, or with an empty
    search field, the rendering of [PrintBody] shows what the formatter
    of the entry makes of the raw body, whatever the search field
    holds, followed by [Error: cannot decode response body: ] and the
    error when the formatter fails; the title is that of the view and
    of the formatter.  The origin of the view stays when the formatter
    fails; otherwise it is reset, unless scroll positions are
    preserved and the view has a line at its origin. *)
Theorem PrintBody_full_render (st : State) (p : ptr) (q : Request)
  (raw : string) (f : ResponseFormatter) (vrb : View) :
history (app st) <> [] ->
historyAt (app st) (historyIndex (app st)) = Some p ->
requests st !! p = Some q ->
RawResponseBody q = Some raw ->
Formatter q = Some f ->
views (gui st) !! RESPONSE_BODY_VIEW = Some vrb ->
getViewValue (gui st) SEARCH_VIEW = "" \/ Searchable f = false ->
exists st' vrb',
  runUpdate w UPrintBody st = Some st'
  /\ views (gui st') !! RESPONSE_BODY_VIEW = Some vrb'
  /\ vTitle vrb' = "Response body " +:+ Title f
  /\ vBuffer vrb'
     = fst (Format f raw)
       +:+ match snd (Format f raw) with
           | Some e => "Error: cannot decode response body: " +:+ e
           | None => ""
           end
  /\ app st' = app st /\ requests st' = requests st
  /\ vOrigin vrb'
     = match snd (Format f raw) with
       | Some _ => vOrigin vrb
       | None =>
           if PreserveScrollPosition (config (app st))
              && bool_decide
                   (is_Some
                      (Gocui.Line
                         (Gocui.Fprint (Gocui.Clear vrb)
                                       (fst (Format f raw))) 0))
           then vOrigin vrb else (0, 0)
       end.
Proof.
intros Hne Hp Hq Hraw Hf Hvrb Hcase.
simpl. unfold runPrintBody.
destruct (length (history (app st)) =? 0)%nat eqn:El.
{ apply Nat.eqb_eq in El. destruct (history (app st)); [contradiction|].
  discriminate. }
rewrite Hp. simpl. rewrite Hq. simpl. rewrite Hraw.
unfold Gocui.GetView. rewrite Hvrb. simpl. rewrite Hf. simpl.
change (getViewValue (gui st) "search")
  with (getViewValue (gui st) SEARCH_VIEW).
assert (Hcond : String.eqb (getViewValue (gui st) SEARCH_VIEW) ""
                || negb (Searchable f) = true).
{ destruct Hcase as [H|H]; rewrite H; [reflexivity|apply orb_true_r]. }
rewrite Hcond. destruct (Format f raw) as [out [e|]]; simpl.
- eexists _, _. split; [reflexivity|]. simpl.
  rewrite lookup_insert_eq. repeat split.
- change (Gocui.Line
            (Gocui.Fprint
               (Gocui.SetTitle (Gocui.Clear vrb)
                  ("Response body" +:+ " " +:+ Title f)) out) 0)
    with (Gocui.Line (Gocui.Fprint (Gocui.Clear vrb) out) 0).
  destruct (PreserveScrollPosition (config (app st)));
    destruct (bool_decide
                (is_Some (Gocui.Line (Gocui.Fprint (Gocui.Clear vrb) out)
                            0)));
    simpl; eexists _, _; (split; [reflexivity|]); simpl;
    rewrite lookup_insert_eq;
    (split; [reflexivity|]); (split; [reflexivity|]);
    (split; [now rewrite string_app_nil_r|]); repeat split.
Qed.

End RenderProperties.

(** ** Moving between the views *)

Lemma wrap_small (z : Z) : - 2 ^ 63 <= z < 2 ^ 63 -> GoInt.wrap z = z.
Proof.
intros H. unfold GoInt.wrap.
rewrite Z.mod_small by lia. lia.
Qed.

Lemma App_setView_spec (g : Gui) (a : App) :
viewIndexInv a ->
exists g' a' err,
  App_setView g a = Some (g', a', err)
  /\ viewIndex a' = viewIndex a
  /\ history a' = history a /\ historyIndex a' = historyIndex a
  /\ updates g' = updates g
  /\ (forall name,
        VIEWS !! Z.to_nat (viewIndex a) = Some name ->
        is_Some (views g !! name) -> name <> currentPopup a ->
        currentView g' = name /\ err = None).
Proof.
intros [H0 H1]. unfold App_setView.
destruct (closePopup_spec g a (currentPopup a) H0)
  as (g1 & a1 & Ec & Hh & Hi & Hv & Hcfg & Hu & Hf).
rewrite Ec. simpl. rewrite Hv.
destruct (Z.ltb_spec (viewIndex a) 0) as [?|_]; [lia|].
destruct (lookup_lt_is_Some_2 VIEWS (Z.to_nat (viewIndex a)))
  as [name Hname]; [lia|].
rewrite Hname. simpl. eexists _, _, _. split; [reflexivity|].
repeat (split; [assumption|]).
split.
{ unfold Gocui.SetCurrentView. now destruct (Gocui.GetView g1 name). }
intros name' [= <-] [v Hview] Hne.
unfold Gocui.SetCurrentView, Gocui.GetView. rewrite (Hf name Hne), Hview.
auto.
Qed.

(** X11.  With the index of the current view within [VIEWS],
    [NextView] moves it to the next view and from the last to the
    first, and [PrevView] moves it back: either one after the other
    leaves the index where it was.  Neither touches the history, and
    the view under the new index gets the focus when it exists. *)
Theorem NextView_PrevView_inverse (g : Gui) (a : App) :
viewIndexInv a ->
exists g1 a1 e1 g2 a2 e2,
  NextView g a = Some (g1, a1, e1)
  /\ viewIndex a1 = (viewIndex a + 1) mod 8
  /\ viewIndexInv a1
  /\ PrevView_ g1 a1 = Some (g2, a2, e2)
  /\ viewIndex a2 = viewIndex a
  /\ history a2 = history a /\ historyIndex a2 = historyIndex a
  /\ (forall name,
        VIEWS !! Z.to_nat (viewIndex a1) = Some name ->
        is_Some (views g !! name) -> name <> currentPopup a ->
        currentView g1 = name).
Proof.
intros Hinv. pose proof Hinv as [H0 H1]. simpl length in H1.
unfold NextView, PrevView_.
set (i1 := Z.rem (GoInt.add (viewIndex a) 1) (Z.of_nat (length VIEWS))).
assert (Hi1 : i1 = (viewIndex a + 1) mod 8).
{ unfold i1, GoInt.add. rewrite wrap_small by lia. simpl length.
  rewrite Z.rem_mod_nonneg by lia. reflexivity. }
assert (Hinv1 : viewIndexInv (setViewIndex a i1)).
{ unfold viewIndexInv. simpl. rewrite Hi1.
  pose proof (Z.mod_pos_bound (viewIndex a + 1) 8). lia. }
destruct (App_setView_spec g (setViewIndex a i1) Hinv1)
  as (g1 & a1 & e1 & E1 & V1 & Hh1 & Hx1 & _ & Hfocus).
simpl in V1, Hh1, Hx1.
set (i2 := Z.rem (GoInt.add (GoInt.add (viewIndex a1) (-1))
                    (Z.of_nat (length VIEWS))) (Z.of_nat (length VIEWS))).
assert (Hi2 : i2 = viewIndex a).
{ unfold i2, GoInt.add. rewrite V1, Hi1. simpl length.
  pose proof (Z.mod_pos_bound (viewIndex a + 1) 8).
  rewrite (wrap_small ((viewIndex a + 1) mod 8 + -1)) by lia.
  rewrite wrap_small by lia.
  rewrite Z.rem_mod_nonneg by lia.
  destruct (Z.eq_dec (viewIndex a) 7) as [->|Hne]; [reflexivity|].
  rewrite (Z.mod_small (viewIndex a + 1)) by lia.
  replace (viewIndex a + 1 + -1 + Z.of_nat 8) with (viewIndex a + 1 * 8)
    by lia.
  rewrite Z.mod_add by lia. apply Z.mod_small. lia. }
assert (Hinv2 : viewIndexInv (setViewIndex a1 i2)).
{ unfold viewIndexInv. simpl. rewrite Hi2. exact Hinv. }
destruct (App_setView_spec g1 (setViewIndex a1 i2) Hinv2)
  as (g2 & a2 & e2 & E2 & V2 & Hh2 & Hx2 & _).
simpl in V2, Hh2, Hx2.
exists g1, a1, e1, g2, a2, e2.
split; [exact E1|]. split; [congruence|].
split; [unfold viewIndexInv; rewrite V1; exact Hinv1|].
split; [exact E2|]. split; [congruence|].
split; [congruence|]. split; [congruence|].
intros name Hname Hview Hne. rewrite V1 in Hname.
now apply (Hfocus name Hname Hview).
Qed.

Lemma setViewByNameFrom_spec (views_ : list string) (i : Z) (g : Gui)
  (a : App) (name : string) :
(name ∉ views_ ->
 setViewByNameFrom views_ i g a name = Some (g, a, Some "view not found"))
/\ (forall k,
      views_ !! k = Some name ->
      (forall j, (j < k)%nat -> views_ !! j <> Some name) ->
      setViewByNameFrom views_ i g a name
      = App_setView g (setViewIndex a (i + Z.of_nat k))).
Proof.
revert i. induction views_ as [|v views' IH]; intros i.
- split; [reflexivity|]. intros k Hk. discriminate.
- simpl. destruct (String.eqb_spec v name) as [->|Hne].
  + split.
    * intros Hn. exfalso. apply Hn. apply list_elem_of_here.
    * intros k Hk Hfirst. destruct k as [|k].
      -- now rewrite Z.add_0_r.
      -- exfalso. apply (Hfirst 0%nat); [lia | reflexivity].
  + destruct (IH (i + 1)) as [IH1 IH2]. split.
    * intros Hn. apply IH1. intros Hin. apply Hn.
      now apply list_elem_of_further.
    * intros k Hk Hfirst. destruct k as [|k]; [simpl in Hk; congruence|].
      rewrite (IH2 k Hk).
      -- do 2 f_equal. lia.
      -- intros j Hj. apply (Hfirst (S j)). lia.
Qed.

(** X12.  [setViewByName] with a name that is not in [VIEWS] reports
    [view not found] and changes nothing; with the name of a view of
    [VIEWS] it makes the index of that view the current index, and
    gives it the focus when the view exists. *)
Theorem setViewByName_spec (g : Gui) (a : App) (name : string) :
viewIndexInv a ->
(name ∉ VIEWS ->
 setViewByName g a name = Some (g, a, Some "view not found"))
/\ (name ∈ VIEWS ->
    exists g' a' err,
      setViewByName g a name = Some (g', a', err)
      /\ VIEWS !! Z.to_nat (viewIndex a') = Some name
      /\ viewIndexInv a'
      /\ (is_Some (views g !! name) -> name <> currentPopup a ->
          currentView g' = name /\ err = None)).
Proof.
intros Hinv. destruct (setViewByNameFrom_spec VIEWS 0 g a name) as [H1 H2].
split; [exact H1|]. intros Hin.
assert (Hk : exists k, VIEWS !! k = Some name
                       /\ (k < length VIEWS)%nat
                       /\ forall j, (j < k)%nat -> VIEWS !! j <> Some name).
{ apply list_elem_of_In in Hin. simpl in Hin.
  destruct Hin as [<-|[<-|[<-|[<-|[<-|[<-|[<-|[<-|[]]]]]]]]];
    [exists 0%nat|exists 1%nat|exists 2%nat|exists 3%nat|exists 4%nat
    |exists 5%nat|exists 6%nat|exists 7%nat];
    (split; [reflexivity|]); (split; [simpl; lia|]);
    intros j Hj;
    do 8 (destruct j as [|j];
          [first [lia | intros Hd; vm_compute in Hd; discriminate Hd]|]);
    lia. }
destruct Hk as (k & Hk & Hlen & Hfirst).
unfold setViewByName. rewrite (H2 k Hk Hfirst). simpl Z.add.
assert (Hinv' : viewIndexInv (setViewIndex a (Z.of_nat k))).
{ unfold viewIndexInv. simpl viewIndex. lia. }
destruct (App_setView_spec g (setViewIndex a (Z.of_nat k)) Hinv')
  as (g' & a' & err & E & V & _ & _ & _ & Hfocus).
simpl in V. exists g', a', err. split; [exact E|].
rewrite V, Nat2Z.id. split; [exact Hk|].
split; [unfold viewIndexInv; rewrite V; exact Hinv'|].
intros Hview Hne. apply Hfocus; [|exact Hview|exact Hne].
simpl. now rewrite Nat2Z.id.
Qed.

(** ** Popup views *)

Lemma closePopup_cases (g : Gui) (a : App) (viewname : string) :
0 <= viewIndex a ->
(views g !! viewname = None /\ closePopup g a viewname = Some (g, a))
\/ (is_Some (views g !! viewname)
    /\ exists name,
         VIEWS !! Z.to_nat (Z.rem (viewIndex a) (Z.of_nat (length VIEWS)))
         = Some name
         /\ closePopup g a viewname
            = Some (Gocui.withCursor
                      (Gocui.SetCurrentView (Gocui.DeleteView g viewname)
                         name) true,
                    setCurrentPopup a "")).
Proof.
intros Hvi. unfold closePopup, Gocui.GetView.
destruct (views g !! viewname) as [v|] eqn:Hv; [right|left; auto].
split; [eauto|].
destruct (Z.ltb_spec (viewIndex a) 0) as [?|_]; [lia|].
destruct (lookup_lt_is_Some_2 VIEWS
            (Z.to_nat (Z.rem (viewIndex a) (Z.of_nat (length VIEWS)))))
  as [name Hname].
{ pose proof (Z.rem_bound_pos (viewIndex a) (Z.of_nat (length VIEWS)) Hvi).
  simpl length in *. lia. }
exists name. split; [exact Hname|]. rewrite Hname. reflexivity.
Qed.

Lemma closePopup_gSize (g g' : Gui) (a a' : App) (viewname : string) :
closePopup g a viewname = Some (g', a') ->
gSize g' = gSize g /\ views g' = delete viewname (views g).
Proof.
unfold closePopup, Gocui.GetView.
destruct (views g !! viewname) as [v|] eqn:Hv.
- destruct (viewIndex a <? 0); [discriminate|].
  destruct (VIEWS !! _) as [name|]; [|discriminate].
  intros [= <- <-]. unfold Gocui.SetCurrentView, Gocui.GetView.
  destruct (views (Gocui.DeleteView g viewname) !! name); auto.
- intros [= <- <-]. split; [reflexivity|].
  symmetry. now apply delete_id.
Qed.

Lemma CreatePopupView_spec (name : string) (width height : Z) (g : Gui)
  (a : App) (maxX maxY : Z) :
0 <= viewIndex a ->
gSize g = (maxX, maxY) ->
4 <= maxX < 2 ^ 31 -> 4 <= maxY < 2 ^ 31 ->
0 <= width < 2 ^ 31 -> 0 <= height < 2 ^ 31 ->
exists g0 a0 g',
  closePopup g a (currentPopup a) = Some (g0, a0)
  /\ CreatePopupView name width height g a
     = Some (g', setCurrentPopup a0 name, true)
  /\ views g'
     = <[name :=
           let rect :=
             (maxX / 2 - Z.min width (maxX - 4) / 2 - 1,
              maxY / 2 - Z.min height (maxY - 4) / 2 - 1,
              maxX / 2 + Z.min width (maxX - 4) / 2,
              maxY / 2 + Z.min height (maxY - 4) / 2 + 1) in
           match views g0 !! name with
           | Some v =>
               mkView rect (vBuffer v) (vCursor v) (vOrigin v) (vTitle v)
           | None => mkView rect "" (0, 0) (0, 0) ""
           end]> (views g0)
  /\ gCursor g' = false /\ updates g' = updates g0
  /\ currentView g' = currentView g0 /\ gSize g' = gSize g.
Proof.
intros Hvi Hsize HX HY HW HH.
destruct (closePopup_spec g a (currentPopup a) Hvi)
  as (g0 & a0 & Ec & _).
destruct (closePopup_gSize _ _ _ _ _ Ec) as [Hs0 _].
exists g0, a0. unfold CreatePopupView. rewrite Ec. simpl.
rewrite Hs0, Hsize.
unfold GoInt_sub, GoInt.add.
rewrite (wrap_small (maxY - 4)), (wrap_small (maxX - 4)) by lia.
assert (Hh : (if maxY - 4 <? height then maxY - 4 else height)
             = Z.min height (maxY - 4)).
{ destruct (Z.ltb_spec (maxY - 4) height); lia. }
assert (Hw : (if maxX - 4 <? width then maxX - 4 else width)
             = Z.min width (maxX - 4)).
{ destruct (Z.ltb_spec (maxX - 4) width); lia. }
rewrite Hh, Hw.
set (w := Z.min width (maxX - 4)). set (h := Z.min height (maxY - 4)).
assert (Hwb : 0 <= w <= maxX - 4) by (unfold w; lia).
assert (Hhb : 0 <= h <= maxY - 4) by (unfold h; lia).
rewrite !Z.quot_div_nonneg by lia.
assert (Hw2 : 0 <= w / 2 <= maxX / 2 - 2)
  by (split; [apply Z.div_pos; lia|];
      replace (maxX / 2 - 2) with ((maxX - 4) / 2)
        by (replace (maxX - 4) with (maxX + (-2) * 2) by lia;
            rewrite Z.div_add by lia; lia);
      apply Z.div_le_mono; lia).
assert (Hh2 : 0 <= h / 2 <= maxY / 2 - 2)
  by (split; [apply Z.div_pos; lia|];
      replace (maxY / 2 - 2) with ((maxY - 4) / 2)
        by (replace (maxY - 4) with (maxY + (-2) * 2) by lia;
            rewrite Z.div_add by lia; lia);
      apply Z.div_le_mono; lia).
assert (HmX : 2 <= maxX / 2 < 2 ^ 31)
  by (split; [apply (Z.div_le_lower_bound maxX 2 2); lia
             |apply Z.div_lt_upper_bound; lia]).
assert (HmY : 2 <= maxY / 2 < 2 ^ 31)
  by (split; [apply (Z.div_le_lower_bound maxY 2 2); lia
             |apply Z.div_lt_upper_bound; lia]).
rewrite (wrap_small (maxX / 2 - w / 2)) by lia.
rewrite (wrap_small (maxY / 2 - h / 2)) by lia.
rewrite (wrap_small (maxX / 2 - w / 2 - 1)) by lia.
rewrite (wrap_small (maxY / 2 - h / 2 - 1)) by lia.
rewrite (wrap_small (maxX / 2 + w / 2)) by lia.
rewrite (wrap_small (maxY / 2 + h / 2)) by lia.
rewrite (wrap_small (maxY / 2 + h / 2 + 1)) by lia.
unfold Gocui.SetView.
destruct (Z.leb_spec (maxX / 2 + w / 2) (maxX / 2 - w / 2 - 1)); [lia|].
destruct (Z.leb_spec (maxY / 2 + h / 2 + 1) (maxY / 2 - h / 2 - 1)); [lia|].
simpl orb. cbv iota. unfold Gocui.GetView. simpl views.
destruct (views g0 !! name) as [v0|] eqn:Hv0;
  eexists; (split; [reflexivity|]); (split; [reflexivity|]);
  simpl; repeat split; congruence.
Qed.

(** X13.  On a terminal of at least four columns and four rows
    [CreatePopupView] always succeeds: whatever size is asked for,
    the popup lies strictly inside the terminal, around its centre,
    with an even number of columns that is at most the width asked
    for and at most the terminal's less four, and an odd number of
    rows that is at least the height asked for or the terminal's less
    four.  It becomes the current popup, the cursor is hidden and the
    history is not touched. *)
Theorem CreatePopupView_inside_terminal (name : string) (width height : Z)
  (g : Gui) (a : App) (maxX maxY : Z) :
0 <= viewIndex a ->
gSize g = (maxX, maxY) ->
4 <= maxX < 2 ^ 31 -> 4 <= maxY < 2 ^ 31 ->
0 <= width < 2 ^ 31 -> 0 <= height < 2 ^ 31 ->
exists g' a' v x0 y0 x1 y1,
  CreatePopupView name width height g a = Some (g', a', true)
  /\ currentPopup a' = name /\ gCursor g' = false
  /\ history a' = history a /\ historyIndex a' = historyIndex a
  /\ viewIndex a' = viewIndex a
  /\ views g' !! name = Some v
  /\ vRect v = (x0, y0, x1, y1)
  /\ 0 < x0 /\ x0 < x1 /\ x1 < maxX - 1
  /\ 0 < y0 /\ y0 < y1 /\ y1 < maxY
  /\ Gocui.Size v
     = (2 * (Z.min width (maxX - 4) / 2),
        2 * (Z.min height (maxY - 4) / 2) + 1)
  /\ fst (Gocui.Size v) <= Z.min width (maxX - 4)
  /\ Z.min height (maxY - 4) <= snd (Gocui.Size v).
Proof.
intros Hvi Hsize HX HY HW HH.
destruct (CreatePopupView_spec name width height g a maxX maxY
            Hvi Hsize HX HY HW HH)
  as (g0 & a0 & g' & Ec & E & Hviews & Hcur & _).
destruct (closePopup_spec g a (currentPopup a) Hvi)
  as (g0' & a0' & Ec' & Hh & Hi & Hv & _).
rewrite Ec in Ec'. injection Ec' as <- <-.
set (w := Z.min width (maxX - 4)) in *.
set (h := Z.min height (maxY - 4)) in *.
assert (Hwb : 0 <= w <= maxX - 4) by (unfold w; lia).
assert (Hhb : 0 <= h <= maxY - 4) by (unfold h; lia).
assert (Hrect : exists v,
          views g' !! name = Some v
          /\ vRect v = (maxX / 2 - w / 2 - 1, maxY / 2 - h / 2 - 1,
                        maxX / 2 + w / 2, maxY / 2 + h / 2 + 1)).
{ rewrite Hviews, lookup_insert_eq.
  destruct (views g0 !! name); eexists; split; reflexivity. }
destruct Hrect as (v & Hv' & Hr).
exists g', (setCurrentPopup a0 name), v.
exists (maxX / 2 - w / 2 - 1), (maxY / 2 - h / 2 - 1),
       (maxX / 2 + w / 2), (maxY / 2 + h / 2 + 1).
split; [exact E|]. split; [reflexivity|]. split; [exact Hcur|].
split; [exact Hh|]. split; [exact Hi|]. split; [exact Hv|].
split; [exact Hv'|]. split; [exact Hr|].
unfold Gocui.Size. rewrite Hr. simpl fst. simpl snd.
pose proof (Z.div_mod maxX 2 ltac:(lia)).
pose proof (Z.mod_pos_bound maxX 2 ltac:(lia)).
pose proof (Z.div_mod maxY 2 ltac:(lia)).
pose proof (Z.mod_pos_bound maxY 2 ltac:(lia)).
pose proof (Z.div_mod w 2 ltac:(lia)).
pose proof (Z.mod_pos_bound w 2 ltac:(lia)).
pose proof (Z.div_mod h 2 ltac:(lia)).
pose proof (Z.mod_pos_bound h 2 ltac:(lia)).
repeat split; try lia.
f_equal; lia.
Qed.

(** ** Lines of text *)

Lemma SplitNL_nonempty (s : string) : SplitNL s <> [].
Proof.
induction s as [|c s IH]; simpl; [discriminate|].
destruct (SplitNL s); [discriminate|].
destruct (Ascii.eqb c NL); discriminate.
Qed.

Lemma noNewline_app (s t : string) :
noNewline (s +:+ t) = noNewline s && noNewline t.
Proof.
induction s as [|c s IH]; [reflexivity|].
change (noNewline (String c (s +:+ t))
        = noNewline (String c s) && noNewline t).
simpl. rewrite IH. now rewrite andb_assoc.
Qed.

Lemma SplitNL_line (l rest : string) :
noNewline l = true ->
SplitNL (l +:+ String NL rest) = l :: SplitNL rest.
Proof.
induction l as [|c l IH]; intros Hl.
- change (SplitNL (String NL rest) = "" :: SplitNL rest). simpl.
  destruct (SplitNL rest) eqn:E; [now destruct (SplitNL_nonempty rest)|].
  reflexivity.
- simpl in Hl. apply andb_true_iff in Hl as [Hc Hl].
  change (SplitNL (String c (l +:+ String NL rest))
          = String c l :: SplitNL rest).
  simpl. rewrite (IH Hl).
  apply negb_true_iff in Hc. now rewrite Hc.
Qed.

Lemma SplitNL_noNewline (l : string) :
noNewline l = true -> SplitNL l = [l].
Proof.
induction l as [|c l IH]; intros Hl; [reflexivity|].
simpl in Hl. apply andb_true_iff in Hl as [Hc Hl].
simpl. rewrite (IH Hl). apply negb_true_iff in Hc. now rewrite Hc.
Qed.

Lemma ReplaceByte_noNewline (s : string) (new : ascii) :
Ascii.eqb new NL = false -> noNewline (ReplaceByte s NL new) = true.
Proof.
intros Hnew. induction s as [|c s IH]; [reflexivity|].
simpl. rewrite IH, andb_true_r.
destruct (Ascii.eqb c NL) eqn:E; [now rewrite Hnew|now rewrite E].
Qed.

Lemma pretty_N_go_noNewline (x : N) (s : string) :
noNewline s = true -> noNewline (pretty_N_go x s) = true.
Proof.
revert s. induction (N.lt_wf_0 x) as [x _ IH]. intros s Hs.
destruct (N.eq_dec x 0%N) as [->|Hx]; [now rewrite pretty_N_go_0|].
rewrite pretty_N_go_step by lia. apply IH.
- apply N.div_lt; lia.
- simpl. rewrite Hs, andb_true_r.
  unfold pretty_N_char. now repeat case_match.
Qed.

Lemma pretty_Z_noNewline (i : Z) : noNewline (pretty i) = true.
Proof.
assert (HN : forall n : N, noNewline (pretty n) = true).
{ intros n. unfold pretty, pretty_N.
  destruct (decide (n = 0%N)); [reflexivity|].
  now apply pretty_N_go_noNewline. }
destruct i as [|p|p]; [reflexivity|exact (HN (N.pos p))|].
change (noNewline ("-" +:+ pretty (N.pos p)) = true).
rewrite noNewline_app, HN. reflexivity.
Qed.

Lemma pad2_noNewline (i : Z) : noNewline (pad2 i) = true.
Proof.
unfold pad2.
destruct (_ <? _)%nat; rewrite ?noNewline_app, pretty_Z_noNewline;
  reflexivity.
Qed.

Lemma historyLine_noNewline (i : Z) (r : Request) :
noNewline (Method r) && noNewline (Url r) = true ->
noNewline (historyLine i r) = true.
Proof.
intros H. apply andb_true_iff in H as [Hm Hu]. unfold historyLine.
cbv zeta.
destruct (String.eqb (GetParams r) ""), (String.eqb (Data r) ""),
  (String.eqb (Headers r) "");
  rewrite ?noNewline_app, ?ReplaceByte_noNewline, pad2_noNewline, Hm, Hu
    by reflexivity;
  reflexivity.
Qed.

Lemma concat_empty_cons (x : string) (l : list string) :
String.concat "" (x :: l) = x +:+ String.concat "" l.
Proof.
destruct l; simpl; [now rewrite string_app_nil_r|reflexivity].
Qed.

Lemma line_app (l rest : string) :
(l +:+ String NL "") +:+ rest = l +:+ String NL rest.
Proof. now rewrite string_app_assoc. Qed.

(** ** The history popup *)

Lemma writeHistory_spec (reqs : gmap ptr Request) (l : list ptr)
  (rs : list Request) (v : View) (i : Z) :
Forall2 (fun p r => reqs !! p = Some r) l rs ->
exists v',
  writeHistory reqs v i l = Some v'
  /\ vBuffer v'
     = vBuffer v
       +:+ String.concat "" (map (fun s => s +:+ String NL "")
                                 (historyLines i rs))
  /\ vRect v' = vRect v /\ vCursor v' = vCursor v
  /\ vOrigin v' = vOrigin v /\ vTitle v' = vTitle v.
Proof.
intros H. revert v i. induction H as [|p r l rs Hp _ IH]; intros v i.
- exists v. simpl. now rewrite string_app_nil_r.
- simpl writeHistory. rewrite Hp. simpl mbind.
  destruct (IH (Fprintln v (historyLine i r)) (i + 1))
    as (v' & E & Hb & Hr & Hc & Ho & Ht).
  exists v'. split; [exact E|]. rewrite Hb, Hr, Hc, Ho, Ht.
  split; [|auto].
  simpl historyLines. simpl map. rewrite concat_empty_cons.
  unfold Fprintln, Gocui.Fprint. simpl vBuffer.
  now rewrite !string_app_assoc.
Qed.

Lemma SplitNL_historyLines (i : Z) (rs : list Request) :
Forall (fun r => noNewline (Method r) && noNewline (Url r) = true) rs ->
SplitNL (String.concat "" (map (fun s => s +:+ String NL "")
                               (historyLines i rs)))
= historyLines i rs ++ [""].
Proof.
intros H. revert i. induction H as [|r rs Hr _ IH]; intros i.
- reflexivity.
- simpl historyLines. simpl map.
  rewrite concat_empty_cons, line_app, SplitNL_line
    by now apply historyLine_noNewline.
  now rewrite IH.
Qed.

Lemma historyLines_lookup (rs : list Request) (i : Z) (k : nat)
  (r : Request) :
rs !! k = Some r ->
historyLines i rs !! k = Some (historyLine (i + Z.of_nat k) r).
Proof.
revert i k. induction rs as [|r0 rs IH]; intros i k Hk; [discriminate|].
destruct k as [|k].
- injection Hk as ->. simpl. now rewrite Z.add_0_r.
- simpl. rewrite (IH (i + 1) k Hk). do 2 f_equal. lia.
Qed.

Lemma historyLines_length (i : Z) (rs : list Request) :
length (historyLines i rs) = length rs.
Proof.
revert i. induction rs as [|r rs IH]; intros i; simpl; [|rewrite IH];
  reflexivity.
Qed.

Lemma vTitle_setViewTextAndCursor (v : View) (s : string) :
vTitle (setViewTextAndCursor v s) = vTitle v.
Proof.
unfold setViewTextAndCursor, Gocui.SetCursor.
destruct (Gocui.Size _) as [mx my]. now destruct (_ || _).
Qed.

(** X14.  With no history popup open, [ToggleHistory] opens one that
    becomes the current popup.  With an empty history it shows one
    notice and the focus stays where it was.  Otherwise it takes the
    focus; when no method or URL of the history holds a newline, row
    [i] of the popup is the line of entry [i], so that the row under
    the cursor is the index of an entry; and the cursor is put on the
    row of the history cursor when the popup has that row.  The
    history and the requests are not touched. *)
Theorem ToggleHistory_lists_entries (st : State) (maxX maxY : Z)
  (rs : list Request) :
0 <= viewIndex (app st) -> 0 <= historyIndex (app st) ->
gSize (gui st) = (maxX, maxY) ->
6 <= maxX < 2 ^ 31 -> 4 <= maxY < 2 ^ 31 ->
currentPopup (app st) <> HISTORY_VIEW ->
views (gui st) !! HISTORY_VIEW = None ->
Forall2 (fun p r => requests st !! p = Some r) (history (app st)) rs ->
Z.of_nat (length rs) < 2 ^ 31 ->
Forall (fun r => noNewline (Method r) && noNewline (Url r) = true) rs ->
exists st' v,
  ToggleHistory st = Some (st', true)
  /\ app st' = setCurrentPopup (app st) HISTORY_VIEW
  /\ requests st' = requests st /\ sent st' = sent st
  /\ views (gui st') !! HISTORY_VIEW = Some v
  /\ vTitle v = "History"
  /\ (rs = [] ->
      vBuffer v = "[!] No items in history"
      /\ (views (gui st) !! currentPopup (app st) = None ->
          currentView (gui st') = currentView (gui st)))
  /\ (rs <> [] ->
      currentView (gui st') = HISTORY_VIEW
      /\ (forall i r,
            rs !! i = Some r ->
            Gocui.Line v (Z.of_nat i)
            = Some (historyLine (Z.of_nat i) r))
      /\ vCursor v
         = (if historyIndex (app st)
               <? popupRows (Z.of_nat (length rs)) maxY
            then (0, historyIndex (app st)) else (0, 0))).
Proof.
intros Hvi Hhi Hsize HX HY Hpop Hnone Hrs Hlen Hnl.
pose proof (Forall2_length _ _ _ Hrs) as Hlen2.
destruct (CreatePopupView_spec HISTORY_VIEW 100
            (Z.of_nat (length (history (app st)))) (gui st) (app st)
            maxX maxY Hvi Hsize ltac:(lia) HY ltac:(lia) ltac:(lia))
  as (g0 & a0 & g' & Ec & E & Hviews & Hcur & Hupd & Hcv & Hgs).
destruct (closePopup_gSize _ _ _ _ _ Ec) as [_ Hv0].
assert (Hnone0 : views g0 !! HISTORY_VIEW = None).
{ rewrite Hv0. apply lookup_delete_None. now right. }
rewrite Hnone0 in Hviews.
assert (Ha0 : setCurrentPopup a0 HISTORY_VIEW
              = setCurrentPopup (app st) HISTORY_VIEW).
{ destruct (closePopup_cases (gui st) (app st) (currentPopup (app st)) Hvi)
    as [[_ Ec']|[_ (name & _ & Ec')]];
    rewrite Ec in Ec'; injection Ec' as -> ->; reflexivity. }
assert (Hh0 : history a0 = history (app st)
              /\ historyIndex a0 = historyIndex (app st)).
{ destruct (closePopup_spec (gui st) (app st) (currentPopup (app st)) Hvi)
    as (g0' & a0' & Ec' & Hh & Hi & _).
  rewrite Ec in Ec'. injection Ec' as <- <-. now split. }
destruct Hh0 as [Hh0 Hi0].
unfold ToggleHistory.
destruct (String.eqb_spec (currentPopup (app st)) HISTORY_VIEW) as [?|_];
  [contradiction|].
rewrite E. simpl mbind. simpl negb. cbv iota.
unfold Gocui.GetView at 1. rewrite Hviews, lookup_insert_eq. simpl mbind.
rewrite Ha0. simpl history. simpl historyIndex. rewrite ?Hh0, ?Hi0.
set (rect := (maxX / 2 - Z.min 100 (maxX - 4) / 2 - 1,
              maxY / 2
              - Z.min (Z.of_nat (length (history (app st)))) (maxY - 4) / 2
              - 1,
              maxX / 2 + Z.min 100 (maxX - 4) / 2,
              maxY / 2
              + Z.min (Z.of_nat (length (history (app st)))) (maxY - 4) / 2
              + 1)).
destruct (Nat.eqb_spec (length (history (app st))) 0) as [Hz|Hnz].
- eexists _, _. split; [reflexivity|].
  split; [reflexivity|]. split; [reflexivity|]. split; [reflexivity|].
  simpl. rewrite lookup_insert_eq. split; [reflexivity|].
  split; [now rewrite vTitle_setViewTextAndCursor|]. split.
  + intros _. split; [now rewrite vBuffer_setViewTextAndCursor|].
    intros Hno.
    destruct (closePopup_cases (gui st) (app st) (currentPopup (app st))
                Hvi) as [[_ Ec']|[[x Hx] _]]; [|congruence].
    rewrite Ec in Ec'. injection Ec' as -> ->. congruence.
  + intros Hne. destruct rs; [congruence|]. simpl in Hlen2. lia.
- destruct (writeHistory_spec (requests st) (history (app st)) rs
              (Gocui.SetTitle (mkView rect "" (0, 0) (0, 0) "") "History")
              0 Hrs) as (v1 & Ew & Hb & Hr & Hc & Ho & Ht).
  rewrite Ew. simpl mbind.
  eexists _, _. split; [reflexivity|].
  split; [reflexivity|]. split; [reflexivity|]. split; [reflexivity|].
  simpl. rewrite lookup_insert_eq. split; [reflexivity|].
  assert (Hsz : Gocui.Size v1
                = (2 * (Z.min 100 (maxX - 4) / 2),
                   popupRows (Z.of_nat (length rs)) maxY)).
  { unfold Gocui.Size, popupRows. rewrite Hr. simpl. rewrite <- Hlen2.
    f_equal; lia. }
  assert (Hcols : 2 <= 2 * (Z.min 100 (maxX - 4) / 2)).
  { assert (1 <= Z.min 100 (maxX - 4) / 2)
      by (apply Z.div_le_lower_bound; lia). lia. }
  assert (Hrows : 0 < popupRows (Z.of_nat (length rs)) maxY).
  { unfold popupRows.
    assert (0 <= Z.min (Z.of_nat (length rs)) (maxY - 4) / 2)
      by (apply Z.div_pos; lia). lia. }
  unfold Gocui.SetCursor. rewrite Hsz.
  destruct (Z.ltb_spec 0 0) as [?|_]; [lia|].
  destruct (Z.leb_spec (2 * (Z.min 100 (maxX - 4) / 2)) 0) as [?|_]; [lia|].
  destruct (Z.ltb_spec (historyIndex (app st)) 0) as [?|_]; [lia|].
  simpl orb.
  split.
  { destruct (_ <=? _); exact Ht. }
  split; [intros ->; simpl in Hlen2; congruence|].
  intros _. split.
  { unfold Gocui.SetCurrentView, Gocui.GetView. simpl.
    now rewrite lookup_insert_eq. }
  split.
  + intros i r Hi.
    assert (Hline : Gocui.Line v1 (Z.of_nat i)
                    = Some (historyLine (Z.of_nat i) r)).
    { unfold Gocui.Line. rewrite Hb, Ho. simpl vBuffer. simpl vOrigin.
      simpl snd. rewrite Z.add_0_r.
      change ("" +:+ ?x) with x.
      destruct rs as [|r0 rs']; [discriminate|].
      destruct (String.eqb_spec
                  (String.concat ""
                     (map (fun s => s +:+ String NL "")
                          (historyLines 0 (r0 :: rs')))) "") as [He|_].
      { exfalso. simpl historyLines in He. simpl map in He.
        rewrite concat_empty_cons, line_app in He.
        destruct (historyLine 0 r0); discriminate He. }
      destruct (Z.ltb_spec (Z.of_nat i) 0) as [?|_]; [lia|].
      rewrite SplitNL_historyLines by exact Hnl.
      rewrite Nat2Z.id, lookup_app_l
        by (rewrite historyLines_length; now apply lookup_lt_Some in Hi).
      now rewrite (historyLines_lookup _ 0 i r Hi). }
    destruct (_ <=? _); exact Hline.
  + destruct (Z.leb_spec (popupRows (Z.of_nat (length rs)) maxY)
                (historyIndex (app st))) as [H1|H1];
      destruct (Z.ltb_spec (historyIndex (app st))
                  (popupRows (Z.of_nat (length rs)) maxY)) as [H2|H2];
      try lia; simpl; [exact Hc|reflexivity].
Qed.

(** ** The method list *)

Lemma SetCursor_cases (v : View) (x y : Z) :
(Gocui.SetCursor v x y = v
 /\ ~ (0 <= x < fst (Gocui.Size v) /\ 0 <= y < snd (Gocui.Size v)))
\/ (Gocui.SetCursor v x y
    = mkView (vRect v) (vBuffer v) (x, y) (vOrigin v) (vTitle v)
    /\ 0 <= x < fst (Gocui.Size v) /\ 0 <= y < snd (Gocui.Size v)).
Proof.
unfold Gocui.SetCursor. destruct (Gocui.Size v) as [mx my]. simpl.
destruct (Z.ltb_spec x 0), (Z.leb_spec mx x), (Z.ltb_spec y 0),
  (Z.leb_spec my y); simpl; first [left; split; [reflexivity|lia]
                                  |right; split; [reflexivity|lia]].
Qed.

Lemma cursorInRows_SetCursor (v : View) (rows y : Z) :
cursorInRows v rows -> cursorInRows (Gocui.SetCursor v 0 y) rows.
Proof.
intros (Hr & Hc & Hx & Hy).
destruct (SetCursor_cases v 0 y) as [[-> _]|[-> [H1 H2]]].
- now repeat split.
- unfold cursorInRows, Gocui.Size in *. simpl. rewrite Hr in H2.
  repeat split; auto; lia.
Qed.

Lemma cursorInRows_Fprintln (v : View) (rows : Z) (s : string) :
cursorInRows v rows -> cursorInRows (Fprintln v s) rows.
Proof. intros H. exact H. Qed.

Lemma cursorInRows_pressArrows (keys : list bool) (v : View) (rows : Z) :
0 <= rows < 2 ^ 31 ->
cursorInRows v rows -> cursorInRows (pressArrows keys v) rows.
Proof.
intros Hrows. revert v. induction keys as [|k keys IH]; intros v Hv.
- exact Hv.
- apply IH. destruct Hv as (Hr & Hc & Hx & Hy).
  destruct k; unfold cursDown, cursUp;
    destruct (vCursor v) as [cx cy] eqn:Ecur; simpl in Hx; subst cx;
    apply cursorInRows_SetCursor; unfold cursorInRows; rewrite Ecur;
    auto.
Qed.

Lemma pressArrows_frame (keys : list bool) (v : View) :
vBuffer (pressArrows keys v) = vBuffer v.
Proof.
revert v. induction keys as [|k keys IH]; intros v; [reflexivity|].
simpl. rewrite IH.
destruct k; unfold cursDown, cursUp; destruct (vCursor v) as [cx cy];
  match goal with
  | |- context [Gocui.SetCursor v ?x ?y] =>
      destruct (SetCursor_cases v x y) as [[-> _]|[-> _]]; reflexivity
  end.
Qed.

Lemma writeMethods_spec (cur : string) (l : list string) (v : View)
  (i rows : Z) :
cursorInRows v rows ->
cursorInRows (writeMethods cur v i l) rows
/\ vBuffer (writeMethods cur v i l)
   = vBuffer v
     +:+ String.concat "" (map (fun s => s +:+ String NL "") l)
/\ vTitle (writeMethods cur v i l) = vTitle v
/\ vOrigin (writeMethods cur v i l) = vOrigin v
/\ (cur ∉ l -> vCursor (writeMethods cur v i l) = vCursor v)
/\ (forall k,
      NoDup l -> l !! k = Some cur ->
      0 <= i -> i + Z.of_nat k < rows ->
      vCursor (writeMethods cur v i l) = (0, i + Z.of_nat k)).
Proof.
revert v i. induction l as [|r l IH]; intros v i Hv.
- simpl. rewrite string_app_nil_r.
  split; [exact Hv|]. do 4 (split; [reflexivity|]).
  intros k _ Hk. discriminate.
- simpl writeMethods.
  set (v1 := if String.eqb cur r
             then Gocui.SetCursor (Fprintln v r) 0 i else Fprintln v r).
  assert (Hv1 : cursorInRows v1 rows).
  { unfold v1. destruct (String.eqb cur r);
      [apply cursorInRows_SetCursor|]; exact Hv. }
  assert (Hb1 : vBuffer v1 = vBuffer v +:+ r +:+ String NL ""
                /\ vTitle v1 = vTitle v /\ vOrigin v1 = vOrigin v).
  { unfold v1. destruct (String.eqb cur r); [|now repeat split].
    destruct (SetCursor_cases (Fprintln v r) 0 i) as [[-> _]|[-> _]];
      now repeat split. }
  destruct Hb1 as (Hb1 & Ht1 & Ho1).
  destruct (IH v1 (i + 1) Hv1) as (IH1 & IH2 & IH3 & IH4 & IH5 & IH6).
  split; [exact IH1|]. split.
  { rewrite IH2, Hb1. simpl map. rewrite concat_empty_cons.
    now rewrite !string_app_assoc. }
  split; [congruence|]. split; [congruence|]. split.
  + intros Hn. rewrite IH5.
    * unfold v1. destruct (String.eqb_spec cur r) as [->|_]; [|reflexivity].
      exfalso. apply Hn. apply list_elem_of_here.
    * intros Hin. apply Hn. now apply list_elem_of_further.
  + intros k Hnd Hk Hi Hlt. apply NoDup_cons in Hnd as [Hnr Hnd].
    destruct k as [|k].
    * injection Hk as ->. rewrite (IH5 Hnr). unfold v1.
      rewrite String.eqb_refl.
      destruct Hv as (Hr & Hc & _).
      destruct (SetCursor_cases (Fprintln v cur) 0 i)
        as [[_ Hno]|[-> _]].
      -- exfalso. apply Hno.
         change (Gocui.Size (Fprintln v cur)) with (Gocui.Size v). lia.
      -- simpl. f_equal. lia.
    * rewrite (IH6 k Hnd Hk) by lia. f_equal. lia.
Qed.

Lemma TrimSpace_METHODS (m : string) : m ∈ METHODS -> TrimSpace m = m.
Proof.
intros H. apply list_elem_of_In in H. simpl in H.
repeat (destruct H as [<-|H]; [reflexivity|]). destruct H.
Qed.

Lemma NoDup_METHODS : NoDup METHODS.
Proof.
apply NoDup_ListNoDup. unfold METHODS.
repeat (constructor; [simpl; intuition discriminate|]). constructor.
Qed.

(** X15.  The method list never selects past the methods.  Opened on a
    terminal of at least six columns and four rows, the list has at
    most nine rows; after any presses of the arrow keys its cursor is
    on a row [cy] with a method, Enter puts [METHODS[cy]] into the
    method view, and the popup is closed.  With at least thirteen rows
    of terminal the list opens with the cursor on the method that the
    method view holds, so that Enter alone leaves it as it is. *)
Theorem method_list_selects (g : Gui) (a : App) (maxX maxY : Z) (mv : View)
  (keys : list bool) :
0 <= viewIndex a ->
gSize g = (maxX, maxY) ->
6 <= maxX < 2 ^ 31 -> 4 <= maxY < 2 ^ 31 ->
currentPopup a <> METHOD_LIST_VIEW ->
currentPopup a <> REQUEST_METHOD_VIEW ->
views g !! METHOD_LIST_VIEW = None ->
views g !! REQUEST_METHOD_VIEW = Some mv ->
exists g1 a1 lv m g2 a2,
  ToggleMethodList g a = Some (g1, a1, true)
  /\ currentPopup a1 = METHOD_LIST_VIEW
  /\ currentView g1 = METHOD_LIST_VIEW
  /\ views g1 !! METHOD_LIST_VIEW = Some lv
  /\ snd (Gocui.Size lv) <= 9
  /\ METHODS !! Z.to_nat (snd (vCursor (pressArrows keys lv))) = Some m
  /\ methodListEnter
       (Gocui.putView g1 METHOD_LIST_VIEW (pressArrows keys lv)) a1
     = Some (g2, a2)
  /\ getViewValue g2 REQUEST_METHOD_VIEW = m
  /\ views g2 !! METHOD_LIST_VIEW = None
  /\ currentPopup a2 = ""
  /\ (13 <= maxY -> keys = [] -> TrimSpace (vBuffer mv) ∈ METHODS ->
      m = TrimSpace (vBuffer mv)).
Proof.
intros Hvi Hsize HX HY Hp1 Hp2 Hnone Hmv.
destruct (CreatePopupView_spec METHOD_LIST_VIEW 50
            (Z.of_nat (length METHODS)) g a maxX maxY Hvi Hsize
            ltac:(lia) HY ltac:(lia) ltac:(simpl; lia))
  as (g0 & a0 & g' & Ec & E & Hviews & Hcur & Hupd & Hcv & Hgs).
destruct (closePopup_gSize _ _ _ _ _ Ec) as [_ Hv0].
assert (Hnone0 : views g0 !! METHOD_LIST_VIEW = None).
{ rewrite Hv0. apply lookup_delete_None. now right. }
assert (Hmv0 : views g0 !! REQUEST_METHOD_VIEW = Some mv).
{ rewrite Hv0, lookup_delete_ne by congruence. exact Hmv. }
rewrite Hnone0 in Hviews.
assert (Hvi0 : viewIndex a0 = viewIndex a).
{ destruct (closePopup_spec g a (currentPopup a) Hvi)
    as (g0' & a0' & Ec' & _ & _ & Hv & _).
  rewrite Ec in Ec'. now injection Ec' as <- <-. }
set (rows := 2 * (Z.min (Z.of_nat (length METHODS)) (maxY - 4) / 2) + 1).
set (rect := (maxX / 2 - Z.min 50 (maxX - 4) / 2 - 1,
              maxY / 2
              - Z.min (Z.of_nat (length METHODS)) (maxY - 4) / 2 - 1,
              maxX / 2 + Z.min 50 (maxX - 4) / 2,
              maxY / 2
              + Z.min (Z.of_nat (length METHODS)) (maxY - 4) / 2 + 1))
  in *.
set (v0 := Gocui.SetTitle (mkView rect "" (0, 0) (0, 0) "") "Methods").
assert (Hrows : 1 <= rows <= 9).
{ unfold rows. change (Z.of_nat (length METHODS)) with 9.
  assert (0 <= Z.min 9 (maxY - 4) / 2 <= 9 / 2)
    by (split; [apply Z.div_pos; lia|apply Z.div_le_mono; lia]).
  change (9 / 2) with 4 in *. lia. }
assert (Hv0r : cursorInRows v0 rows).
{ unfold cursorInRows, Gocui.Size, v0, rect, rows.
  change (Z.of_nat (length METHODS)) with 9. simpl.
  assert (1 <= Z.min 50 (maxX - 4) / 2)
    by (apply Z.div_le_lower_bound; lia).
  assert (0 <= Z.min 9 (maxY - 4) / 2) by (apply Z.div_pos; lia).
  repeat split; lia. }
set (cur := getViewValue g' REQUEST_METHOD_VIEW).
destruct (writeMethods_spec cur METHODS v0 0 rows Hv0r)
  as (Hl1 & Hl2 & Hl3 & Hl4 & Hl5 & Hl6).
set (lv := writeMethods cur v0 0 METHODS) in *.
pose proof (cursorInRows_pressArrows keys lv rows ltac:(lia) Hl1) as Hk.
destruct Hk as (Hk1 & Hk2 & Hk3 & Hk4).
destruct (lookup_lt_is_Some_2 METHODS
            (Z.to_nat (snd (vCursor (pressArrows keys lv)))))
  as [m Hm]; [simpl length; lia|].
assert (Hcurv : cur = TrimSpace (vBuffer mv)).
{ unfold cur, getViewValue, Gocui.GetView.
  rewrite Hviews, lookup_insert_ne by discriminate. now rewrite Hmv0. }
assert (ET : ToggleMethodList g a
             = Some (Gocui.SetCurrentView
                       (Gocui.putView g' METHOD_LIST_VIEW lv)
                       METHOD_LIST_VIEW,
                     setCurrentPopup a0 METHOD_LIST_VIEW, true)).
{ unfold ToggleMethodList.
  destruct (String.eqb_spec (currentPopup a) METHOD_LIST_VIEW) as [?|_];
    [contradiction|].
  rewrite E. simpl mbind. simpl negb. cbv iota.
  unfold Gocui.GetView at 1. rewrite Hviews, lookup_insert_eq.
  reflexivity. }
set (g1 := Gocui.SetCurrentView (Gocui.putView g' METHOD_LIST_VIEW lv)
             METHOD_LIST_VIEW) in *.
assert (Hg1 : views g1 = <[METHOD_LIST_VIEW := lv]> (views g')
              /\ currentView g1 = METHOD_LIST_VIEW).
{ unfold g1, Gocui.SetCurrentView, Gocui.GetView. simpl.
  rewrite lookup_insert_eq. now split. }
destruct Hg1 as [Hg1v Hg1c].
set (g1' := Gocui.putView g1 METHOD_LIST_VIEW (pressArrows keys lv)).
assert (Hg1'm : views g1' !! REQUEST_METHOD_VIEW = Some mv).
{ unfold g1'. simpl. rewrite lookup_insert_ne by discriminate.
  rewrite Hg1v, lookup_insert_ne by discriminate.
  rewrite Hviews, lookup_insert_ne by discriminate. exact Hmv0. }
destruct (setViewTextAndCursorAt_spec g1' REQUEST_METHOD_VIEW m
            (ex_intro _ mv Hg1'm))
  as (g1'' & Es & Hs1 & Hs2 & Hs3 & Hs4).
destruct (closePopup_cases g1'' (setCurrentPopup a0 METHOD_LIST_VIEW)
            METHOD_LIST_VIEW ltac:(simpl; lia))
  as [[Hno _]|[_ (name & Hname & Ecl)]].
{ exfalso. rewrite Hs2 in Hno by discriminate.
  unfold g1' in Hno. simpl in Hno. now rewrite lookup_insert_eq in Hno. }
exists g1, (setCurrentPopup a0 METHOD_LIST_VIEW), lv, m.
eexists _, _.
split; [exact ET|]. split; [reflexivity|]. split; [exact Hg1c|].
split; [rewrite Hg1v; apply lookup_insert_eq|].
split; [destruct Hl1 as [-> _]; lia|].
split; [exact Hm|].
split.
{ assert (Hl : views g1' !! METHOD_LIST_VIEW
               = Some (pressArrows keys lv))
    by (unfold g1'; simpl; apply lookup_insert_eq).
  unfold methodListEnter, Gocui.GetView. fold g1'. rewrite Hl.
  simpl mbind.
  destruct (Z.ltb_spec (snd (vCursor (pressArrows keys lv))) 0) as [?|_];
    [lia|].
  rewrite Hm. simpl mbind. fold g1'. rewrite Es. simpl mbind.
  exact Ecl. }
assert (Hfinal : forall n v,
          n <> METHOD_LIST_VIEW -> views g1'' !! n = Some v ->
          views (Gocui.withCursor
                   (Gocui.SetCurrentView
                      (Gocui.DeleteView g1'' METHOD_LIST_VIEW) name) true)
          !! n = Some v).
{ intros n v Hn Hv. unfold Gocui.SetCurrentView.
  destruct (Gocui.GetView _ name); simpl;
    rewrite lookup_delete_ne by congruence; exact Hv. }
split.
{ unfold getViewValue, Gocui.GetView.
  unfold bufferOf, Gocui.GetView in Hs1.
  destruct (views g1'' !! REQUEST_METHOD_VIEW) as [v'|] eqn:Hv';
    [|discriminate Hs1].
  injection Hs1 as Hbuf.
  rewrite (Hfinal REQUEST_METHOD_VIEW v' ltac:(discriminate) Hv').
  rewrite Hbuf. apply TrimSpace_METHODS.
  now apply list_elem_of_lookup_2 in Hm. }
split.
{ unfold Gocui.SetCurrentView.
  destruct (Gocui.GetView _ name); simpl; apply lookup_delete_eq. }
split; [reflexivity|].
intros HmaxY -> Hin. simpl pressArrows in *.
apply list_elem_of_lookup_1 in Hin as [k Hk].
rewrite <- Hcurv in *.
assert (Hklt : (k < 9)%nat) by (apply lookup_lt_Some in Hk; exact Hk).
assert (Hrows9 : rows = 9).
{ unfold rows. change (Z.of_nat (length METHODS)) with 9.
  rewrite Z.min_l by lia. reflexivity. }
rewrite (Hl6 k NoDup_METHODS Hk) in Hm by lia.
simpl snd in Hm. rewrite Z.add_0_l, Nat2Z.id in Hm. congruence.
Qed.

(** * The layout *)

Lemma checkCoordinates_sound (f : Float32.float32) (g : Z -> Z)
  (fuel : nat) (k : Z) :
checkCoordinates f g fuel k = true ->
forall n, k <= n < k + Z.of_nat fuel ->
  GoInt.ofFloat32 (Float32.mul f (Float32.ofInt n)) = Some (g n).
Proof.
revert k. induction fuel as [|fuel IH]; intros k Hc n Hn; [lia|].
simpl in Hc.
destruct (GoInt.ofFloat32 (Float32.mul f (Float32.ofInt k))) as [z|] eqn:E;
  [|discriminate].
apply andb_true_iff in Hc as [Hz Hc]. apply Z.eqb_eq in Hz. subst z.
destruct (Z.eq_dec n k) as [->|Hne]; [exact E|].
apply (IH (k + 1) Hc). lia.
Qed.

Lemma fractions_checked :
forallb (fun '(f, g) => checkCoordinates f g (Z.to_nat (MAX_SIZE + 1)) 0)
        fractions = true.
Proof. vm_compute. reflexivity. Qed.

(** On a terminal of at most [MAX_SIZE] columns or rows the fractions
    of the layout give the integer quotients. *)
Lemma getCoordinate_fraction (f : Float32.float32) (g : Z -> Z)
  (off n : Z) :
(f, g) ∈ fractions ->
0 <= n <= MAX_SIZE ->
- 2 ^ 62 <= off <= 2 ^ 62 ->
getCoordinate (mkPosition f off) n = Some (g n + off) /\ 0 <= g n <= n.
Proof.
intros Hin Hn Habs.
pose proof fractions_checked as Hc. rewrite forallb_forall in Hc.
apply list_elem_of_In in Hin. pose proof (Hc _ Hin) as Hfg.
cbv beta iota in Hfg.
pose proof (checkCoordinates_sound f g _ 0 Hfg n) as Hs.
rewrite Z2Nat.id in Hs by (unfold MAX_SIZE; lia).
specialize (Hs ltac:(lia)).
unfold getCoordinate. cbn [pct abs].
rewrite Hs.
assert (Hg : 0 <= g n <= n).
{ unfold MAX_SIZE in Hn. unfold fractions in Hin. cbn [In] in Hin.
  destruct Hin as [E|[E|[E|[E|[E|[]]]]]]; injection E as _ <-.
  - lia.
  - split; [apply Z.div_pos; lia|apply Z.div_le_upper_bound; lia].
  - split; [apply Z.div_pos; lia|apply Z.div_le_upper_bound; lia].
  - split; [apply Z.div_pos; lia|apply Z.div_le_upper_bound; lia].
  - lia. }
split; [|exact Hg].
unfold GoInt.add. rewrite wrap_small; [reflexivity|].
unfold MAX_SIZE in Hn. lia.
Qed.

(** ** Coordinates *)

Lemma getCoordinate_0 (off n : Z) :
0 <= n <= MAX_SIZE -> - 2 ^ 62 <= off <= 2 ^ 62 ->
getCoordinate (mkPosition f32_0 off) n = Some off.
Proof.
intros Hn Ho.
destruct (getCoordinate_fraction f32_0 (fun _ => 0) off n) as [E _];
  [unfold fractions; in_list|exact Hn|exact Ho|].
rewrite E. reflexivity.
Qed.

Lemma getCoordinate_quarter (off n : Z) :
0 <= n <= MAX_SIZE -> - 2 ^ 62 <= off <= 2 ^ 62 ->
getCoordinate (mkPosition f32_quarter off) n = Some (n / 4 + off).
Proof.
intros Hn Ho.
destruct (getCoordinate_fraction f32_quarter (fun n => n / 4) off n)
  as [E _]; [unfold fractions; in_list|exact Hn|exact Ho|].
exact E.
Qed.

Lemma getCoordinate_0_3 (off n : Z) :
0 <= n <= MAX_SIZE -> - 2 ^ 62 <= off <= 2 ^ 62 ->
getCoordinate (mkPosition f32_0_3 off) n = Some (3 * n / 10 + off).
Proof.
intros Hn Ho.
destruct (getCoordinate_fraction f32_0_3 (fun n => 3 * n / 10) off n)
  as [E _]; [unfold fractions; in_list|exact Hn|exact Ho|].
exact E.
Qed.

Lemma getCoordinate_half (off n : Z) :
0 <= n <= MAX_SIZE -> - 2 ^ 62 <= off <= 2 ^ 62 ->
getCoordinate (mkPosition f32_half off) n = Some (n / 2 + off).
Proof.
intros Hn Ho.
destruct (getCoordinate_fraction f32_half (fun n => n / 2) off n)
  as [E _]; [unfold fractions; in_list|exact Hn|exact Ho|].
exact E.
Qed.

Lemma getCoordinate_1 (off n : Z) :
0 <= n <= MAX_SIZE -> - 2 ^ 62 <= off <= 2 ^ 62 ->
getCoordinate (mkPosition f32_1 off) n = Some (n + off).
Proof.
intros Hn Ho.
destruct (getCoordinate_fraction f32_1 (fun n => n) off n)
  as [E _]; [unfold fractions; in_list|exact Hn|exact Ho|].
exact E.
Qed.

Lemma setView_coordinates (g : Gui) (name : string) (p : viewPosition) :
setView g name p
= ('(c0, c1, c2, c3) ← coordinates p (fst (gSize g)) (snd (gSize g));
   Some (Gocui.SetView g name c0 c1 c2 c3)).
Proof.
unfold setView, coordinates. destruct (gSize g) as [maxX maxY]. simpl.
destruct (getCoordinate (x0 p) (maxX + 1)); [|reflexivity]. simpl.
destruct (getCoordinate (y0 p) (maxY + 1)); [|reflexivity]. simpl.
destruct (getCoordinate (x1 p) (maxX + 1)); [|reflexivity]. simpl.
destruct (getCoordinate (y1 p) (maxY + 1)); reflexivity.
Qed.

Ltac coordinates_of P :=
  match goal with
  | |- context [positionOf ?n] =>
      let E := fresh "E" in
      assert (E : positionOf n = P) by (vm_compute; reflexivity);
      rewrite E; clear E
  end;
  unfold coordinates; cbn [x0 y0 x1 y1];
  rewrite ?getCoordinate_0, ?getCoordinate_quarter, ?getCoordinate_0_3,
    ?getCoordinate_half, ?getCoordinate_1 by (unfold MAX_SIZE in *; lia);
  cbn [mbind option_bind].

(** The coordinates of the ten views of the layout. *)
Lemma coordinates_layout (name : string) (maxX maxY : Z) :
name ∈ layoutNames ->
0 <= maxX < MAX_SIZE -> 0 <= maxY < MAX_SIZE ->
coordinates (positionOf name) maxX maxY
= Some (layoutRect name maxX maxY).
Proof.
intros Hin HX HY. apply list_elem_of_In in Hin. simpl in Hin.
destruct Hin as [<-|[<-|[<-|[<-|[<-|[<-|[<-|[<-|[<-|[<-|[]]]]]]]]]]].
- coordinates_of (mkViewPosition (mkPosition f32_0 0) (mkPosition f32_0 0)
                    (mkPosition f32_1 (-2)) (mkPosition f32_0 3)).
  reflexivity.
- coordinates_of (mkViewPosition (mkPosition f32_0 0) (mkPosition f32_0 3)
                    (mkPosition f32_0_3 0) (mkPosition f32_quarter 0)).
  unfold layoutRect. cbn. now rewrite !Z.add_0_r.
- coordinates_of (mkViewPosition (mkPosition f32_0 0)
                    (mkPosition f32_quarter 0)
                    (mkPosition f32_0_3 0) (mkPosition f32_quarter 2)).
  unfold layoutRect. cbn. now rewrite !Z.add_0_r.
- coordinates_of (mkViewPosition (mkPosition f32_0 0)
                    (mkPosition f32_quarter 2)
                    (mkPosition f32_0_3 0) (mkPosition f32_half 1)).
  unfold layoutRect. cbn. now rewrite !Z.add_0_r.
- coordinates_of (mkViewPosition (mkPosition f32_0 0) (mkPosition f32_half 1)
                    (mkPosition f32_0_3 0) (mkPosition f32_1 (-3))).
  unfold layoutRect. cbn. now rewrite !Z.add_0_r.
- coordinates_of (mkViewPosition (mkPosition f32_0_3 0) (mkPosition f32_0 3)
                    (mkPosition f32_1 (-2)) (mkPosition f32_quarter 2)).
  unfold layoutRect. cbn. now rewrite !Z.add_0_r.
- coordinates_of (mkViewPosition (mkPosition f32_0_3 0)
                    (mkPosition f32_quarter 2)
                    (mkPosition f32_1 (-2)) (mkPosition f32_1 (-3))).
  unfold layoutRect. cbn. now rewrite !Z.add_0_r.
- coordinates_of (mkViewPosition (mkPosition f32_0 (-1))
                    (mkPosition f32_1 (-4))
                    (mkPosition f32_1 0) (mkPosition f32_1 (-1))).
  unfold layoutRect. cbn. now rewrite !Z.add_0_r.
- coordinates_of (mkViewPosition (mkPosition f32_0 (-1))
                    (mkPosition f32_1 (-3))
                    (mkPosition f32_0 8) (mkPosition f32_1 (-1))).
  reflexivity.
- coordinates_of (mkViewPosition (mkPosition f32_0 7) (mkPosition f32_1 (-3))
                    (mkPosition f32_1 (-1)) (mkPosition f32_1 (-1))).
  reflexivity.
Qed.
(** ** [App.Layout] *)

Lemma layoutViews_spec (props : gmap string viewProperties)
  (names : list string) (g : Gui) (maxX maxY : Z) :
gSize g = (maxX, maxY) ->
NoDup names ->
(forall name, name ∈ names ->
   exists a b c d,
     coordinates (positionOf name) maxX maxY = Some (a, b, c, d)
     /\ a < c /\ b < d) ->
exists g',
  layoutViews props names g = Some (g', true)
  /\ gSize g' = gSize g /\ updates g' = updates g
  /\ currentView g' = currentView g /\ gCursor g' = gCursor g
  /\ (forall n, n ∉ names -> views g' !! n = views g !! n)
  /\ (forall n a b c d,
        n ∈ names ->
        coordinates (positionOf n) maxX maxY = Some (a, b, c, d) ->
        views g' !! n
        = Some (match views g !! n with
                | Some v =>
                    mkView (a, b, c, d) (vBuffer v) (vCursor v) (vOrigin v)
                           (vTitle v)
                | None =>
                    setViewProperties props
                      (mkView (a, b, c, d) "" (0, 0) (0, 0) "") n
                end)).
Proof.
intros Hsize Hnd Hco. revert g Hsize.
induction names as [|name names IH]; intros g Hsize.
- exists g. simpl. do 6 (split; [reflexivity|]).
  intros n a b c d Hn. now apply elem_of_nil in Hn.
- apply NoDup_cons in Hnd as [Hnin Hnd].
  destruct (Hco name ltac:(apply list_elem_of_here))
    as (a & b & c & d & Ec & Hac & Hbd).
  assert (Hco' : forall n, n ∈ names ->
            exists a b c d,
              coordinates (positionOf n) maxX maxY = Some (a, b, c, d)
              /\ a < c /\ b < d)
    by (intros n Hn; apply Hco; now apply list_elem_of_further).
  simpl layoutViews. rewrite setView_coordinates, Hsize. simpl fst.
  simpl snd. rewrite Ec. cbn [mbind option_bind].
  unfold Gocui.SetView.
  destruct (Z.leb_spec c a) as [?|_]; [lia|].
  destruct (Z.leb_spec d b) as [?|_]; [lia|].
  cbn [orb]. unfold Gocui.GetView at 1.
  destruct (views g !! name) as [v0|] eqn:Hv0.
  + destruct (IH Hnd Hco'
               (Gocui.putView g name
                  (mkView (a, b, c, d) (vBuffer v0) (vCursor v0)
                          (vOrigin v0) (vTitle v0))) Hsize)
      as (g' & E & H1 & H2 & H3 & H4 & H5 & H6).
    exists g'. split; [exact E|].
    split; [rewrite H1; exact Hsize|]. split; [exact H2|].
    split; [exact H3|].
    split; [exact H4|]. split.
    * intros n Hn. rewrite H5
        by (intros Hin; apply Hn; now apply list_elem_of_further).
      simpl. apply lookup_insert_ne. intros <-. apply Hn.
      apply list_elem_of_here.
    * intros n a' b' c' d' Hn Ec'. apply elem_of_cons in Hn as [->|Hn].
      -- rewrite H5 by exact Hnin. simpl. rewrite lookup_insert_eq.
         rewrite Ec in Ec'. injection Ec' as <- <- <- <-.
         now rewrite Hv0.
      -- rewrite (H6 n a' b' c' d' Hn Ec'). simpl.
         rewrite lookup_insert_ne by (intros <-; contradiction).
         reflexivity.
  + unfold Gocui.GetView. simpl views. rewrite lookup_insert_eq.
    cbn [mbind option_bind].
    set (g1 := Gocui.putView _ name _).
    destruct (IH Hnd Hco' g1 Hsize)
      as (g' & E & H1 & H2 & H3 & H4 & H5 & H6).
    exists g'. split; [exact E|].
    split; [rewrite H1; exact Hsize|]. split; [exact H2|].
    split; [exact H3|].
    split; [exact H4|]. split.
    * intros n Hn. rewrite H5
        by (intros Hin; apply Hn; now apply list_elem_of_further).
      unfold g1. simpl. rewrite !lookup_insert_ne; [reflexivity| |];
        intros <-; apply Hn; apply list_elem_of_here.
    * intros n a' b' c' d' Hn Ec'. apply elem_of_cons in Hn as [->|Hn].
      -- rewrite H5 by exact Hnin. unfold g1. simpl.
         rewrite lookup_insert_eq.
         rewrite Ec in Ec'. injection Ec' as <- <- <- <-.
         now rewrite Hv0.
      -- rewrite (H6 n a' b' c' d' Hn Ec'). unfold g1. simpl.
         rewrite !lookup_insert_ne by (intros <-; contradiction).
         reflexivity.
Qed.

(** X16.  On a terminal of fewer than 60 columns or 20 rows [Layout]
    touches no view but the error view.  With at least two columns
    and two rows it creates the error view over the whole terminal,
    with the title [Error] and one line of text, and hides the
    cursor; when the view is there already it only moves it, so the
    text is written once.  With fewer than two columns or rows the
    view has no size, and [Layout] returns the error of [SetView]
    with nothing changed. *)
Theorem Layout_too_small (scheme : string) (refresh : App -> View -> View)
  (props : gmap string viewProperties) (g : Gui) (a : App) (maxX maxY : Z) :
gSize g = (maxX, maxY) ->
0 <= maxX < MAX_SIZE -> 0 <= maxY < MAX_SIZE ->
maxX < MIN_WIDTH \/ maxY < MIN_HEIGHT ->
(maxX < 2 \/ maxY < 2 ->
 Layout scheme refresh props g a = Some (g, a, props, false))
/\ (2 <= maxX -> 2 <= maxY ->
    views g !! ERROR_VIEW = None ->
    Layout scheme refresh props g a
    = Some (Gocui.withCursor
              (Gocui.putView g ERROR_VIEW
                 (mkView (0, 0, maxX - 1, maxY - 1)
                    ("Terminal is too small" +:+ String NL "")
                    (0, 0) (0, 0) "Error"))
              false,
            a, props, true))
/\ (2 <= maxX -> 2 <= maxY ->
    forall v,
      views g !! ERROR_VIEW = Some v ->
      Layout scheme refresh props g a
      = Some (Gocui.putView g ERROR_VIEW
                (mkView (0, 0, maxX - 1, maxY - 1) (vBuffer v) (vCursor v)
                        (vOrigin v) (vTitle v)),
              a, props, true)).
Proof.
intros Hsize HX HY Hsmall.
assert (Ec : coordinates (positionOf ERROR_VIEW) maxX maxY
             = Some (0, 0, maxX - 1, maxY - 1)).
{ coordinates_of (mkViewPosition (mkPosition f32_0 0) (mkPosition f32_0 0)
                    (mkPosition f32_1 (-2)) (mkPosition f32_1 (-2))).
  do 2 f_equal; [f_equal|]; lia. }
assert (El : Layout scheme refresh props g a
             = match Gocui.SetView g ERROR_VIEW 0 0 (maxX - 1) (maxY - 1)
               with
               | Gocui.SetViewError => Some (g, a, props, false)
               | Gocui.SetViewOk g' => Some (g', a, props, true)
               | Gocui.SetViewUnknown g' =>
                   v ← Gocui.GetView g' ERROR_VIEW;
                   Some (Gocui.withCursor
                           (Gocui.putView g' ERROR_VIEW
                              (Fprintln (Gocui.SetTitle v "Error")
                                        "Terminal is too small"))
                           false,
                         a, props, true)
               end).
{ unfold Layout. rewrite Hsize.
  assert (Hb : (maxX <? MIN_WIDTH) || (maxY <? MIN_HEIGHT) = true).
  { apply orb_true_iff. rewrite !Z.ltb_lt. exact Hsmall. }
  rewrite Hb, setView_coordinates, Hsize. simpl fst. simpl snd.
  rewrite Ec. reflexivity. }
rewrite El. unfold Gocui.SetView. split; [|split].
- intros Hs.
  assert (Hb : (maxX - 1 <=? 0) || (maxY - 1 <=? 0) = true).
  { apply orb_true_iff. rewrite !Z.leb_le. lia. }
  now rewrite Hb.
- intros H2X H2Y Hnone.
  destruct (Z.leb_spec (maxX - 1) 0) as [?|_]; [lia|].
  destruct (Z.leb_spec (maxY - 1) 0) as [?|_]; [lia|].
  cbn [orb]. unfold Gocui.GetView. rewrite Hnone. simpl views.
  rewrite lookup_insert_eq. cbn [mbind option_bind].
  unfold Gocui.withCursor, Gocui.putView, Gocui.withViews. simpl.
  rewrite insert_insert_eq. reflexivity.
- intros H2X H2Y v Hv.
  destruct (Z.leb_spec (maxX - 1) 0) as [?|_]; [lia|].
  destruct (Z.leb_spec (maxY - 1) 0) as [?|_]; [lia|].
  cbn [orb]. unfold Gocui.GetView. rewrite Hv. reflexivity.
Qed.
Lemma App_setView_views (g : Gui) (a : App) :
viewIndexInv a ->
exists g' a' err,
  App_setView g a = Some (g', a', err)
  /\ gSize g' = gSize g
  /\ views g' = delete (currentPopup a) (views g)
  /\ viewIndex a' = viewIndex a
  /\ history a' = history a /\ historyIndex a' = historyIndex a.
Proof.
intros Hinv.
destruct (App_setView_spec g a Hinv)
  as (g' & a' & err & E & Hv & Hh & Hi & _).
exists g', a', err. split; [exact E|].
unfold App_setView in E.
destruct (closePopup g a (currentPopup a)) as [[g0 a0]|] eqn:Ec;
  [|discriminate E].
destruct (closePopup_gSize _ _ _ _ _ Ec) as [Hs0 Hv0].
cbn [mbind option_bind] in E.
destruct (if viewIndex a0 <? 0 then None
          else VIEWS !! Z.to_nat (viewIndex a0)) as [name|];
  [|discriminate E].
cbn [mbind option_bind] in E. injection E as <- <- <-.
unfold Gocui.SetCurrentView.
destruct (Gocui.GetView g0 name); simpl; rewrite <- ?Hs0, <- ?Hv0; auto.
Qed.

Lemma layoutRect_inside (name : string) (maxX maxY : Z) :
name ∈ layoutNames ->
MIN_WIDTH <= maxX -> MIN_HEIGHT <= maxY ->
let '(a, b, c, d) := layoutRect name maxX maxY in
-1 <= a /\ a < c /\ c <= maxX + 1 /\ 0 <= b /\ b < d /\ d <= maxY.
Proof.
unfold MIN_WIDTH, MIN_HEIGHT. intros Hin HX HY.
pose proof (Z.div_mod (3 * (maxX + 1)) 10 ltac:(lia)).
pose proof (Z.mod_pos_bound (3 * (maxX + 1)) 10 ltac:(lia)).
pose proof (Z.div_mod (maxY + 1) 4 ltac:(lia)).
pose proof (Z.mod_pos_bound (maxY + 1) 4 ltac:(lia)).
pose proof (Z.div_mod (maxY + 1) 2 ltac:(lia)).
pose proof (Z.mod_pos_bound (maxY + 1) 2 ltac:(lia)).
apply list_elem_of_In in Hin. simpl in Hin.
destruct Hin as [<-|[<-|[<-|[<-|[<-|[<-|[<-|[<-|[<-|[<-|[]]]]]]]]]]];
  unfold layoutRect; cbn [String.eqb Ascii.eqb Bool.eqb URL_VIEW
    URL_PARAMS_VIEW REQUEST_METHOD_VIEW REQUEST_DATA_VIEW
    REQUEST_HEADERS_VIEW RESPONSE_HEADERS_VIEW RESPONSE_BODY_VIEW
    STATUSLINE_VIEW SEARCH_PROMPT_VIEW SEARCH_VIEW]; cbv zeta; lia.
Qed.

Lemma NoDup_layoutNames : NoDup layoutNames.
Proof.
apply NoDup_ListNoDup. unfold layoutNames.
repeat (constructor; [simpl; intuition discriminate|]). constructor.
Qed.

(** X17.  On a terminal of at least 60 columns and 20 rows [Layout]
    succeeds and all ten views of the layout are there, each in its
    rectangle, which has a positive size and lies inside the terminal;
    the error view is gone.  When there was no error view, a view that
    was there before keeps its text, cursor, origin and title and is
    only moved, a view that was missing gets the title and the text of
    its properties, and nothing else changes but the status line,
    which is refreshed.  The index of the current view and the history
    are never touched. *)
Theorem Layout_places_views (scheme : string)
  (refresh : App -> View -> View) (props : gmap string viewProperties)
  (g : Gui) (a : App) (maxX maxY : Z) :
viewIndexInv a ->
gSize g = (maxX, maxY) ->
MIN_WIDTH <= maxX < MAX_SIZE -> MIN_HEIGHT <= maxY < MAX_SIZE ->
exists g' a' props',
  Layout scheme refresh props g a = Some (g', a', props', true)
  /\ props'
     = (if negb (String.eqb scheme "") && negb (HasSuffix scheme "://")
        then <[URL_VIEW :=
                 let p := propertiesOf props URL_VIEW in
                 mkViewProperties (title p) (frame p) (editable p) (wrap p)
                                  (scheme +:+ "://")]> props
        else props)
  /\ views g' !! ERROR_VIEW = None
  /\ viewIndex a' = viewIndex a
  /\ history a' = history a /\ historyIndex a' = historyIndex a
  /\ (forall name,
        name ∈ layoutNames ->
        exists v x0 y0 x1 y1,
          views g' !! name
          = Some (if String.eqb name STATUSLINE_VIEW then refresh a' v
                  else v)
          /\ vRect v = layoutRect name maxX maxY
          /\ vRect v = (x0, y0, x1, y1)
          /\ -1 <= x0 /\ x0 < x1 /\ x1 <= maxX + 1
          /\ 0 <= y0 /\ y0 < y1 /\ y1 <= maxY)
  /\ (views g !! ERROR_VIEW = None ->
      a' = a /\ currentView g' = currentView g
      /\ gCursor g' = gCursor g /\ updates g' = updates g
      /\ (forall n, n ∉ layoutNames -> views g' !! n = views g !! n)
      /\ (forall name v0,
            name ∈ layoutNames -> name <> STATUSLINE_VIEW ->
            views g !! name = Some v0 ->
            views g' !! name
            = Some (mkView (layoutRect name maxX maxY) (vBuffer v0)
                           (vCursor v0) (vOrigin v0) (vTitle v0)))
      /\ (forall name,
            name ∈ layoutNames -> name <> STATUSLINE_VIEW ->
            views g !! name = None ->
            exists v,
              views g' !! name = Some v
              /\ vBuffer v = text (propertiesOf props' name)
              /\ vTitle v = title (propertiesOf props' name))).
Proof.
intros Hinv Hsize HX HY.
set (props' := if negb (String.eqb scheme "")
                  && negb (HasSuffix scheme "://")
               then <[URL_VIEW :=
                        let p := propertiesOf props URL_VIEW in
                        mkViewProperties (title p) (frame p) (editable p)
                          (wrap p) (scheme +:+ "://")]> props
               else props).
(* the state before the views are placed *)
assert (Hpre : exists g1 a1,
          match Gocui.GetView g ERROR_VIEW with
          | Some _ =>
              '(g', a', _) ← App_setView
                               (Gocui.withCursor
                                  (Gocui.DeleteView g ERROR_VIEW) true) a;
              Some (g', a')
          | None => Some (g, a)
          end = Some (g1, a1)
          /\ gSize g1 = (maxX, maxY)
          /\ views g1 !! ERROR_VIEW = None
          /\ viewIndex a1 = viewIndex a
          /\ history a1 = history a /\ historyIndex a1 = historyIndex a
          /\ (views g !! ERROR_VIEW = None -> g1 = g /\ a1 = a)).
{ unfold Gocui.GetView.
  destruct (views g !! ERROR_VIEW) as [ve|] eqn:Hve.
  - destruct (App_setView_views
                (Gocui.withCursor (Gocui.DeleteView g ERROR_VIEW) true) a
                Hinv)
      as (g1 & a1 & err & E & Hs & Hv & H1 & H2 & H3).
    exists g1, a1. rewrite E. split; [reflexivity|].
    split; [rewrite Hs; exact Hsize|].
    split; [|split; [exact H1|split; [exact H2|split; [exact H3|]]]].
    + rewrite Hv. simpl. apply lookup_delete_None. right.
      apply lookup_delete_eq.
    + intros [=].
  - exists g, a. repeat split; auto. }
destruct Hpre as (g1 & a1 & Epre & Hs1 & Herr1 & Hvi1 & Hh1 & Hhi1 & Hsame).
assert (Hco : forall name, name ∈ layoutNames ->
          exists a b c d,
            coordinates (positionOf name) maxX maxY = Some (a, b, c, d)
            /\ a < c /\ b < d).
{ intros name Hin.
  pose proof (layoutRect_inside name maxX maxY Hin ltac:(lia) ltac:(lia))
    as Hr.
  rewrite (coordinates_layout name maxX maxY Hin)
    by (unfold MIN_WIDTH, MIN_HEIGHT in *; lia).
  destruct (layoutRect name maxX maxY) as [[[x0 y0] x1] y1].
  exists x0, y0, x1, y1. split; [reflexivity|lia]. }
destruct (layoutViews_spec props' layoutNames g1 maxX maxY Hs1
            NoDup_layoutNames Hco)
  as (g2 & El & Hs2 & Hu2 & Hc2 & Hcur2 & Hout & Hin2).
assert (Hrect : forall name,
          name ∈ layoutNames ->
          views g2 !! name
          = Some (match views g1 !! name with
                  | Some v =>
                      mkView (layoutRect name maxX maxY) (vBuffer v)
                             (vCursor v) (vOrigin v) (vTitle v)
                  | None =>
                      setViewProperties props'
                        (mkView (layoutRect name maxX maxY) "" (0, 0)
                                (0, 0) "") name
                  end)).
{ intros name Hin.
  pose proof (coordinates_layout name maxX maxY Hin
                ltac:(unfold MIN_WIDTH in *; lia)
                ltac:(unfold MIN_HEIGHT in *; lia)) as Ec.
  destruct (layoutRect name maxX maxY) as [[[x0 y0] x1] y1].
  exact (Hin2 name x0 y0 x1 y1 Hin Ec). }
assert (Hsv : exists sv,
          views g2 !! STATUSLINE_VIEW = Some sv
          /\ vRect sv = layoutRect STATUSLINE_VIEW maxX maxY).
{ rewrite (Hrect STATUSLINE_VIEW) by (unfold layoutNames; in_list).
  destruct (views g1 !! STATUSLINE_VIEW); eexists; split;
    try reflexivity.
  unfold setViewProperties, setViewTextAndCursor, Gocui.SetCursor.
  destruct (Gocui.Size _) as [mx my]. now destruct (_ || _). }
destruct Hsv as (sv & Hsv & Hsvr).
assert (EL : Layout scheme refresh props g a
             = Some (Gocui.putView g2 STATUSLINE_VIEW (refresh a1 sv),
                     a1, props', true)).
{ unfold Layout. rewrite Hsize.
  destruct (Z.ltb_spec maxX MIN_WIDTH) as [?|_]; [lia|].
  destruct (Z.ltb_spec maxY MIN_HEIGHT) as [?|_]; [lia|].
  cbn [orb]. rewrite Epre. cbn [mbind option_bind]. fold props'.
  rewrite El. cbn [mbind option_bind negb].
  unfold refreshStatusLine, Gocui.GetView. rewrite Hsv. reflexivity. }
exists (Gocui.putView g2 STATUSLINE_VIEW (refresh a1 sv)), a1, props'.
split; [exact EL|]. split; [reflexivity|].
split.
{ simpl. rewrite lookup_insert_ne by discriminate.
  rewrite Hout; [exact Herr1|].
  intros Hin. apply list_elem_of_In in Hin. simpl in Hin.
  intuition discriminate. }
split; [exact Hvi1|]. split; [exact Hh1|]. split; [exact Hhi1|].
assert (Hrv : forall name v,
          name ∈ layoutNames ->
          views g2 !! name = Some v ->
          vRect v = layoutRect name maxX maxY).
{ intros name v Hin Hv. rewrite (Hrect name Hin) in Hv.
  injection Hv as <-. destruct (views g1 !! name); [reflexivity|].
  unfold setViewProperties, setViewTextAndCursor, Gocui.SetCursor.
  destruct (Gocui.Size _) as [mx my]. now destruct (_ || _). }
split.
{ intros name Hin.
  pose proof (layoutRect_inside name maxX maxY Hin ltac:(lia) ltac:(lia))
    as Hr.
  destruct (String.eqb_spec name STATUSLINE_VIEW) as [->|Hne].
  - destruct (layoutRect STATUSLINE_VIEW maxX maxY)
      as [[[x0 y0] x1] y1] eqn:Er.
    exists sv, x0, y0, x1, y1. simpl. rewrite lookup_insert_eq.
    split; [reflexivity|]. split; [exact Hsvr|]. split; [exact Hsvr|].
    exact Hr.
  - assert (Hv : exists v, views g2 !! name = Some v)
      by (rewrite (Hrect name Hin); eauto).
    destruct Hv as [v Hv].
    pose proof (Hrv name v Hin Hv) as Hvr.
    destruct (layoutRect name maxX maxY) as [[[x0 y0] x1] y1] eqn:Er.
    exists v, x0, y0, x1, y1. simpl.
    rewrite lookup_insert_ne by congruence.
    split; [exact Hv|]. split; [exact Hvr|]. split; [exact Hvr|].
    exact Hr. }
intros Hnoerr. destruct (Hsame Hnoerr) as [-> ->].
split; [reflexivity|]. split; [exact Hc2|]. split; [exact Hcur2|].
split; [exact Hu2|]. split.
{ intros n Hn. simpl. rewrite lookup_insert_ne.
  - now apply Hout.
  - intros <-. apply Hn. unfold layoutNames. in_list. }
split.
- intros name v0 Hin Hne Hv0. simpl.
  rewrite lookup_insert_ne by congruence.
  rewrite (Hrect name Hin), Hv0. reflexivity.
- intros name Hin Hne Hv0. simpl.
  rewrite lookup_insert_ne by congruence.
  rewrite (Hrect name Hin), Hv0. eexists. split; [reflexivity|].
  unfold setViewProperties.
  now rewrite vBuffer_setViewTextAndCursor, vTitle_setViewTextAndCursor.
Qed.

(** ** The popup of a message and the autocompletion box *)

(** X18.  [popup] on a terminal of any size: when no popup view is
    there it creates one around the centre of the terminal, one row
    high and at least as wide as the message, with the title [Info]
    and the message as its text; when the view is there already, it
    is only moved and keeps the text of the earlier message. *)
Theorem popup_fits_message (g : Gui) (msg : string) (maxX maxY : Z) :
gSize g = (maxX, maxY) ->
0 <= maxX < MAX_SIZE -> 0 <= maxY < MAX_SIZE ->
Z.of_nat (String.length msg) < 2 ^ 31 ->
let len := Z.of_nat (String.length msg) in
let rect := ((maxX + 1) / 2 - len / 2 - 1, (maxY + 1) / 2 - 1,
             (maxX + 1) / 2 + len / 2 + 1, (maxY + 1) / 2 + 1) in
(views g !! POPUP_VIEW = None ->
 exists v,
   popup g msg = Some (Gocui.putView g POPUP_VIEW v)
   /\ vRect v = rect /\ vBuffer v = msg /\ vTitle v = "Info"
   /\ Gocui.Size v = (2 * (len / 2) + 1, 1)
   /\ len <= fst (Gocui.Size v))
/\ (forall v0,
      views g !! POPUP_VIEW = Some v0 ->
      popup g msg
      = Some (Gocui.putView g POPUP_VIEW
                (mkView rect (vBuffer v0) (vCursor v0) (vOrigin v0)
                        (vTitle v0)))).
Proof.
intros Hsize HX HY Hlen len rect.
assert (Hl2 : 0 <= len / 2 <= len)
  by (split; [apply Z.div_pos; lia|apply Z.div_le_upper_bound; lia]).
assert (Eq1 : Z.quot (- len) 2 - 1 = - (len / 2) - 1)
  by (rewrite Z.quot_opp_l, Z.quot_div_nonneg by lia; reflexivity).
assert (Eq2 : Z.quot len 2 + 1 = len / 2 + 1)
  by (rewrite Z.quot_div_nonneg by lia; reflexivity).
assert (E : popup g msg
            = match Gocui.SetView g POPUP_VIEW
                      ((maxX + 1) / 2 - len / 2 - 1) ((maxY + 1) / 2 - 1)
                      ((maxX + 1) / 2 + len / 2 + 1) ((maxY + 1) / 2 + 1)
              with
              | Gocui.SetViewUnknown g' =>
                  v ← Gocui.GetView g' POPUP_VIEW;
                  Some (Gocui.putView g' POPUP_VIEW
                          (setViewTextAndCursor (Gocui.SetTitle v "Info")
                                                msg))
              | Gocui.SetViewOk g' => Some g'
              | Gocui.SetViewError => Some g
              end).
{ unfold popup. rewrite setView_coordinates, Hsize. simpl fst. simpl snd.
  fold len. rewrite Eq1, Eq2.
  unfold coordinates. cbn [x0 y0 x1 y1].
  rewrite !getCoordinate_half by (unfold MAX_SIZE in *; lia).
  cbn [mbind option_bind].
  replace ((maxX + 1) / 2 + (- (len / 2) - 1))
    with ((maxX + 1) / 2 - len / 2 - 1) by lia.
  replace ((maxY + 1) / 2 + -1) with ((maxY + 1) / 2 - 1) by lia.
  replace ((maxX + 1) / 2 + (len / 2 + 1))
    with ((maxX + 1) / 2 + len / 2 + 1) by lia.
  reflexivity. }
rewrite E. unfold Gocui.SetView.
destruct (Z.leb_spec ((maxX + 1) / 2 + len / 2 + 1)
            ((maxX + 1) / 2 - len / 2 - 1)) as [?|_]; [lia|].
destruct (Z.leb_spec ((maxY + 1) / 2 + 1) ((maxY + 1) / 2 - 1)) as [?|_];
  [lia|].
cbn [orb]. unfold Gocui.GetView. split.
- intros Hnone. rewrite Hnone. simpl views. rewrite lookup_insert_eq.
  cbn [mbind option_bind].
  eexists. split.
  { unfold Gocui.putView, Gocui.withViews. simpl.
    rewrite insert_insert_eq. reflexivity. }
  assert (Hr : vRect (setViewTextAndCursor
                        (Gocui.SetTitle (mkView rect "" (0, 0) (0, 0) "")
                                        "Info") msg) = rect).
  { unfold setViewTextAndCursor, Gocui.SetCursor.
    destruct (Gocui.Size _) as [mx my]. now destruct (_ || _). }
  split; [exact Hr|].
  rewrite vBuffer_setViewTextAndCursor, vTitle_setViewTextAndCursor.
  split; [reflexivity|]. split; [reflexivity|].
  unfold Gocui.Size. fold rect. rewrite Hr. unfold rect. simpl fst.
  assert (Hm := Z.div_mod len 2 ltac:(lia)).
  assert (Hb := Z.mod_pos_bound len 2 ltac:(lia)).
  split; [f_equal; lia|lia].
- intros v0 Hv0. rewrite Hv0. reflexivity.
Qed.

Lemma fold_widest (l : list string) (w0 : Z) :
0 <= w0 ->
fold_left (fun w completion =>
             let thisCompletionWidth :=
               Z.of_nat (String.length completion) in
             if w <? thisCompletionWidth then thisCompletionWidth else w)
          l w0
= Z.max w0 (widest l).
Proof.
revert w0. induction l as [|c l IH]; intros w0 Hw0.
- unfold widest. simpl. lia.
- simpl fold_left.
  assert (0 <= widest l)
    by (clear; induction l; unfold widest in *; simpl; lia).
  change (widest (c :: l))
    with (Z.max (Z.of_nat (String.length c)) (widest l)).
  destruct (Z.ltb_spec w0 (Z.of_nat (String.length c)));
    rewrite IH by lia; lia.
Qed.

Lemma widest_bounds (l : list string) :
0 <= widest l
/\ Forall (fun c => Z.of_nat (String.length c) <= widest l) l.
Proof.
induction l as [|c l [IH1 IH2]]; unfold widest in *; simpl.
- split; [lia|constructor].
- split; [lia|]. constructor; [lia|].
  eapply Forall_impl; [exact IH2|]. simpl. intros x Hx. lia.
Qed.

(** X19.  The autocompletion box that [showAutocomplete] opens after
    [closeAutocomplete]: its corner is at the column and row asked
    for, it has as many columns as the longest completion and as many
    rows as there are completions, unless the limits given are
    smaller, and its text is the completions, one to a line.  With a
    negative limit no box is opened and nothing is reported. *)
Theorem showAutocomplete_box (completions : list string)
  (left top maxWidth maxHeight : Z) (g : Gui) (maxX maxY : Z) :
gSize g = (maxX, maxY) ->
0 <= maxX < MAX_SIZE -> 0 <= maxY < MAX_SIZE ->
- 2 ^ 31 <= left <= 2 ^ 31 -> - 2 ^ 31 <= top <= 2 ^ 31 ->
- 2 ^ 31 <= maxWidth <= 2 ^ 31 -> - 2 ^ 31 <= maxHeight <= 2 ^ 31 ->
widest completions < 2 ^ 31 -> Z.of_nat (length completions) < 2 ^ 31 ->
let w := Z.min (widest completions) maxWidth in
let h := Z.min (Z.of_nat (length completions)) maxHeight in
(0 <= w -> 0 <= h ->
 exists v,
   showAutocomplete completions left top maxWidth maxHeight
     (closeAutocomplete g)
   = Some (Gocui.putView g AUTOCOMPLETE_VIEW v)
   /\ vRect v = (left, top, left + w + 1, top + h + 1)
   /\ Gocui.Size v = (w, h)
   /\ vBuffer v = Join completions (String NL "")
   /\ vTitle v = "")
/\ (w < 0 \/ h < 0 ->
    showAutocomplete completions left top maxWidth maxHeight
      (closeAutocomplete g)
    = Some (closeAutocomplete g)).
Proof.
intros Hsize HX HY Hleft Htop HmW HmH Hwid Hlen w h.
destruct (widest_bounds completions) as [Hw0 _].
assert (E : showAutocomplete completions left top maxWidth maxHeight
              (closeAutocomplete g)
            = match Gocui.SetView (closeAutocomplete g) AUTOCOMPLETE_VIEW
                      left top (left + w + 1) (top + h + 1)
              with
              | Gocui.SetViewUnknown g' =>
                  v ← Gocui.GetView g' AUTOCOMPLETE_VIEW;
                  Some (Gocui.putView g' AUTOCOMPLETE_VIEW
                          (setViewTextAndCursor (Gocui.SetTitle v "")
                             (Join completions (String NL ""))))
              | Gocui.SetViewOk g' => Some g'
              | Gocui.SetViewError => Some (closeAutocomplete g)
              end).
{ unfold showAutocomplete. rewrite fold_widest by lia.
  rewrite Z.max_r by lia. unfold minInt.
  assert (Ew : (if widest completions <? maxWidth then widest completions
                else maxWidth) = w)
    by (unfold w; destruct (Z.ltb_spec (widest completions) maxWidth); lia).
  assert (Eh : (if Z.of_nat (length completions) <? maxHeight
                then Z.of_nat (length completions) else maxHeight) = h)
    by (unfold h;
        destruct (Z.ltb_spec (Z.of_nat (length completions)) maxHeight);
        lia).
  rewrite Ew, Eh.
  assert (Hwb : - 2 ^ 31 <= w <= 2 ^ 31) by (unfold w; lia).
  assert (Hhb : - 2 ^ 31 <= h <= 2 ^ 31) by (unfold h; lia).
  unfold GoInt.add.
  rewrite (wrap_small (left + w)), (wrap_small (top + h)) by lia.
  rewrite (wrap_small (left + w + 1)), (wrap_small (top + h + 1)) by lia.
  rewrite setView_coordinates.
  change (gSize (closeAutocomplete g)) with (gSize g). rewrite Hsize.
  simpl fst. simpl snd.
  unfold coordinates. cbn [x0 y0 x1 y1].
  rewrite !getCoordinate_0 by (unfold MAX_SIZE in *; lia).
  reflexivity. }
rewrite E. unfold Gocui.SetView. split.
- intros Hw Hh.
  destruct (Z.leb_spec (left + w + 1) left) as [?|_]; [lia|].
  destruct (Z.leb_spec (top + h + 1) top) as [?|_]; [lia|].
  cbn [orb]. unfold Gocui.GetView, closeAutocomplete. simpl views.
  rewrite lookup_delete_eq. simpl views. rewrite lookup_insert_eq.
  cbn [mbind option_bind].
  eexists. split.
  { unfold Gocui.putView, Gocui.withViews, Gocui.DeleteView. simpl.
    rewrite insert_insert_eq, insert_delete_eq. reflexivity. }
  assert (Hr : vRect (setViewTextAndCursor
                        (Gocui.SetTitle
                           (mkView (left, top, left + w + 1, top + h + 1)
                                   "" (0, 0) (0, 0) "") "")
                        (Join completions (String NL "")))
               = (left, top, left + w + 1, top + h + 1)).
  { unfold setViewTextAndCursor, Gocui.SetCursor.
    destruct (Gocui.Size _) as [mx my]. now destruct (_ || _). }
  split; [exact Hr|].
  rewrite vBuffer_setViewTextAndCursor, vTitle_setViewTextAndCursor.
  unfold Gocui.Size. rewrite Hr.
  split; [f_equal; lia|]. split; reflexivity.
- intros Hneg.
  assert (Hb : (left + w + 1 <=? left) || (top + h + 1 <=? top) = true).
  { apply orb_true_iff. rewrite !Z.leb_le. lia. }
  now rewrite Hb.
Qed.

(** ** The arrow keys in the method view *)

Lemma methodDownFrom_other (value : string) (l : list string) (v : View)
  (i : nat) :
value ∉ l -> methodDownFrom value v i l = v.
Proof.
revert v i. induction l as [|val l IH]; intros v i Hn; [reflexivity|].
simpl. destruct (String.eqb_spec val value) as [->|_].
- exfalso. apply Hn. apply list_elem_of_here.
- simpl. apply IH. intros Hin. apply Hn. now apply list_elem_of_further.
Qed.

Lemma methodUpFrom_other (value : string) (l : list string) (v : View)
  (i : nat) :
value ∉ l -> methodUpFrom value v i l = v.
Proof.
revert v i. induction l as [|val l IH]; intros v i Hn; [reflexivity|].
simpl. destruct (String.eqb_spec val value) as [->|_].
- exfalso. apply Hn. apply list_elem_of_here.
- simpl. apply IH. intros Hin. apply Hn. now apply list_elem_of_further.
Qed.

Lemma methodDownFrom_at (v : View) (i : nat) (m : string) :
METHODS !! i = Some m ->
methodDownFrom m v 0 METHODS
= match METHODS !! S i with
  | Some m' => setViewTextAndCursor v m'
  | None => v
  end.
Proof.
intros Hi.
do 9 (destruct i as [|i]; [injection Hi as <-; vm_compute; reflexivity|]).
discriminate Hi.
Qed.

Lemma methodUpFrom_at (v : View) (i : nat) (m : string) :
METHODS !! i = Some m ->
methodUpFrom m v 0 METHODS
= match i with
  | O => v
  | S j => setViewTextAndCursor v (default "" (METHODS !! j))
  end.
Proof.
intros Hi.
do 9 (destruct i as [|i]; [injection Hi as <-; vm_compute; reflexivity|]).
discriminate Hi.
Qed.

(** X20.  The arrow keys in the method view walk through [METHODS]
    without wrapping around.  When the view holds the method of index
    [i], the arrow down writes the method of index [i + 1] and the
    arrow up the one of index [i - 1]; at the last method the arrow
    down, and at the first the arrow up, leave the view as it is; so
    one key undoes the other.  When the view holds no method of
    [METHODS], neither key changes anything. *)
Theorem method_arrows (v : View) :
(TrimSpace (vBuffer v) ∉ METHODS ->
 methodArrowDown v = v /\ methodArrowUp v = v)
/\ (forall i m,
      METHODS !! i = Some m -> TrimSpace (vBuffer v) = m ->
      (forall m', METHODS !! S i = Some m' ->
         vBuffer (methodArrowDown v) = m'
         /\ TrimSpace (vBuffer (methodArrowUp (methodArrowDown v))) = m)
      /\ (METHODS !! S i = None -> methodArrowDown v = v)
      /\ (forall j m', i = S j -> METHODS !! j = Some m' ->
            vBuffer (methodArrowUp v) = m'
            /\ TrimSpace (vBuffer (methodArrowDown (methodArrowUp v))) = m)
      /\ (i = 0%nat -> methodArrowUp v = v)).
Proof.
split.
- intros Hn. split; [apply methodDownFrom_other|apply methodUpFrom_other];
    exact Hn.
- intros i m Hi Hv.
  assert (Hin : forall k x, METHODS !! k = Some x -> TrimSpace x = x)
    by (intros k x Hk; apply TrimSpace_METHODS;
        now apply list_elem_of_lookup_2 in Hk).
  unfold methodArrowDown, methodArrowUp. rewrite Hv.
  rewrite (methodDownFrom_at v i m Hi), (methodUpFrom_at v i m Hi).
  split; [|split; [|split]].
  + intros m' Hm'. rewrite Hm', vBuffer_setViewTextAndCursor.
    split; [reflexivity|]. rewrite (Hin _ _ Hm').
    rewrite (methodUpFrom_at _ (S i) m' Hm'), Hi. simpl.
    rewrite vBuffer_setViewTextAndCursor. exact (Hin _ _ Hi).
  + intros Hm'. now rewrite Hm'.
  + intros j m' -> Hm'. rewrite Hm'. simpl default.
    rewrite vBuffer_setViewTextAndCursor.
    split; [reflexivity|]. rewrite (Hin _ _ Hm').
    rewrite (methodDownFrom_at _ j m' Hm'), Hi.
    rewrite vBuffer_setViewTextAndCursor. exact (Hin _ _ Hi).
  + intros ->. reflexivity.
Qed.

(** * Examples for the rest of the code *)

(** A GET to a server that answers: the entry of the history holds the
    fields and the bytes of the answer. *)
Lemma submit_success_recorded_witness :
  let st0 := exampleState "http://example.com/" "GET" "" "ignored"
               "Accept: text/plain" in
  let st' := submitGoroutine exampleWorld (snd (submitted st0))
               (fst (submitted st0)) in
  history (app st') = [snd (submitted st0)]
  /\ exists q,
      requests st' !! snd (submitted st0) = Some q
      /\ Url q = "http://example.com/" /\ Method q = "GET" /\ Data q = ""
      /\ RawResponseBody q = Some "hello".
Proof.
  intros st0 st'.
  destruct (submit_success_recorded exampleWorld st0 (fst (submitted st0))
              (snd (submitted st0)) (sentBy exampleWorld st0)
              exampleResponse 1)
    as (Hh & _ & _ & q & u & qv & Hq & _ & _ & Hu & Hm & _ & _ & Hd & _
        & Hraw & _).
  - vm_compute. reflexivity.
  - vm_compute. reflexivity.
  - vm_compute. reflexivity.
  - vm_compute. discriminate.
  - fold st' in Hh, Hq. split; [exact Hh|]. exists q.
    split; [exact Hq|]. split; [exact Hu|]. split; [exact Hm|].
    split; [rewrite Hd, Hm; reflexivity|exact Hraw].
Defined.

(** A server whose answer claims gzip and is not: nothing is
    recorded. *)
Lemma gzip_error_not_recorded_witness :
  let st0 := exampleState "http://example.com/" "GET" "" "" "" in
  let st' := submitGoroutine gzipWorld (snd (submitted st0))
               (fst (submitted st0)) in
  history (app st') = []
  /\ updates (gui st')
     = [UFprintBody "Cannot uncompress response: gzip: invalid header"].
Proof.
  intros st0 st'.
  destruct (gzip_error_not_recorded gzipWorld st0 (fst (submitted st0))
              (snd (submitted st0)) (sentBy gzipWorld st0) gzipResponse 1
              "gzip: invalid header")
    as (Ha & Hu & _).
  - vm_compute. reflexivity.
  - vm_compute. reflexivity.
  - reflexivity.
  - vm_compute. reflexivity.
  - reflexivity.
  - fold st' in Ha, Hu. rewrite Ha, Hu. split; reflexivity.
Defined.

(** A GET with text in the data field is sent without a body. *)
Lemma other_methods_send_no_body_witness :
  let st0 := exampleState "http://example.com/" "GET" "" "ignored" "" in
  reqBody (sentBy exampleWorld st0) = None.
Proof.
  intros st0.
  apply (other_methods_send_no_body exampleWorld (snd (submitted st0))
           (fst (submitted st0)) (sentBy exampleWorld st0)).
  - vm_compute. reflexivity.
  - vm_compute. discriminate.
  - vm_compute. discriminate.
  - vm_compute. discriminate.
Defined.

(** A multipart POST whose data does not parse: no request, no
    message. *)
Lemma multipart_parse_error_is_silent_witness :
  let st0 := exampleState "http://example.com/" "POST" "" "a;b"
               "Content-Type: multipart/form-data" in
  let st' := submitGoroutine exampleWorld (snd (submitted st0))
               (fst (submitted st0)) in
  sent st' = [] /\ history (app st') = [] /\ updates (gui st') = [].
Proof.
  intros st0 st'.
  destruct (multipart_parse_error_is_silent exampleWorld st0
              (fst (submitted st0)) (snd (submitted st0))
              "http://example.com/" ∅
              (Header_Set exampleWorld
                 (Header_Set exampleWorld ∅ "User-Agent" "")
                 "Content-Type" "multipart/form-data")
              "invalid semicolon separator in query")
    as (Hs & Ha & Hu).
  - vm_compute. reflexivity.
  - vm_compute. reflexivity.
  - vm_compute. reflexivity.
  - vm_compute. reflexivity.
  - left. vm_compute. reflexivity.
  - vm_compute. reflexivity.
  - vm_compute. reflexivity.
  - fold st' in Hs, Ha, Hu. rewrite Hs, Ha, Hu. repeat split.
Defined.

(** Before the first request the rendering has nothing to do. *)
Lemma PrintBody_nothing_to_render_witness :
  let st := exampleState "http://example.com/" "GET" "" "" "" in
  runUpdate exampleWorld UPrintBody st = Some st.
Proof.
  intros st. apply (PrintBody_nothing_to_render exampleWorld st).
  left. reflexivity.
Defined.

(** The search for [he] in the body of [searchState]. *)
Lemma PrintBody_search_witness :
  exists st' vrb',
    runUpdate exampleWorld UPrintBody searchState = Some st'
    /\ views (gui st') !! RESPONSE_BODY_VIEW = Some vrb'
    /\ vTitle vrb' = "2 results"
    /\ vBuffer vrb'
       = concatAll (map resultLine ["hello"; "help"]).
Proof.
  destruct (PrintBody_search exampleWorld searchState 0%nat
              (default emptyRequest (requests searchState !! 0%nat))
              ("hello" +:+ String NL "help") searchFormatter
              (fieldView "old body"))
    as (st' & vrb' & H1 & H2 & _ & _ & _ & H3).
  - vm_compute. discriminate.
  - vm_compute. reflexivity.
  - vm_compute. reflexivity.
  - vm_compute. reflexivity.
  - vm_compute. reflexivity.
  - vm_compute. reflexivity.
  - vm_compute. discriminate.
  - reflexivity.
  - exists st', vrb'. split; [exact H1|]. split; [exact H2|].
    assert (E : Search searchFormatter
                  (getViewValue (gui searchState) SEARCH_VIEW)
                  ("hello" +:+ String NL "help")
                = inr ["hello"; "help"]) by (vm_compute; reflexivity).
    change (Search
              (if ContextSpecificSearch (config (app searchState))
               then searchFormatter else DEFAULT_FORMATTER exampleWorld))
      with (Search searchFormatter) in H3.
    rewrite E in H3. destruct H3 as [Hb Ht]. split; [exact Ht|exact Hb].
Defined.

(** The body of the last of two requests, shown as it is. *)
Lemma PrintBody_full_render_witness :
  exists st' vrb',
    runUpdate exampleWorld UPrintBody twoRequests = Some st'
    /\ views (gui st') !! RESPONSE_BODY_VIEW = Some vrb'
    /\ vTitle vrb' = "Response body [text]".
Proof.
  destruct (PrintBody_full_render exampleWorld twoRequests 1%nat
              (default emptyRequest (requests twoRequests !! 1%nat))
              "hello" textFormatter
              (default (fieldView "")
                 (views (gui twoRequests) !! RESPONSE_BODY_VIEW)))
    as (st' & vrb' & H1 & H2 & H3 & _).
  - vm_compute. discriminate.
  - vm_compute. reflexivity.
  - vm_compute. reflexivity.
  - vm_compute. reflexivity.
  - vm_compute. reflexivity.
  - vm_compute. reflexivity.
  - right. reflexivity.
  - exists st', vrb'. split; [exact H1|]. split; [exact H2|exact H3].
Defined.
(** From the first view, [NextView] and then [PrevView]. *)
Lemma NextView_PrevView_inverse_witness :
  let g := exampleGui "" "GET" "" "" "" in
  let a := initialApp (mkConfig false false) in
  exists g1 a1 e1 g2 a2 e2,
    NextView g a = Some (g1, a1, e1) /\ viewIndex a1 = 1
    /\ currentView g1 = URL_PARAMS_VIEW
    /\ PrevView_ g1 a1 = Some (g2, a2, e2) /\ viewIndex a2 = 0.
Proof.
  intros g a.
  destruct (NextView_PrevView_inverse g a)
    as (g1 & a1 & e1 & g2 & a2 & e2 & H1 & H2 & _ & H3 & H4 & _ & _ & H5).
  - unfold viewIndexInv. simpl. lia.
  - exists g1, a1, e1, g2, a2, e2.
    split; [exact H1|]. split; [exact H2|].
    split; [|split; [exact H3|exact H4]].
    apply H5.
    + rewrite H2. reflexivity.
    + vm_compute. eauto.
    + discriminate.
Defined.

(** The name of a view of [VIEWS], and a name that is none. *)
Lemma setViewByName_spec_witness :
  let g := exampleGui "" "GET" "" "" "" in
  let a := initialApp (mkConfig false false) in
  setViewByName g a "no-such-view" = Some (g, a, Some "view not found")
  /\ exists g' a' err,
      setViewByName g a REQUEST_DATA_VIEW = Some (g', a', err)
      /\ viewIndex a' = 3 /\ currentView g' = REQUEST_DATA_VIEW.
Proof.
  intros g a.
  destruct (setViewByName_spec g a "no-such-view") as [H1 _].
  { unfold viewIndexInv. simpl. lia. }
  destruct (setViewByName_spec g a REQUEST_DATA_VIEW) as [_ H2].
  { unfold viewIndexInv. simpl. lia. }
  split.
  - apply H1. intros Hin. apply list_elem_of_In in Hin. simpl in Hin.
    intuition discriminate.
  - destruct H2 as (g' & a' & err & E & Hl & Hinv & Hf);
      [unfold VIEWS; in_list|].
    exists g', a', err. split; [exact E|].
    destruct Hinv as [Hlo Hhi]. simpl length in Hhi.
    split.
    + assert (Hk : Z.to_nat (viewIndex a') = 3%nat).
      { remember (Z.to_nat (viewIndex a')) as k eqn:Ek. clear - Hl.
        do 8 (destruct k as [|k]; [first [reflexivity | discriminate Hl]|]).
        discriminate Hl. }
      lia.
    + apply Hf; [vm_compute; eauto|discriminate].
Defined.

(** A popup of 100 by 3 asked for on a terminal of 80 by 24. *)
Lemma CreatePopupView_inside_terminal_witness :
  exists g' a' v,
    CreatePopupView HISTORY_VIEW 100 3 (exampleGui "" "GET" "" "" "")
      (initialApp (mkConfig false false)) = Some (g', a', true)
    /\ views g' !! HISTORY_VIEW = Some v
    /\ Gocui.Size v = (76, 3).
Proof.
  destruct (CreatePopupView_inside_terminal HISTORY_VIEW 100 3
              (exampleGui "" "GET" "" "" "")
              (initialApp (mkConfig false false)) 80 24)
    as (g' & a' & v & x0 & y0 & x1 & y1 & H1 & _ & _ & _ & _ & _ & H2 & _
        & _ & _ & _ & _ & _ & _ & H3 & _).
  - simpl. lia.
  - reflexivity.
  - lia.
  - lia.
  - lia.
  - lia.
  - exists g', a', v. split; [exact H1|]. split; [exact H2|exact H3].
Defined.

(** The history popup after two requests. *)
Lemma ToggleHistory_lists_entries_witness :
  exists st' v,
    ToggleHistory twoRequests = Some (st', true)
    /\ views (gui st') !! HISTORY_VIEW = Some v
    /\ currentView (gui st') = HISTORY_VIEW
    /\ Gocui.Line v 0
       = Some "[00] GET http://example.com/first Accept: text/plain"
    /\ Gocui.Line v 1
       = Some "[01] GET http://example.com/second Accept: text/plain"
    /\ vCursor v = (0, 1).
Proof.
  set (r0 := default emptyRequest (requests twoRequests !! 0%nat)).
  set (r1 := default emptyRequest (requests twoRequests !! 1%nat)).
  assert (Hh : history (app twoRequests) = [0%nat; 1%nat])
    by (vm_compute; reflexivity).
  destruct (ToggleHistory_lists_entries twoRequests 80 24 [r0; r1])
    as (st' & v & H1 & _ & _ & _ & H2 & _ & _ & H3).
  - vm_compute. discriminate.
  - vm_compute. discriminate.
  - vm_compute. reflexivity.
  - lia.
  - lia.
  - vm_compute. discriminate.
  - vm_compute. reflexivity.
  - rewrite Hh.
    constructor; [vm_compute; reflexivity|].
    constructor; [vm_compute; reflexivity|]. constructor.
  - cbn [length]. lia.
  - constructor; [vm_compute; reflexivity|].
    constructor; [vm_compute; reflexivity|]. constructor.
  - destruct H3 as (H3 & H4 & H5); [discriminate|].
    exists st', v. split; [exact H1|]. split; [exact H2|].
    split; [exact H3|].
    pose proof (H4 0%nat r0 eq_refl) as L0.
    pose proof (H4 1%nat r1 eq_refl) as L1.
    change (Z.of_nat 0) with 0 in L0. change (Z.of_nat 1) with 1 in L1.
    split; [rewrite L0; vm_compute; reflexivity|].
    split; [rewrite L1; vm_compute; reflexivity|].
    rewrite H5. vm_compute. reflexivity.
Defined.

(** The method list opened on [PUT]: after one arrow down Enter
    selects [DELETE]. *)
Lemma method_list_selects_witness :
  let g := exampleGui "" "PUT" "" "" "" in
  let a := initialApp (mkConfig false false) in
  exists g1 a1 lv g2 a2,
    ToggleMethodList g a = Some (g1, a1, true)
    /\ views g1 !! METHOD_LIST_VIEW = Some lv
    /\ methodListEnter
         (Gocui.putView g1 METHOD_LIST_VIEW (pressArrows [true] lv)) a1
       = Some (g2, a2)
    /\ views g2 !! METHOD_LIST_VIEW = None
    /\ currentPopup a2 = "".
Proof.
  intros g a.
  destruct (method_list_selects g a 80 24 (fieldView "PUT") [true])
    as (g1 & a1 & lv & m & g2 & a2 & H1 & _ & _ & H2 & _ & _ & H3 & _ & H4
        & H5 & _).
  - simpl. lia.
  - reflexivity.
  - lia.
  - lia.
  - discriminate.
  - discriminate.
  - reflexivity.
  - vm_compute. reflexivity.
  - exists g1, a1, lv, g2, a2. auto.
Defined.

(** A terminal of 40 by 10 shows the notice. *)
Lemma Layout_too_small_witness :
  exists g',
    Layout "https" (fun _ v => v) VIEW_PROPERTIES smallTerminal
      (initialApp (mkConfig false false))
    = Some (g', initialApp (mkConfig false false), VIEW_PROPERTIES, true)
    /\ bufferOf g' ERROR_VIEW
       = Some ("Terminal is too small" +:+ String NL "")
    /\ bufferOf g' URL_VIEW = None.
Proof.
  destruct (Layout_too_small "https" (fun _ v => v) VIEW_PROPERTIES
              smallTerminal (initialApp (mkConfig false false)) 40 10)
    as (_ & H & _).
  - reflexivity.
  - unfold MAX_SIZE. lia.
  - unfold MAX_SIZE. lia.
  - left. unfold MIN_WIDTH. lia.
  - eexists. split; [apply H; [lia|lia|reflexivity]|].
    split; reflexivity.
Defined.

(** The first layout of a terminal of 80 by 24: the URL view starts
    with the scheme, the method view with [GET]. *)
Lemma Layout_places_views_witness :
  exists g' a' props',
    Layout "https" (fun _ v => v) VIEW_PROPERTIES emptyTerminal
      (initialApp (mkConfig false false)) = Some (g', a', props', true)
    /\ bufferOf g' URL_VIEW = Some "https://"
    /\ bufferOf g' REQUEST_METHOD_VIEW = Some "GET"
    /\ (vRect <$> views g' !! RESPONSE_BODY_VIEW) = Some (24, 8, 79, 22).
Proof.
  destruct (Layout_places_views "https" (fun _ v => v) VIEW_PROPERTIES
              emptyTerminal (initialApp (mkConfig false false)) 80 24)
    as (g' & a' & props' & H1 & Hp & _ & _ & _ & _ & Hr & Hrest).
  - unfold viewIndexInv. simpl. lia.
  - reflexivity.
  - unfold MIN_WIDTH, MAX_SIZE. lia.
  - unfold MIN_HEIGHT, MAX_SIZE. lia.
  - destruct (Hrest eq_refl) as (_ & _ & _ & _ & _ & _ & Hnew).
    exists g', a', props'. split; [exact H1|].
    unfold bufferOf, Gocui.GetView.
    destruct (Hnew URL_VIEW) as (v1 & E1 & B1 & _);
      [unfold layoutNames; in_list|discriminate|reflexivity|].
    destruct (Hnew REQUEST_METHOD_VIEW) as (v2 & E2 & B2 & _);
      [unfold layoutNames; in_list|discriminate|reflexivity|].
    destruct (Hr RESPONSE_BODY_VIEW)
      as (v3 & x0 & y0 & x1 & y1 & E3 & R3 & _);
      [unfold layoutNames; in_list|].
    rewrite E1, E2, E3. simpl. rewrite B1, B2, R3, Hp.
    repeat split.
Defined.

(** The popup of a submit on a terminal of 80 by 24. *)
Lemma popup_fits_message_witness :
  exists v,
    popup emptyTerminal "Sending request.."
    = Some (Gocui.putView emptyTerminal POPUP_VIEW v)
    /\ vBuffer v = "Sending request.."
    /\ Gocui.Size v = (17, 1).
Proof.
  destruct (popup_fits_message emptyTerminal "Sending request.." 80 24)
    as [H _].
  - reflexivity.
  - unfold MAX_SIZE. lia.
  - unfold MAX_SIZE. lia.
  - simpl. lia.
  - destruct (H eq_refl) as (v & H1 & _ & H2 & _ & H3 & _).
    exists v. split; [exact H1|]. split; [exact H2|exact H3].
Defined.

(** Two completions shown below a cursor at column 3 of row 4. *)
Lemma showAutocomplete_box_witness :
  exists v,
    showAutocomplete ["Accept"; "Accept-Charset"] 3 5 20 10
      (closeAutocomplete emptyTerminal)
    = Some (Gocui.putView emptyTerminal AUTOCOMPLETE_VIEW v)
    /\ vRect v = (3, 5, 18, 8)
    /\ vBuffer v = "Accept" +:+ String NL "Accept-Charset".
Proof.
  destruct (showAutocomplete_box ["Accept"; "Accept-Charset"] 3 5 20 10
              emptyTerminal 80 24) as [H _].
  - reflexivity.
  - unfold MAX_SIZE. lia.
  - unfold MAX_SIZE. lia.
  - lia.
  - lia.
  - lia.
  - lia.
  - vm_compute. reflexivity.
  - simpl. lia.
  - destruct H as (v & H1 & H2 & _ & H3 & _).
    + vm_compute. discriminate.
    + vm_compute. discriminate.
    + exists v. split; [exact H1|]. split; [exact H2|exact H3].
Defined.

(** From [POST] the arrow down gives [PUT], and the arrow up then
    [POST] again; a method that is not in the list stays. *)
Lemma method_arrows_witness :
  vBuffer (methodArrowDown (fieldView "POST")) = "PUT"
  /\ TrimSpace (vBuffer (methodArrowUp (methodArrowDown (fieldView "POST"))))
     = "POST"
  /\ methodArrowDown (fieldView "FETCH") = fieldView "FETCH".
Proof.
  destruct (method_arrows (fieldView "POST")) as [_ H].
  destruct (H 1%nat "POST" eq_refl eq_refl) as (H1 & _).
  destruct (H1 "PUT" eq_refl) as [H2 H3].
  destruct (method_arrows (fieldView "FETCH")) as [H4 _].
  split; [exact H2|]. split; [exact H3|].
  apply H4. intros Hin. apply list_elem_of_In in Hin. simpl in Hin.
  intuition discriminate.
Defined.
